(** * Session supervisor of the AFK bot manager

    A shallow embedding of the per-slot session class [MinecraftBot]
    (src/MinecraftBot.js, the revision that carries the statistics, the
    lobby recovery, the inventory monitor and [toggleProtection(forceState)]),
    together with the properties its specification states.

    How the JavaScript is read:
    - the object's fields are the fields of the record [State]; a method is
      a function [State -> State] (plus a return value where it has one);
    - [this.bot] is either [null] or the client handle returned by
      [mineflayer.createBot]; only its being null is ever tested, so the
      field is a [bool]. What the client exposes (entities, inventory,
      blocks) changes between two callbacks but not inside one: a callback
      reads it from a [World] snapshot it receives as an argument;
    - calls made on the client ([quit], [setControlState], [equip], ...)
      and on the registered callbacks are appended to the field [trace];
    - [setTimeout]/[setInterval] put an entry in the table [timers] and
      return its key; [clearTimeout]/[clearInterval] delete it. A timer
      that fires is an event of the model ([fire]);
    - an [async] method runs synchronously up to its first [await]; it then
      stops with the point it is suspended at ([Suspended k]) and is
      continued by a resumption event that carries the settled result;
    - numbers: times, delays and counters are [Z]; distances are [Q];
      [a || d] on numbers takes [d] when [a] is missing or zero;
    - [Vec3] and its [distanceTo] belong to the vec3 package and are taken
      as parameters.

    The second part of the file embeds the rest of the class ([getStats],
    [sendChat], [getInventory], [dropItem], [move], the fullness check of
    the inventory monitor), the helper [formatDuration], the command
    parser's [parseSlots] and [validateSlots], and the methods of
    [BotManager] that edit the whitelist and the persisted protection
    switch.

    Not embedded: log lines, [getStatus] (it only reads fields) and the
    tool-durability check of the inventory monitor with its table
    [getMaxDurability] (its percentages are rounded floating-point
    quotients, which [Q] does not reproduce). In [fire] the
    monitor's callback is a no-op: nothing it reads or writes
    ([inventoryAlertSent], [toolAlertSent], the observer of inventory
    alerts) is part of a statement about runs. *)

From stdpp Require Import base gmap strings list pretty.
From Stdlib Require Import ZArith QArith Qround Lia String Ascii Bool Sorted.

Local Open Scope string_scope.
Local Open Scope list_scope.
Local Open Scope Z_scope.

(** ** JavaScript helpers *)

(** [String.prototype.includes]. *)
Fixpoint includes (hay needle : string) : bool :=
  String.prefix needle hay
  || match hay with
     | EmptyString => false
     | String _ rest => includes rest needle
     end.

(** [String.prototype.toLowerCase], on the ASCII range (player names are
    ASCII). *)
Definition lower_ascii (c : ascii) : ascii :=
  let n := N_of_ascii c in
  if ((65 <=? n) && (n <=? 90))%N then ascii_of_N (n + 32) else c.

Fixpoint toLowerCase (s : string) : string :=
  match s with
  | EmptyString => EmptyString
  | String c rest => String (lower_ascii c) (toLowerCase rest)
  end.

(** [Array.prototype.includes] on strings. *)
Definition list_includes (l : list string) (x : string) : bool :=
  existsb (String.eqb x) l.

(** [a || d] for an optional number. *)
Definition orZ (a : option Z) (d : Z) : Z :=
  match a with
  | Some z => if z =? 0 then d else z
  | None => d
  end.

Definition orQ (a : option Q) (d : Q) : Q :=
  match a with
  | Some q => if Qeq_bool q 0 then d else q
  | None => d
  end.

Definition orString (a : option string) (d : string) : string :=
  match a with
  | Some s => if String.eqb s "" then d else s
  | None => d
  end.

(** Truthiness of an optional number ([if (this.stats.connectedAt)]). *)
Definition truthyZ (a : option Z) : bool :=
  match a with
  | Some z => negb (z =? 0)
  | None => false
  end.

(** ** Configuration (config.json, read through [this.config]) *)

Module protection.
Record t := mk {
  enabled : bool;
  emergencyDistance : option Q;
  blockType : option string;
  radius : option Q;
  breakDelay : option Z
}.
End protection.

Module settings.
Record t := mk {
  autoReconnect : bool;
  maxReconnectAttempts : option Z;
  reconnectDelay : option Z;
  antiAfkEnabled : bool;
  antiAfkInterval : option Z;
  proximityAlertEnabled : bool;
  alertDistance : option Q;
  alertCooldown : option Z;
  alertWhitelist : option (list string);
  protection : option protection.t
}.
End settings.

Module accountConfig.
Record t := mk {
  slot : Z;
  username : string;
  protectionEnabled : option bool   (* persisted per-slot override *)
}.
End accountConfig.

Record Config := mkConfig {
  config_settings : settings.t;       (* this.config.settings *)
  config_account : accountConfig.t    (* this.accountConfig *)
}.

(** ** What the game client exposes and accepts *)

Inductive Status := offline | connecting | online | kicked | error | failed.

Definition Status_eqb (a b : Status) : bool :=
  match a, b with
  | offline, offline | connecting, connecting | online, online
  | kicked, kicked | error, error | failed, failed => true
  | _, _ => false
  end.

Record Item := mkItem { item_name : string; item_count : Z; item_slot : Z }.
Record Block := mkBlock { block_name : string }.

(** The outcome of an awaited client action. *)
Inductive Settled := Resolved | Rejected (message : string).

Section Supervisor.

Context {Vec3 : Type}.
Variable distanceTo : Vec3 -> Vec3 -> Q.

Record Entity := mkEntity {
  type : string;
  username : string;
  position : option Vec3
}.

Record World := mkWorld {
  entities : list Entity;      (* bot.entities, in [for ... in] order *)
  entity : option Vec3;        (* bot.entity (null before spawn): its position *)
  food : Z;                    (* bot.food *)
  items : list Item;           (* bot.inventory.items() *)
  emptySlotCount : Z;          (* bot.inventory.emptySlotCount() *)
  findBlocks : string -> Q -> list Vec3;
    (* bot.findBlocks({matching: name, maxDistance, count: 100}) *)
  blockAt : Vec3 -> option Block
}.

(** Calls that leave the supervisor. *)
Inductive Action :=
| createBot                                   (* mineflayer.createBot(...) *)
| quit                                        (* bot.quit() *)
| setControlState (control : string) (on : bool)
| equip (item : Item)
| consume
| chat (message : string)
| lookAt (pos : Vec3)
| dig (pos : Vec3)
| proximityAlert (player : string) (distance : Q)   (* this.onProximityAlert *)
| lobbyDetected (inLobby : bool)                    (* this.onLobbyDetected *)
| connected.                                        (* this.onConnect *)

(** The callbacks handed to [setTimeout]/[setInterval]. *)
Inductive Callback :=
| cbAntiAfk
| cbJumpRelease
| cbCheckFood
| cbProximity
| cbAlertLoop (player : string) (distance : Q) (count : Z)
| cbLobbyFirstTry
| cbLobbyRetry
| cbInventoryMonitor
| cbReconnect
| cbRestart
| cbTeleportAway
| cbTeleportBack.

Record Timer := mkTimer {
  callback : Callback;
  delay : Z;
  repeats : bool     (* setInterval rather than setTimeout *)
}.

#[local] Set Primitive Projections.

Record Stats := mkStats {
  connectedAt : option Z;
  totalUptime : Z;
  reconnects : Z;
  spawnersBroken : Z;
  alertsTriggered : Z;
  lobbyEvents : Z;
  lastDisconnect : option Z;
  sessionStart : Z
}.

Definition set_connectedAt (v : option Z) (s : Stats) : Stats :=
  {| connectedAt := v; totalUptime := totalUptime s; reconnects := reconnects s; spawnersBroken := spawnersBroken s; alertsTriggered := alertsTriggered s; lobbyEvents := lobbyEvents s; lastDisconnect := lastDisconnect s; sessionStart := sessionStart s |}.
Definition set_totalUptime (v : Z) (s : Stats) : Stats :=
  {| connectedAt := connectedAt s; totalUptime := v; reconnects := reconnects s; spawnersBroken := spawnersBroken s; alertsTriggered := alertsTriggered s; lobbyEvents := lobbyEvents s; lastDisconnect := lastDisconnect s; sessionStart := sessionStart s |}.
Definition set_reconnects (v : Z) (s : Stats) : Stats :=
  {| connectedAt := connectedAt s; totalUptime := totalUptime s; reconnects := v; spawnersBroken := spawnersBroken s; alertsTriggered := alertsTriggered s; lobbyEvents := lobbyEvents s; lastDisconnect := lastDisconnect s; sessionStart := sessionStart s |}.
Definition set_spawnersBroken (v : Z) (s : Stats) : Stats :=
  {| connectedAt := connectedAt s; totalUptime := totalUptime s; reconnects := reconnects s; spawnersBroken := v; alertsTriggered := alertsTriggered s; lobbyEvents := lobbyEvents s; lastDisconnect := lastDisconnect s; sessionStart := sessionStart s |}.
Definition set_alertsTriggered (v : Z) (s : Stats) : Stats :=
  {| connectedAt := connectedAt s; totalUptime := totalUptime s; reconnects := reconnects s; spawnersBroken := spawnersBroken s; alertsTriggered := v; lobbyEvents := lobbyEvents s; lastDisconnect := lastDisconnect s; sessionStart := sessionStart s |}.
Definition set_lobbyEvents (v : Z) (s : Stats) : Stats :=
  {| connectedAt := connectedAt s; totalUptime := totalUptime s; reconnects := reconnects s; spawnersBroken := spawnersBroken s; alertsTriggered := alertsTriggered s; lobbyEvents := v; lastDisconnect := lastDisconnect s; sessionStart := sessionStart s |}.
Definition set_lastDisconnect (v : option Z) (s : Stats) : Stats :=
  {| connectedAt := connectedAt s; totalUptime := totalUptime s; reconnects := reconnects s; spawnersBroken := spawnersBroken s; alertsTriggered := alertsTriggered s; lobbyEvents := lobbyEvents s; lastDisconnect := v; sessionStart := sessionStart s |}.

Record State := mkState {
  bot : bool;  (* this.bot is a live client handle (not null) *)
  status : Status;
  isPaused : bool;
  isConnecting : bool;
  isManuallyStopped : bool;
  reconnectAttempts : Z;
  antiAfkInterval : option nat;
  proximityInterval : option nat;
  autoEatTimeout : option nat;
  alertCooldowns : gmap string Z;  (* username -> last alert time *)
  onProximityAlert : bool;  (* callback registered *)
  onLobbyDetected : bool;
  onInventoryAlert : bool;
  onConnect : bool;
  tempReconnectDelay : option Z;
  protectionEnabled : bool;
  reconnectTimeout : option nat;
  lastPosition : option Vec3;
  isInLobby : bool;
  lobbyRetryInterval : option nat;
  isEating : bool;
  eatTimeoutCount : Z;
  inventoryMonitorInterval : option nat;
  inventoryAlertSent : bool;
  toolAlertSent : list Z;
  stats : Stats;
  _cachedWhitelist : list string;
  _protectionRunning : bool;  (* undefined until first set: falsy *)
  timers : gmap nat Timer;  (* pending setTimeout/setInterval entries of this slot *)
  nextTimer : nat;  (* next fresh timer handle *)
  trace : list Action;  (* calls made on the client and on the callbacks, oldest first *)
  uncaught : nat  (* TypeErrors that escaped a callback or rejected an async method *)
}.

Definition set_bot (v : bool) (s : State) : State :=
  {| bot := v; status := status s; isPaused := isPaused s; isConnecting := isConnecting s; isManuallyStopped := isManuallyStopped s; reconnectAttempts := reconnectAttempts s; antiAfkInterval := antiAfkInterval s; proximityInterval := proximityInterval s; autoEatTimeout := autoEatTimeout s; alertCooldowns := alertCooldowns s; onProximityAlert := onProximityAlert s; onLobbyDetected := onLobbyDetected s; onInventoryAlert := onInventoryAlert s; onConnect := onConnect s; tempReconnectDelay := tempReconnectDelay s; protectionEnabled := protectionEnabled s; reconnectTimeout := reconnectTimeout s; lastPosition := lastPosition s; isInLobby := isInLobby s; lobbyRetryInterval := lobbyRetryInterval s; isEating := isEating s; eatTimeoutCount := eatTimeoutCount s; inventoryMonitorInterval := inventoryMonitorInterval s; inventoryAlertSent := inventoryAlertSent s; toolAlertSent := toolAlertSent s; stats := stats s; _cachedWhitelist := _cachedWhitelist s; _protectionRunning := _protectionRunning s; timers := timers s; nextTimer := nextTimer s; trace := trace s; uncaught := uncaught s |}.
Definition set_status (v : Status) (s : State) : State :=
  {| bot := bot s; status := v; isPaused := isPaused s; isConnecting := isConnecting s; isManuallyStopped := isManuallyStopped s; reconnectAttempts := reconnectAttempts s; antiAfkInterval := antiAfkInterval s; proximityInterval := proximityInterval s; autoEatTimeout := autoEatTimeout s; alertCooldowns := alertCooldowns s; onProximityAlert := onProximityAlert s; onLobbyDetected := onLobbyDetected s; onInventoryAlert := onInventoryAlert s; onConnect := onConnect s; tempReconnectDelay := tempReconnectDelay s; protectionEnabled := protectionEnabled s; reconnectTimeout := reconnectTimeout s; lastPosition := lastPosition s; isInLobby := isInLobby s; lobbyRetryInterval := lobbyRetryInterval s; isEating := isEating s; eatTimeoutCount := eatTimeoutCount s; inventoryMonitorInterval := inventoryMonitorInterval s; inventoryAlertSent := inventoryAlertSent s; toolAlertSent := toolAlertSent s; stats := stats s; _cachedWhitelist := _cachedWhitelist s; _protectionRunning := _protectionRunning s; timers := timers s; nextTimer := nextTimer s; trace := trace s; uncaught := uncaught s |}.
Definition set_isPaused (v : bool) (s : State) : State :=
  {| bot := bot s; status := status s; isPaused := v; isConnecting := isConnecting s; isManuallyStopped := isManuallyStopped s; reconnectAttempts := reconnectAttempts s; antiAfkInterval := antiAfkInterval s; proximityInterval := proximityInterval s; autoEatTimeout := autoEatTimeout s; alertCooldowns := alertCooldowns s; onProximityAlert := onProximityAlert s; onLobbyDetected := onLobbyDetected s; onInventoryAlert := onInventoryAlert s; onConnect := onConnect s; tempReconnectDelay := tempReconnectDelay s; protectionEnabled := protectionEnabled s; reconnectTimeout := reconnectTimeout s; lastPosition := lastPosition s; isInLobby := isInLobby s; lobbyRetryInterval := lobbyRetryInterval s; isEating := isEating s; eatTimeoutCount := eatTimeoutCount s; inventoryMonitorInterval := inventoryMonitorInterval s; inventoryAlertSent := inventoryAlertSent s; toolAlertSent := toolAlertSent s; stats := stats s; _cachedWhitelist := _cachedWhitelist s; _protectionRunning := _protectionRunning s; timers := timers s; nextTimer := nextTimer s; trace := trace s; uncaught := uncaught s |}.
Definition set_isConnecting (v : bool) (s : State) : State :=
  {| bot := bot s; status := status s; isPaused := isPaused s; isConnecting := v; isManuallyStopped := isManuallyStopped s; reconnectAttempts := reconnectAttempts s; antiAfkInterval := antiAfkInterval s; proximityInterval := proximityInterval s; autoEatTimeout := autoEatTimeout s; alertCooldowns := alertCooldowns s; onProximityAlert := onProximityAlert s; onLobbyDetected := onLobbyDetected s; onInventoryAlert := onInventoryAlert s; onConnect := onConnect s; tempReconnectDelay := tempReconnectDelay s; protectionEnabled := protectionEnabled s; reconnectTimeout := reconnectTimeout s; lastPosition := lastPosition s; isInLobby := isInLobby s; lobbyRetryInterval := lobbyRetryInterval s; isEating := isEating s; eatTimeoutCount := eatTimeoutCount s; inventoryMonitorInterval := inventoryMonitorInterval s; inventoryAlertSent := inventoryAlertSent s; toolAlertSent := toolAlertSent s; stats := stats s; _cachedWhitelist := _cachedWhitelist s; _protectionRunning := _protectionRunning s; timers := timers s; nextTimer := nextTimer s; trace := trace s; uncaught := uncaught s |}.
Definition set_isManuallyStopped (v : bool) (s : State) : State :=
  {| bot := bot s; status := status s; isPaused := isPaused s; isConnecting := isConnecting s; isManuallyStopped := v; reconnectAttempts := reconnectAttempts s; antiAfkInterval := antiAfkInterval s; proximityInterval := proximityInterval s; autoEatTimeout := autoEatTimeout s; alertCooldowns := alertCooldowns s; onProximityAlert := onProximityAlert s; onLobbyDetected := onLobbyDetected s; onInventoryAlert := onInventoryAlert s; onConnect := onConnect s; tempReconnectDelay := tempReconnectDelay s; protectionEnabled := protectionEnabled s; reconnectTimeout := reconnectTimeout s; lastPosition := lastPosition s; isInLobby := isInLobby s; lobbyRetryInterval := lobbyRetryInterval s; isEating := isEating s; eatTimeoutCount := eatTimeoutCount s; inventoryMonitorInterval := inventoryMonitorInterval s; inventoryAlertSent := inventoryAlertSent s; toolAlertSent := toolAlertSent s; stats := stats s; _cachedWhitelist := _cachedWhitelist s; _protectionRunning := _protectionRunning s; timers := timers s; nextTimer := nextTimer s; trace := trace s; uncaught := uncaught s |}.
Definition set_reconnectAttempts (v : Z) (s : State) : State :=
  {| bot := bot s; status := status s; isPaused := isPaused s; isConnecting := isConnecting s; isManuallyStopped := isManuallyStopped s; reconnectAttempts := v; antiAfkInterval := antiAfkInterval s; proximityInterval := proximityInterval s; autoEatTimeout := autoEatTimeout s; alertCooldowns := alertCooldowns s; onProximityAlert := onProximityAlert s; onLobbyDetected := onLobbyDetected s; onInventoryAlert := onInventoryAlert s; onConnect := onConnect s; tempReconnectDelay := tempReconnectDelay s; protectionEnabled := protectionEnabled s; reconnectTimeout := reconnectTimeout s; lastPosition := lastPosition s; isInLobby := isInLobby s; lobbyRetryInterval := lobbyRetryInterval s; isEating := isEating s; eatTimeoutCount := eatTimeoutCount s; inventoryMonitorInterval := inventoryMonitorInterval s; inventoryAlertSent := inventoryAlertSent s; toolAlertSent := toolAlertSent s; stats := stats s; _cachedWhitelist := _cachedWhitelist s; _protectionRunning := _protectionRunning s; timers := timers s; nextTimer := nextTimer s; trace := trace s; uncaught := uncaught s |}.
Definition set_antiAfkInterval (v : option nat) (s : State) : State :=
  {| bot := bot s; status := status s; isPaused := isPaused s; isConnecting := isConnecting s; isManuallyStopped := isManuallyStopped s; reconnectAttempts := reconnectAttempts s; antiAfkInterval := v; proximityInterval := proximityInterval s; autoEatTimeout := autoEatTimeout s; alertCooldowns := alertCooldowns s; onProximityAlert := onProximityAlert s; onLobbyDetected := onLobbyDetected s; onInventoryAlert := onInventoryAlert s; onConnect := onConnect s; tempReconnectDelay := tempReconnectDelay s; protectionEnabled := protectionEnabled s; reconnectTimeout := reconnectTimeout s; lastPosition := lastPosition s; isInLobby := isInLobby s; lobbyRetryInterval := lobbyRetryInterval s; isEating := isEating s; eatTimeoutCount := eatTimeoutCount s; inventoryMonitorInterval := inventoryMonitorInterval s; inventoryAlertSent := inventoryAlertSent s; toolAlertSent := toolAlertSent s; stats := stats s; _cachedWhitelist := _cachedWhitelist s; _protectionRunning := _protectionRunning s; timers := timers s; nextTimer := nextTimer s; trace := trace s; uncaught := uncaught s |}.
Definition set_proximityInterval (v : option nat) (s : State) : State :=
  {| bot := bot s; status := status s; isPaused := isPaused s; isConnecting := isConnecting s; isManuallyStopped := isManuallyStopped s; reconnectAttempts := reconnectAttempts s; antiAfkInterval := antiAfkInterval s; proximityInterval := v; autoEatTimeout := autoEatTimeout s; alertCooldowns := alertCooldowns s; onProximityAlert := onProximityAlert s; onLobbyDetected := onLobbyDetected s; onInventoryAlert := onInventoryAlert s; onConnect := onConnect s; tempReconnectDelay := tempReconnectDelay s; protectionEnabled := protectionEnabled s; reconnectTimeout := reconnectTimeout s; lastPosition := lastPosition s; isInLobby := isInLobby s; lobbyRetryInterval := lobbyRetryInterval s; isEating := isEating s; eatTimeoutCount := eatTimeoutCount s; inventoryMonitorInterval := inventoryMonitorInterval s; inventoryAlertSent := inventoryAlertSent s; toolAlertSent := toolAlertSent s; stats := stats s; _cachedWhitelist := _cachedWhitelist s; _protectionRunning := _protectionRunning s; timers := timers s; nextTimer := nextTimer s; trace := trace s; uncaught := uncaught s |}.
Definition set_autoEatTimeout (v : option nat) (s : State) : State :=
  {| bot := bot s; status := status s; isPaused := isPaused s; isConnecting := isConnecting s; isManuallyStopped := isManuallyStopped s; reconnectAttempts := reconnectAttempts s; antiAfkInterval := antiAfkInterval s; proximityInterval := proximityInterval s; autoEatTimeout := v; alertCooldowns := alertCooldowns s; onProximityAlert := onProximityAlert s; onLobbyDetected := onLobbyDetected s; onInventoryAlert := onInventoryAlert s; onConnect := onConnect s; tempReconnectDelay := tempReconnectDelay s; protectionEnabled := protectionEnabled s; reconnectTimeout := reconnectTimeout s; lastPosition := lastPosition s; isInLobby := isInLobby s; lobbyRetryInterval := lobbyRetryInterval s; isEating := isEating s; eatTimeoutCount := eatTimeoutCount s; inventoryMonitorInterval := inventoryMonitorInterval s; inventoryAlertSent := inventoryAlertSent s; toolAlertSent := toolAlertSent s; stats := stats s; _cachedWhitelist := _cachedWhitelist s; _protectionRunning := _protectionRunning s; timers := timers s; nextTimer := nextTimer s; trace := trace s; uncaught := uncaught s |}.
Definition set_alertCooldowns (v : gmap string Z) (s : State) : State :=
  {| bot := bot s; status := status s; isPaused := isPaused s; isConnecting := isConnecting s; isManuallyStopped := isManuallyStopped s; reconnectAttempts := reconnectAttempts s; antiAfkInterval := antiAfkInterval s; proximityInterval := proximityInterval s; autoEatTimeout := autoEatTimeout s; alertCooldowns := v; onProximityAlert := onProximityAlert s; onLobbyDetected := onLobbyDetected s; onInventoryAlert := onInventoryAlert s; onConnect := onConnect s; tempReconnectDelay := tempReconnectDelay s; protectionEnabled := protectionEnabled s; reconnectTimeout := reconnectTimeout s; lastPosition := lastPosition s; isInLobby := isInLobby s; lobbyRetryInterval := lobbyRetryInterval s; isEating := isEating s; eatTimeoutCount := eatTimeoutCount s; inventoryMonitorInterval := inventoryMonitorInterval s; inventoryAlertSent := inventoryAlertSent s; toolAlertSent := toolAlertSent s; stats := stats s; _cachedWhitelist := _cachedWhitelist s; _protectionRunning := _protectionRunning s; timers := timers s; nextTimer := nextTimer s; trace := trace s; uncaught := uncaught s |}.
Definition set_onProximityAlert (v : bool) (s : State) : State :=
  {| bot := bot s; status := status s; isPaused := isPaused s; isConnecting := isConnecting s; isManuallyStopped := isManuallyStopped s; reconnectAttempts := reconnectAttempts s; antiAfkInterval := antiAfkInterval s; proximityInterval := proximityInterval s; autoEatTimeout := autoEatTimeout s; alertCooldowns := alertCooldowns s; onProximityAlert := v; onLobbyDetected := onLobbyDetected s; onInventoryAlert := onInventoryAlert s; onConnect := onConnect s; tempReconnectDelay := tempReconnectDelay s; protectionEnabled := protectionEnabled s; reconnectTimeout := reconnectTimeout s; lastPosition := lastPosition s; isInLobby := isInLobby s; lobbyRetryInterval := lobbyRetryInterval s; isEating := isEating s; eatTimeoutCount := eatTimeoutCount s; inventoryMonitorInterval := inventoryMonitorInterval s; inventoryAlertSent := inventoryAlertSent s; toolAlertSent := toolAlertSent s; stats := stats s; _cachedWhitelist := _cachedWhitelist s; _protectionRunning := _protectionRunning s; timers := timers s; nextTimer := nextTimer s; trace := trace s; uncaught := uncaught s |}.
Definition set_onLobbyDetected (v : bool) (s : State) : State :=
  {| bot := bot s; status := status s; isPaused := isPaused s; isConnecting := isConnecting s; isManuallyStopped := isManuallyStopped s; reconnectAttempts := reconnectAttempts s; antiAfkInterval := antiAfkInterval s; proximityInterval := proximityInterval s; autoEatTimeout := autoEatTimeout s; alertCooldowns := alertCooldowns s; onProximityAlert := onProximityAlert s; onLobbyDetected := v; onInventoryAlert := onInventoryAlert s; onConnect := onConnect s; tempReconnectDelay := tempReconnectDelay s; protectionEnabled := protectionEnabled s; reconnectTimeout := reconnectTimeout s; lastPosition := lastPosition s; isInLobby := isInLobby s; lobbyRetryInterval := lobbyRetryInterval s; isEating := isEating s; eatTimeoutCount := eatTimeoutCount s; inventoryMonitorInterval := inventoryMonitorInterval s; inventoryAlertSent := inventoryAlertSent s; toolAlertSent := toolAlertSent s; stats := stats s; _cachedWhitelist := _cachedWhitelist s; _protectionRunning := _protectionRunning s; timers := timers s; nextTimer := nextTimer s; trace := trace s; uncaught := uncaught s |}.
Definition set_onInventoryAlert (v : bool) (s : State) : State :=
  {| bot := bot s; status := status s; isPaused := isPaused s; isConnecting := isConnecting s; isManuallyStopped := isManuallyStopped s; reconnectAttempts := reconnectAttempts s; antiAfkInterval := antiAfkInterval s; proximityInterval := proximityInterval s; autoEatTimeout := autoEatTimeout s; alertCooldowns := alertCooldowns s; onProximityAlert := onProximityAlert s; onLobbyDetected := onLobbyDetected s; onInventoryAlert := v; onConnect := onConnect s; tempReconnectDelay := tempReconnectDelay s; protectionEnabled := protectionEnabled s; reconnectTimeout := reconnectTimeout s; lastPosition := lastPosition s; isInLobby := isInLobby s; lobbyRetryInterval := lobbyRetryInterval s; isEating := isEating s; eatTimeoutCount := eatTimeoutCount s; inventoryMonitorInterval := inventoryMonitorInterval s; inventoryAlertSent := inventoryAlertSent s; toolAlertSent := toolAlertSent s; stats := stats s; _cachedWhitelist := _cachedWhitelist s; _protectionRunning := _protectionRunning s; timers := timers s; nextTimer := nextTimer s; trace := trace s; uncaught := uncaught s |}.
Definition set_onConnect (v : bool) (s : State) : State :=
  {| bot := bot s; status := status s; isPaused := isPaused s; isConnecting := isConnecting s; isManuallyStopped := isManuallyStopped s; reconnectAttempts := reconnectAttempts s; antiAfkInterval := antiAfkInterval s; proximityInterval := proximityInterval s; autoEatTimeout := autoEatTimeout s; alertCooldowns := alertCooldowns s; onProximityAlert := onProximityAlert s; onLobbyDetected := onLobbyDetected s; onInventoryAlert := onInventoryAlert s; onConnect := v; tempReconnectDelay := tempReconnectDelay s; protectionEnabled := protectionEnabled s; reconnectTimeout := reconnectTimeout s; lastPosition := lastPosition s; isInLobby := isInLobby s; lobbyRetryInterval := lobbyRetryInterval s; isEating := isEating s; eatTimeoutCount := eatTimeoutCount s; inventoryMonitorInterval := inventoryMonitorInterval s; inventoryAlertSent := inventoryAlertSent s; toolAlertSent := toolAlertSent s; stats := stats s; _cachedWhitelist := _cachedWhitelist s; _protectionRunning := _protectionRunning s; timers := timers s; nextTimer := nextTimer s; trace := trace s; uncaught := uncaught s |}.
Definition set_tempReconnectDelay (v : option Z) (s : State) : State :=
  {| bot := bot s; status := status s; isPaused := isPaused s; isConnecting := isConnecting s; isManuallyStopped := isManuallyStopped s; reconnectAttempts := reconnectAttempts s; antiAfkInterval := antiAfkInterval s; proximityInterval := proximityInterval s; autoEatTimeout := autoEatTimeout s; alertCooldowns := alertCooldowns s; onProximityAlert := onProximityAlert s; onLobbyDetected := onLobbyDetected s; onInventoryAlert := onInventoryAlert s; onConnect := onConnect s; tempReconnectDelay := v; protectionEnabled := protectionEnabled s; reconnectTimeout := reconnectTimeout s; lastPosition := lastPosition s; isInLobby := isInLobby s; lobbyRetryInterval := lobbyRetryInterval s; isEating := isEating s; eatTimeoutCount := eatTimeoutCount s; inventoryMonitorInterval := inventoryMonitorInterval s; inventoryAlertSent := inventoryAlertSent s; toolAlertSent := toolAlertSent s; stats := stats s; _cachedWhitelist := _cachedWhitelist s; _protectionRunning := _protectionRunning s; timers := timers s; nextTimer := nextTimer s; trace := trace s; uncaught := uncaught s |}.
Definition set_protectionEnabled (v : bool) (s : State) : State :=
  {| bot := bot s; status := status s; isPaused := isPaused s; isConnecting := isConnecting s; isManuallyStopped := isManuallyStopped s; reconnectAttempts := reconnectAttempts s; antiAfkInterval := antiAfkInterval s; proximityInterval := proximityInterval s; autoEatTimeout := autoEatTimeout s; alertCooldowns := alertCooldowns s; onProximityAlert := onProximityAlert s; onLobbyDetected := onLobbyDetected s; onInventoryAlert := onInventoryAlert s; onConnect := onConnect s; tempReconnectDelay := tempReconnectDelay s; protectionEnabled := v; reconnectTimeout := reconnectTimeout s; lastPosition := lastPosition s; isInLobby := isInLobby s; lobbyRetryInterval := lobbyRetryInterval s; isEating := isEating s; eatTimeoutCount := eatTimeoutCount s; inventoryMonitorInterval := inventoryMonitorInterval s; inventoryAlertSent := inventoryAlertSent s; toolAlertSent := toolAlertSent s; stats := stats s; _cachedWhitelist := _cachedWhitelist s; _protectionRunning := _protectionRunning s; timers := timers s; nextTimer := nextTimer s; trace := trace s; uncaught := uncaught s |}.
Definition set_reconnectTimeout (v : option nat) (s : State) : State :=
  {| bot := bot s; status := status s; isPaused := isPaused s; isConnecting := isConnecting s; isManuallyStopped := isManuallyStopped s; reconnectAttempts := reconnectAttempts s; antiAfkInterval := antiAfkInterval s; proximityInterval := proximityInterval s; autoEatTimeout := autoEatTimeout s; alertCooldowns := alertCooldowns s; onProximityAlert := onProximityAlert s; onLobbyDetected := onLobbyDetected s; onInventoryAlert := onInventoryAlert s; onConnect := onConnect s; tempReconnectDelay := tempReconnectDelay s; protectionEnabled := protectionEnabled s; reconnectTimeout := v; lastPosition := lastPosition s; isInLobby := isInLobby s; lobbyRetryInterval := lobbyRetryInterval s; isEating := isEating s; eatTimeoutCount := eatTimeoutCount s; inventoryMonitorInterval := inventoryMonitorInterval s; inventoryAlertSent := inventoryAlertSent s; toolAlertSent := toolAlertSent s; stats := stats s; _cachedWhitelist := _cachedWhitelist s; _protectionRunning := _protectionRunning s; timers := timers s; nextTimer := nextTimer s; trace := trace s; uncaught := uncaught s |}.
Definition set_lastPosition (v : option Vec3) (s : State) : State :=
  {| bot := bot s; status := status s; isPaused := isPaused s; isConnecting := isConnecting s; isManuallyStopped := isManuallyStopped s; reconnectAttempts := reconnectAttempts s; antiAfkInterval := antiAfkInterval s; proximityInterval := proximityInterval s; autoEatTimeout := autoEatTimeout s; alertCooldowns := alertCooldowns s; onProximityAlert := onProximityAlert s; onLobbyDetected := onLobbyDetected s; onInventoryAlert := onInventoryAlert s; onConnect := onConnect s; tempReconnectDelay := tempReconnectDelay s; protectionEnabled := protectionEnabled s; reconnectTimeout := reconnectTimeout s; lastPosition := v; isInLobby := isInLobby s; lobbyRetryInterval := lobbyRetryInterval s; isEating := isEating s; eatTimeoutCount := eatTimeoutCount s; inventoryMonitorInterval := inventoryMonitorInterval s; inventoryAlertSent := inventoryAlertSent s; toolAlertSent := toolAlertSent s; stats := stats s; _cachedWhitelist := _cachedWhitelist s; _protectionRunning := _protectionRunning s; timers := timers s; nextTimer := nextTimer s; trace := trace s; uncaught := uncaught s |}.
Definition set_isInLobby (v : bool) (s : State) : State :=
  {| bot := bot s; status := status s; isPaused := isPaused s; isConnecting := isConnecting s; isManuallyStopped := isManuallyStopped s; reconnectAttempts := reconnectAttempts s; antiAfkInterval := antiAfkInterval s; proximityInterval := proximityInterval s; autoEatTimeout := autoEatTimeout s; alertCooldowns := alertCooldowns s; onProximityAlert := onProximityAlert s; onLobbyDetected := onLobbyDetected s; onInventoryAlert := onInventoryAlert s; onConnect := onConnect s; tempReconnectDelay := tempReconnectDelay s; protectionEnabled := protectionEnabled s; reconnectTimeout := reconnectTimeout s; lastPosition := lastPosition s; isInLobby := v; lobbyRetryInterval := lobbyRetryInterval s; isEating := isEating s; eatTimeoutCount := eatTimeoutCount s; inventoryMonitorInterval := inventoryMonitorInterval s; inventoryAlertSent := inventoryAlertSent s; toolAlertSent := toolAlertSent s; stats := stats s; _cachedWhitelist := _cachedWhitelist s; _protectionRunning := _protectionRunning s; timers := timers s; nextTimer := nextTimer s; trace := trace s; uncaught := uncaught s |}.
Definition set_lobbyRetryInterval (v : option nat) (s : State) : State :=
  {| bot := bot s; status := status s; isPaused := isPaused s; isConnecting := isConnecting s; isManuallyStopped := isManuallyStopped s; reconnectAttempts := reconnectAttempts s; antiAfkInterval := antiAfkInterval s; proximityInterval := proximityInterval s; autoEatTimeout := autoEatTimeout s; alertCooldowns := alertCooldowns s; onProximityAlert := onProximityAlert s; onLobbyDetected := onLobbyDetected s; onInventoryAlert := onInventoryAlert s; onConnect := onConnect s; tempReconnectDelay := tempReconnectDelay s; protectionEnabled := protectionEnabled s; reconnectTimeout := reconnectTimeout s; lastPosition := lastPosition s; isInLobby := isInLobby s; lobbyRetryInterval := v; isEating := isEating s; eatTimeoutCount := eatTimeoutCount s; inventoryMonitorInterval := inventoryMonitorInterval s; inventoryAlertSent := inventoryAlertSent s; toolAlertSent := toolAlertSent s; stats := stats s; _cachedWhitelist := _cachedWhitelist s; _protectionRunning := _protectionRunning s; timers := timers s; nextTimer := nextTimer s; trace := trace s; uncaught := uncaught s |}.
Definition set_isEating (v : bool) (s : State) : State :=
  {| bot := bot s; status := status s; isPaused := isPaused s; isConnecting := isConnecting s; isManuallyStopped := isManuallyStopped s; reconnectAttempts := reconnectAttempts s; antiAfkInterval := antiAfkInterval s; proximityInterval := proximityInterval s; autoEatTimeout := autoEatTimeout s; alertCooldowns := alertCooldowns s; onProximityAlert := onProximityAlert s; onLobbyDetected := onLobbyDetected s; onInventoryAlert := onInventoryAlert s; onConnect := onConnect s; tempReconnectDelay := tempReconnectDelay s; protectionEnabled := protectionEnabled s; reconnectTimeout := reconnectTimeout s; lastPosition := lastPosition s; isInLobby := isInLobby s; lobbyRetryInterval := lobbyRetryInterval s; isEating := v; eatTimeoutCount := eatTimeoutCount s; inventoryMonitorInterval := inventoryMonitorInterval s; inventoryAlertSent := inventoryAlertSent s; toolAlertSent := toolAlertSent s; stats := stats s; _cachedWhitelist := _cachedWhitelist s; _protectionRunning := _protectionRunning s; timers := timers s; nextTimer := nextTimer s; trace := trace s; uncaught := uncaught s |}.
Definition set_eatTimeoutCount (v : Z) (s : State) : State :=
  {| bot := bot s; status := status s; isPaused := isPaused s; isConnecting := isConnecting s; isManuallyStopped := isManuallyStopped s; reconnectAttempts := reconnectAttempts s; antiAfkInterval := antiAfkInterval s; proximityInterval := proximityInterval s; autoEatTimeout := autoEatTimeout s; alertCooldowns := alertCooldowns s; onProximityAlert := onProximityAlert s; onLobbyDetected := onLobbyDetected s; onInventoryAlert := onInventoryAlert s; onConnect := onConnect s; tempReconnectDelay := tempReconnectDelay s; protectionEnabled := protectionEnabled s; reconnectTimeout := reconnectTimeout s; lastPosition := lastPosition s; isInLobby := isInLobby s; lobbyRetryInterval := lobbyRetryInterval s; isEating := isEating s; eatTimeoutCount := v; inventoryMonitorInterval := inventoryMonitorInterval s; inventoryAlertSent := inventoryAlertSent s; toolAlertSent := toolAlertSent s; stats := stats s; _cachedWhitelist := _cachedWhitelist s; _protectionRunning := _protectionRunning s; timers := timers s; nextTimer := nextTimer s; trace := trace s; uncaught := uncaught s |}.
Definition set_inventoryMonitorInterval (v : option nat) (s : State) : State :=
  {| bot := bot s; status := status s; isPaused := isPaused s; isConnecting := isConnecting s; isManuallyStopped := isManuallyStopped s; reconnectAttempts := reconnectAttempts s; antiAfkInterval := antiAfkInterval s; proximityInterval := proximityInterval s; autoEatTimeout := autoEatTimeout s; alertCooldowns := alertCooldowns s; onProximityAlert := onProximityAlert s; onLobbyDetected := onLobbyDetected s; onInventoryAlert := onInventoryAlert s; onConnect := onConnect s; tempReconnectDelay := tempReconnectDelay s; protectionEnabled := protectionEnabled s; reconnectTimeout := reconnectTimeout s; lastPosition := lastPosition s; isInLobby := isInLobby s; lobbyRetryInterval := lobbyRetryInterval s; isEating := isEating s; eatTimeoutCount := eatTimeoutCount s; inventoryMonitorInterval := v; inventoryAlertSent := inventoryAlertSent s; toolAlertSent := toolAlertSent s; stats := stats s; _cachedWhitelist := _cachedWhitelist s; _protectionRunning := _protectionRunning s; timers := timers s; nextTimer := nextTimer s; trace := trace s; uncaught := uncaught s |}.
Definition set_inventoryAlertSent (v : bool) (s : State) : State :=
  {| bot := bot s; status := status s; isPaused := isPaused s; isConnecting := isConnecting s; isManuallyStopped := isManuallyStopped s; reconnectAttempts := reconnectAttempts s; antiAfkInterval := antiAfkInterval s; proximityInterval := proximityInterval s; autoEatTimeout := autoEatTimeout s; alertCooldowns := alertCooldowns s; onProximityAlert := onProximityAlert s; onLobbyDetected := onLobbyDetected s; onInventoryAlert := onInventoryAlert s; onConnect := onConnect s; tempReconnectDelay := tempReconnectDelay s; protectionEnabled := protectionEnabled s; reconnectTimeout := reconnectTimeout s; lastPosition := lastPosition s; isInLobby := isInLobby s; lobbyRetryInterval := lobbyRetryInterval s; isEating := isEating s; eatTimeoutCount := eatTimeoutCount s; inventoryMonitorInterval := inventoryMonitorInterval s; inventoryAlertSent := v; toolAlertSent := toolAlertSent s; stats := stats s; _cachedWhitelist := _cachedWhitelist s; _protectionRunning := _protectionRunning s; timers := timers s; nextTimer := nextTimer s; trace := trace s; uncaught := uncaught s |}.
Definition set_toolAlertSent (v : list Z) (s : State) : State :=
  {| bot := bot s; status := status s; isPaused := isPaused s; isConnecting := isConnecting s; isManuallyStopped := isManuallyStopped s; reconnectAttempts := reconnectAttempts s; antiAfkInterval := antiAfkInterval s; proximityInterval := proximityInterval s; autoEatTimeout := autoEatTimeout s; alertCooldowns := alertCooldowns s; onProximityAlert := onProximityAlert s; onLobbyDetected := onLobbyDetected s; onInventoryAlert := onInventoryAlert s; onConnect := onConnect s; tempReconnectDelay := tempReconnectDelay s; protectionEnabled := protectionEnabled s; reconnectTimeout := reconnectTimeout s; lastPosition := lastPosition s; isInLobby := isInLobby s; lobbyRetryInterval := lobbyRetryInterval s; isEating := isEating s; eatTimeoutCount := eatTimeoutCount s; inventoryMonitorInterval := inventoryMonitorInterval s; inventoryAlertSent := inventoryAlertSent s; toolAlertSent := v; stats := stats s; _cachedWhitelist := _cachedWhitelist s; _protectionRunning := _protectionRunning s; timers := timers s; nextTimer := nextTimer s; trace := trace s; uncaught := uncaught s |}.
Definition set_stats (v : Stats) (s : State) : State :=
  {| bot := bot s; status := status s; isPaused := isPaused s; isConnecting := isConnecting s; isManuallyStopped := isManuallyStopped s; reconnectAttempts := reconnectAttempts s; antiAfkInterval := antiAfkInterval s; proximityInterval := proximityInterval s; autoEatTimeout := autoEatTimeout s; alertCooldowns := alertCooldowns s; onProximityAlert := onProximityAlert s; onLobbyDetected := onLobbyDetected s; onInventoryAlert := onInventoryAlert s; onConnect := onConnect s; tempReconnectDelay := tempReconnectDelay s; protectionEnabled := protectionEnabled s; reconnectTimeout := reconnectTimeout s; lastPosition := lastPosition s; isInLobby := isInLobby s; lobbyRetryInterval := lobbyRetryInterval s; isEating := isEating s; eatTimeoutCount := eatTimeoutCount s; inventoryMonitorInterval := inventoryMonitorInterval s; inventoryAlertSent := inventoryAlertSent s; toolAlertSent := toolAlertSent s; stats := v; _cachedWhitelist := _cachedWhitelist s; _protectionRunning := _protectionRunning s; timers := timers s; nextTimer := nextTimer s; trace := trace s; uncaught := uncaught s |}.
Definition set__protectionRunning (v : bool) (s : State) : State :=
  {| bot := bot s; status := status s; isPaused := isPaused s; isConnecting := isConnecting s; isManuallyStopped := isManuallyStopped s; reconnectAttempts := reconnectAttempts s; antiAfkInterval := antiAfkInterval s; proximityInterval := proximityInterval s; autoEatTimeout := autoEatTimeout s; alertCooldowns := alertCooldowns s; onProximityAlert := onProximityAlert s; onLobbyDetected := onLobbyDetected s; onInventoryAlert := onInventoryAlert s; onConnect := onConnect s; tempReconnectDelay := tempReconnectDelay s; protectionEnabled := protectionEnabled s; reconnectTimeout := reconnectTimeout s; lastPosition := lastPosition s; isInLobby := isInLobby s; lobbyRetryInterval := lobbyRetryInterval s; isEating := isEating s; eatTimeoutCount := eatTimeoutCount s; inventoryMonitorInterval := inventoryMonitorInterval s; inventoryAlertSent := inventoryAlertSent s; toolAlertSent := toolAlertSent s; stats := stats s; _cachedWhitelist := _cachedWhitelist s; _protectionRunning := v; timers := timers s; nextTimer := nextTimer s; trace := trace s; uncaught := uncaught s |}.
Definition set_timers (v : gmap nat Timer) (s : State) : State :=
  {| bot := bot s; status := status s; isPaused := isPaused s; isConnecting := isConnecting s; isManuallyStopped := isManuallyStopped s; reconnectAttempts := reconnectAttempts s; antiAfkInterval := antiAfkInterval s; proximityInterval := proximityInterval s; autoEatTimeout := autoEatTimeout s; alertCooldowns := alertCooldowns s; onProximityAlert := onProximityAlert s; onLobbyDetected := onLobbyDetected s; onInventoryAlert := onInventoryAlert s; onConnect := onConnect s; tempReconnectDelay := tempReconnectDelay s; protectionEnabled := protectionEnabled s; reconnectTimeout := reconnectTimeout s; lastPosition := lastPosition s; isInLobby := isInLobby s; lobbyRetryInterval := lobbyRetryInterval s; isEating := isEating s; eatTimeoutCount := eatTimeoutCount s; inventoryMonitorInterval := inventoryMonitorInterval s; inventoryAlertSent := inventoryAlertSent s; toolAlertSent := toolAlertSent s; stats := stats s; _cachedWhitelist := _cachedWhitelist s; _protectionRunning := _protectionRunning s; timers := v; nextTimer := nextTimer s; trace := trace s; uncaught := uncaught s |}.
Definition set_nextTimer (v : nat) (s : State) : State :=
  {| bot := bot s; status := status s; isPaused := isPaused s; isConnecting := isConnecting s; isManuallyStopped := isManuallyStopped s; reconnectAttempts := reconnectAttempts s; antiAfkInterval := antiAfkInterval s; proximityInterval := proximityInterval s; autoEatTimeout := autoEatTimeout s; alertCooldowns := alertCooldowns s; onProximityAlert := onProximityAlert s; onLobbyDetected := onLobbyDetected s; onInventoryAlert := onInventoryAlert s; onConnect := onConnect s; tempReconnectDelay := tempReconnectDelay s; protectionEnabled := protectionEnabled s; reconnectTimeout := reconnectTimeout s; lastPosition := lastPosition s; isInLobby := isInLobby s; lobbyRetryInterval := lobbyRetryInterval s; isEating := isEating s; eatTimeoutCount := eatTimeoutCount s; inventoryMonitorInterval := inventoryMonitorInterval s; inventoryAlertSent := inventoryAlertSent s; toolAlertSent := toolAlertSent s; stats := stats s; _cachedWhitelist := _cachedWhitelist s; _protectionRunning := _protectionRunning s; timers := timers s; nextTimer := v; trace := trace s; uncaught := uncaught s |}.
Definition set_trace (v : list Action) (s : State) : State :=
  {| bot := bot s; status := status s; isPaused := isPaused s; isConnecting := isConnecting s; isManuallyStopped := isManuallyStopped s; reconnectAttempts := reconnectAttempts s; antiAfkInterval := antiAfkInterval s; proximityInterval := proximityInterval s; autoEatTimeout := autoEatTimeout s; alertCooldowns := alertCooldowns s; onProximityAlert := onProximityAlert s; onLobbyDetected := onLobbyDetected s; onInventoryAlert := onInventoryAlert s; onConnect := onConnect s; tempReconnectDelay := tempReconnectDelay s; protectionEnabled := protectionEnabled s; reconnectTimeout := reconnectTimeout s; lastPosition := lastPosition s; isInLobby := isInLobby s; lobbyRetryInterval := lobbyRetryInterval s; isEating := isEating s; eatTimeoutCount := eatTimeoutCount s; inventoryMonitorInterval := inventoryMonitorInterval s; inventoryAlertSent := inventoryAlertSent s; toolAlertSent := toolAlertSent s; stats := stats s; _cachedWhitelist := _cachedWhitelist s; _protectionRunning := _protectionRunning s; timers := timers s; nextTimer := nextTimer s; trace := v; uncaught := uncaught s |}.
Definition set_uncaught (v : nat) (s : State) : State :=
  {| bot := bot s; status := status s; isPaused := isPaused s; isConnecting := isConnecting s; isManuallyStopped := isManuallyStopped s; reconnectAttempts := reconnectAttempts s; antiAfkInterval := antiAfkInterval s; proximityInterval := proximityInterval s; autoEatTimeout := autoEatTimeout s; alertCooldowns := alertCooldowns s; onProximityAlert := onProximityAlert s; onLobbyDetected := onLobbyDetected s; onInventoryAlert := onInventoryAlert s; onConnect := onConnect s; tempReconnectDelay := tempReconnectDelay s; protectionEnabled := protectionEnabled s; reconnectTimeout := reconnectTimeout s; lastPosition := lastPosition s; isInLobby := isInLobby s; lobbyRetryInterval := lobbyRetryInterval s; isEating := isEating s; eatTimeoutCount := eatTimeoutCount s; inventoryMonitorInterval := inventoryMonitorInterval s; inventoryAlertSent := inventoryAlertSent s; toolAlertSent := toolAlertSent s; stats := stats s; _cachedWhitelist := _cachedWhitelist s; _protectionRunning := _protectionRunning s; timers := timers s; nextTimer := nextTimer s; trace := trace s; uncaught := v |}.

#[local] Unset Primitive Projections.

Variable cfg : Config.

Local Abbreviation the_settings := (config_settings cfg).
Local Abbreviation the_account := (config_account cfg).

(** ** Plumbing: trace, timers, exceptions *)

Definition emit (a : Action) (s : State) : State :=
  set_trace (trace s ++ [a]) s.

(** [setTimeout]/[setInterval]: the handle returned is [nextTimer s]. *)
Definition setTimer (cb : Callback) (d : Z) (rep : bool) (s : State) : State :=
  set_nextTimer (S (nextTimer s))
    (set_timers (<[nextTimer s := mkTimer cb d rep]> (timers s)) s).

Definition setTimeout (cb : Callback) (d : Z) : State -> State := setTimer cb d false.
Definition setInterval (cb : Callback) (d : Z) : State -> State := setTimer cb d true.

(** [clearTimeout]/[clearInterval]. *)
Definition clearTimer (h : nat) (s : State) : State :=
  set_timers (delete h (timers s)) s.

(** [if (h) clearInterval(h)] for a field [h] that holds a handle or
    [null]. The idiom
    [if (this.f) { clearInterval(this.f); this.f = null; }] is this
    followed by the assignment, which changes nothing when [f] is null. *)
Definition clearHandle (h : option nat) (s : State) : State :=
  set_timers (match h with
              | Some k => delete k (timers s)
              | None => timers s
              end) s.

(** A [TypeError] (a property read on [null]) leaves the callback. *)
Definition throwTypeError (s : State) : State :=
  set_uncaught (S (uncaught s)) s.

Definition bump_stats (f : Stats -> Stats) (s : State) : State :=
  set_stats (f (stats s)) s.

(** ** constructor *)

Definition initialProtection : bool :=
  match accountConfig.protectionEnabled the_account with
  | Some b => b
  | None =>
      match settings.protection the_settings with
      | Some p => protection.enabled p
      | None => false
      end
  end.

Definition constructor (now : Z) : State :=
  {| bot := false; status := offline; isPaused := false; isConnecting := false;
     isManuallyStopped := false; reconnectAttempts := 0;
     antiAfkInterval := None; proximityInterval := None; autoEatTimeout := None;
     alertCooldowns := ∅;
     onProximityAlert := false; onLobbyDetected := false;
     onInventoryAlert := false; onConnect := false;
     tempReconnectDelay := None;
     protectionEnabled := initialProtection;
     reconnectTimeout := None; lastPosition := None; isInLobby := false;
     lobbyRetryInterval := None; isEating := false; eatTimeoutCount := 0;
     inventoryMonitorInterval := None; inventoryAlertSent := false;
     toolAlertSent := [];
     stats := {| connectedAt := None; totalUptime := 0; reconnects := 0;
                 spawnersBroken := 0; alertsTriggered := 0; lobbyEvents := 0;
                 lastDisconnect := None; sessionStart := now |};
     _cachedWhitelist :=
       map toLowerCase
           (default [] (settings.alertWhitelist the_settings));
     _protectionRunning := false;
     timers := ∅; nextTimer := 0%nat; trace := []; uncaught := 0%nat |}.

(** ** Arming the background loops *)

Definition startAntiAfk (s : State) : State :=
  let interval := orZ (settings.antiAfkInterval the_settings) 30000 in
  set_antiAfkInterval (Some (nextTimer s)) (setInterval cbAntiAfk interval s).

Definition startAutoEat (s : State) : State :=
  set_autoEatTimeout (Some (nextTimer s)) (setTimeout cbCheckFood 5000 s).

Definition startProximityCheck (s : State) : State :=
  set_proximityInterval (Some (nextTimer s)) (setInterval cbProximity 1000 s).

Definition startInventoryMonitor (s : State) : State :=
  let s := clearHandle (inventoryMonitorInterval s) s in
  let s := set_toolAlertSent [] (set_inventoryAlertSent false s) in
  set_inventoryMonitorInterval (Some (nextTimer s))
    (setInterval cbInventoryMonitor 60000 s).

Definition stopLobbyRetry (s : State) : State :=
  set_lobbyRetryInterval None (clearHandle (lobbyRetryInterval s) s).

Definition startLobbyRetry (s : State) : State :=
  let s := stopLobbyRetry s in
  let s := setTimeout cbLobbyFirstTry 10000 s in
  set_lobbyRetryInterval (Some (nextTimer s)) (setInterval cbLobbyRetry 30000 s).

(** ** Lobby mode *)

Definition enterLobbyMode (s : State) : State :=
  if isInLobby s then s
  else
    let s := set_isInLobby true s in
    let s := bump_stats (fun st => set_lobbyEvents (lobbyEvents st + 1) st) s in
    let s := set_proximityInterval None (clearHandle (proximityInterval s) s) in
    let s := set_antiAfkInterval None (clearHandle (antiAfkInterval s) s) in
    let s := if onLobbyDetected s then emit (lobbyDetected true) s else s in
    startLobbyRetry s.

Definition exitLobbyMode (s : State) : State :=
  let s := set_isInLobby false s in
  let s := stopLobbyRetry s in
  let s := if onLobbyDetected s then emit (lobbyDetected false) s else s in
  let s := if settings.antiAfkEnabled the_settings then startAntiAfk s else s in
  if settings.proximityAlertEnabled the_settings then startProximityCheck s else s.

(** ** cleanup, stop, start, reconnect *)

Definition cleanup (s : State) : State :=
  let s := set_antiAfkInterval None (clearHandle (antiAfkInterval s) s) in
  let s := set_proximityInterval None (clearHandle (proximityInterval s) s) in
  let s := set_autoEatTimeout None (clearHandle (autoEatTimeout s) s) in
  let s := set_inventoryMonitorInterval None (clearHandle (inventoryMonitorInterval s) s) in
  let s := stopLobbyRetry s in
  let s := set_isInLobby false s in
  let s := set_bot false s in
  set_status offline s.

(** [stop()]: the state it leaves and the value it returns. *)
Definition stop (s : State) : State * bool :=
  let s := set_isManuallyStopped true s in
  let s := set_reconnectTimeout None (clearHandle (reconnectTimeout s) s) in
  let s := if bot s then emit quit s else s in
  (cleanup s, true).

(** [start()]; [createThrows] says whether [mineflayer.createBot] throws. *)
Definition start (createThrows : bool) (s : State) : State * bool :=
  if isConnecting s then (s, false)
  else if bot s then (s, false)
  else
    let s := set_isConnecting true s in
    let s := set_isManuallyStopped false s in
    let s := set_status connecting s in
    let s := emit createBot s in
    if createThrows
    then (set_status error (set_isConnecting false s), false)
    else (set_bot true s, true).

(** [this.reconnectAttempts >= this.config.settings.maxReconnectAttempts];
    a comparison with [undefined] is false. *)
Definition attemptsExhausted (s : State) : bool :=
  match settings.maxReconnectAttempts the_settings with
  | Some m => m <=? reconnectAttempts s
  | None => false
  end.

Definition reconnectDelayFor (s : State) : Z :=
  orZ (tempReconnectDelay s) (orZ (settings.reconnectDelay the_settings) 5000).

Definition handleReconnect (s : State) : State :=
  if isManuallyStopped s then s
  else if attemptsExhausted s then set_status failed s
  else
    let s := set_reconnectAttempts (reconnectAttempts s + 1) s in
    let d := reconnectDelayFor s in
    let s := set_tempReconnectDelay None s in
    set_reconnectTimeout (Some (nextTimer s)) (setTimeout cbReconnect d s).

Definition pause (s : State) : State * bool :=
  if bot s then (set_isPaused true s, true) else (s, false).

Definition resume (s : State) : State * bool :=
  if bot s then (set_isPaused false s, true) else (s, false).

Definition restart (s : State) : State * bool :=
  let s := fst (stop s) in
  (setTimeout cbRestart 2000 s, true).

(** [toggleProtection(forceState = null)]. *)
Definition toggleProtection (forceState : option bool) (s : State) : State * bool :=
  let s := match forceState with
           | Some b => set_protectionEnabled b s
           | None => set_protectionEnabled (negb (protectionEnabled s)) s
           end in
  (s, protectionEnabled s).

(** ** Handlers registered by [setupEventHandlers] *)

Definition onLogin (now : Z) (s : State) : State :=
  let s := set_status online s in
  let s := set_isConnecting false s in
  let s := bump_stats (set_connectedAt (Some now)) s in
  let s := if 0 <? reconnectAttempts s
           then bump_stats (fun st => set_reconnects (reconnects st + 1) st) s
           else s in
  let s := set_reconnectAttempts 0 s in
  if negb (bot s) then throwTypeError s      (* this.bot.setControlState on null *)
  else
    let s := emit (setControlState "sneak" true) s in
    let s := if settings.antiAfkEnabled the_settings then startAntiAfk s else s in
    let s := if settings.proximityAlertEnabled the_settings
             then startProximityCheck s else s in
    let s := if onConnect s then emit connected s else s in
    let s := startAutoEat s in
    startInventoryMonitor s.

Definition onSpawn (w : World) (s : State) : State :=
  if negb (bot s) then throwTypeError s      (* this.bot.setControlState on null *)
  else
    let s := emit (setControlState "sneak" true) s in
    let jumped :=
      match lastPosition s, entity w with
      | Some last, Some currentPos =>
          negb (Qle_bool (distanceTo last currentPos) 200) && negb (isInLobby s)
      | _, _ => false
      end in
    if jumped then enterLobbyMode s
    else
      let s :=
        match lastPosition s, entity w with
        | Some last, Some currentPos =>
            if isInLobby s && negb (Qle_bool 50 (distanceTo last currentPos))
            then exitLobbyMode s else s
        | _, _ => s
        end in
      match entity w with
      | Some currentPos =>
          if negb (isInLobby s) then set_lastPosition (Some currentPos) s else s
      | None => s
      end.

Definition onEnd (now : Z) (s : State) : State :=
  let s := set_isConnecting false s in
  let s := bump_stats (set_lastDisconnect (Some now)) s in
  let s := if truthyZ (connectedAt (stats s))
           then bump_stats
                  (fun st => set_connectedAt None
                     (set_totalUptime
                        (totalUptime st + (now - default 0 (connectedAt st))) st)) s
           else s in
  let s := cleanup s in
  if settings.autoReconnect the_settings && negb (isPaused s)
  then handleReconnect s else s.

Definition onKicked (reason : string) (s : State) : State :=
  let s := set_isConnecting false s in
  let s := set_status kicked s in
  if includes reason "already online" || includes reason "already connected"
  then set_tempReconnectDelay (Some 6000) s else s.

Definition onError (s : State) : State :=
  set_status error (set_isConnecting false s).

Definition onMessagestr (message : string) (s : State) : State :=
  let msg := toLowerCase message in
  if includes msg "teleported" || includes msg "ışınlandı" then
    if negb (isInLobby s) then setTimeout cbTeleportAway 1000 s
    else setTimeout cbTeleportBack 1500 s
  else s.

(** ** Threat detection and the protection sequence *)

Definition emergencyDistance : Q :=
  orQ (match settings.protection the_settings with
       | Some p => protection.emergencyDistance p
       | None => None
       end) 10.

Definition isSelf (e : Entity) : bool :=
  String.eqb (username e) (accountConfig.username the_account).

Definition whitelisted (s : State) (e : Entity) : bool :=
  list_includes (_cachedWhitelist s) (toLowerCase (username e)).

Fixpoint enemyAmong (me : Vec3) (s : State) (es : list Entity) : bool :=
  match es with
  | [] => false
  | e :: rest =>
      if negb (String.eqb (type e) "player") || isSelf e then enemyAmong me s rest
      else if whitelisted s e then enemyAmong me s rest
      else match position e with
           | None => enemyAmong me s rest
           | Some p =>
               if Qle_bool (distanceTo me p) emergencyDistance then true
               else enemyAmong me s rest
           end
  end.

Definition isEnemyNearby (w : World) (s : State) : bool :=
  if negb (bot s) then false
  else match entity w with
       | None => false
       | Some me => enemyAmong me s (entities w)
       end.

(** The points at which [executeProtection] waits, with the locals that
    are live there. *)
Inductive Await :=
| awEquip
| awLookAt (pos : Vec3) (block : Block) (rest : list Vec3) (totalBroken : Z)
| awDig (pos : Vec3) (block : Block) (rest : list Vec3) (totalBroken : Z)
| awBreakDelay (rest : list Vec3) (totalBroken : Z)
| awRescan (totalBroken : Z).

(** The [return] taken by [executeProtection]. *)
Inductive Exit :=
| exitNotOnline    (* if (!this.bot || this.status !== 'online') return *)
| exitGuard        (* if (this._protectionRunning) return *)
| exitBotGone      (* if (!this.bot) { this._protectionRunning = false; return; } *)
| exitEmergency    (* isEnemyNearby(): guard cleared, stop(), return *)
| exitLoopDone.    (* the code after the while loop *)

Inductive Completion :=
| Returned (e : Exit)
| Suspended (k : Await)
| Threw.

Definition blockName : string :=
  orString (match settings.protection the_settings with
            | Some p => protection.blockType p
            | None => None
            end) "spawner".

Definition radius : Q :=
  orQ (match settings.protection the_settings with
       | Some p => protection.radius p
       | None => None
       end) 64.

Definition breakDelay : Z :=
  orZ (match settings.protection the_settings with
       | Some p => protection.breakDelay p
       | None => None
       end) 0.

(** The code after the [while] loop. *)
Definition afterLoop (s : State) : State * Completion :=
  let s := if bot s then emit (setControlState "sneak" false) s else s in
  let s := set__protectionRunning false s in
  (fst (stop s), Returned exitLoopDone).

(** The [for (const pos of blocks)] loop from the head of an iteration,
    up to the next [await] (the 50 ms pause before re-scanning when the
    loop ends or breaks). *)
Fixpoint forBlocks (w : World) (blocks : list Vec3) (totalBroken : Z)
    (s : State) : State * Completion :=
  match blocks with
  | [] => (s, Suspended (awRescan totalBroken))
  | pos :: rest =>
      if negb (bot s) then (set__protectionRunning false s, Returned exitBotGone)
      else if isEnemyNearby w s then
        (fst (stop (set__protectionRunning false s)), Returned exitEmergency)
      else if emptySlotCount w <=? 2 then (s, Suspended (awRescan totalBroken))
      else
        match blockAt w pos with
        | Some block =>
            if String.eqb (block_name block) blockName
            then (emit (lookAt pos) s, Suspended (awLookAt pos block rest totalBroken))
            else forBlocks w rest totalBroken s
        | None => forBlocks w rest totalBroken s
        end
  end.

(** The [while (this.bot && this.status === 'online')] loop from its test. *)
Definition whileLoop (w : World) (totalBroken : Z) (s : State) : State * Completion :=
  if bot s && Status_eqb (status s) online then
    if emptySlotCount w <=? 2 then afterLoop s
    else
      match findBlocks w blockName radius with
      | [] => afterLoop s
      | blocks => forBlocks w blocks totalBroken s
      end
  else afterLoop s.

Definition executeProtection (w : World) (s : State) : State * Completion :=
  if negb (bot s) || negb (Status_eqb (status s) online) then (s, Returned exitNotOnline)
  else if _protectionRunning s then (s, Returned exitGuard)
  else
    let s := set__protectionRunning true s in
    match settings.protection the_settings with
    | None => (throwTypeError s, Threw)   (* this.config.settings.protection.blockType *)
    | Some _ =>
        match find (fun i => includes (item_name i) "pickaxe") (items w) with
        | Some pickaxe => (emit (equip pickaxe) s, Suspended awEquip)
        | None => whileLoop w 0 (emit (setControlState "sneak" true) s)
        end
    end.

(** [executeProtection] continued from the point [k] once the awaited
    promise has settled with [r]; [w] is what the client shows then. *)
Definition resumeProtection (k : Await) (r : Settled) (w : World) (s : State)
    : State * Completion :=
  match k with
  | awEquip =>
      (* a rejection is caught; either way the next statement is
         this.bot.setControlState('sneak', true) *)
      if bot s then whileLoop w 0 (emit (setControlState "sneak" true) s)
      else (throwTypeError s, Threw)
  | awLookAt pos block rest totalBroken =>
      match r with
      | Resolved =>
          if negb (bot s) then (set__protectionRunning false s, Returned exitBotGone)
          else (emit (dig pos) s, Suspended (awDig pos block rest totalBroken))
      | Rejected _ => forBlocks w rest totalBroken s
      end
  | awDig pos block rest totalBroken =>
      match r with
      | Resolved =>
          if 0 <? breakDelay then (s, Suspended (awBreakDelay rest (totalBroken + 1)))
          else forBlocks w rest (totalBroken + 1) s
      | Rejected _ => forBlocks w rest totalBroken s
      end
  | awBreakDelay rest totalBroken => forBlocks w rest totalBroken s
  | awRescan totalBroken => whileLoop w totalBroken s
  end.

(** Work left suspended by a callback. *)
Inductive Task :=
| protectionTask (k : Await)
| eatTask (foodItem : Item) (foodBefore : Z).

Definition alertDistance : Q := orQ (settings.alertDistance the_settings) 96.
Definition cooldown : Z := orZ (settings.alertCooldown the_settings) 300000.

Definition protectionConfigured : bool :=
  match settings.protection the_settings with Some _ => true | None => false end.

(** The alert rule once the cooldown test has passed: record the time,
    trigger the protection sequence if it is configured and enabled, count
    the alert and start the burst. *)
Definition raiseAlert (now : Z) (w : World) (e : Entity) (distance : Q)
    (s : State) : State * list Task :=
  let s := set_alertCooldowns (<[username e := now]> (alertCooldowns s)) s in
  let '(s, spawned) :=
    if protectionConfigured && protectionEnabled s then
      match executeProtection w s with
      | (s', Suspended k) => (s', [protectionTask k])
      | (s', _) => (s', [])
      end
    else (s, []) in
  let s := bump_stats
             (fun st => set_alertsTriggered (alertsTriggered st + 1) st) s in
  (setInterval (cbAlertLoop (username e) distance 0) 1000 s, spawned).

(** The body of the [for (const id in this.bot.entities)] loop of the
    proximity scan, over the entities not yet visited. *)
Fixpoint scanEntities (now : Z) (w : World) (es : list Entity) (s : State)
    : State * list Task :=
  match es with
  | [] => (s, [])
  | e :: rest =>
      if negb (bot s) then (throwTypeError s, [])     (* this.bot.entities[id] *)
      else if negb (String.eqb (type e) "player") || isSelf e
      then scanEntities now w rest s
      else if whitelisted s e then scanEntities now w rest s
      else
        match position e, entity w with
        | Some p, Some me =>
            let distance := distanceTo me p in
            if Qle_bool distance emergencyDistance && negb (whitelisted s e) then
              let s := if onProximityAlert s
                       then emit (proximityAlert (username e) distance) s else s in
              let s := set__protectionRunning false s in
              (fst (stop s), [])
            else if Qle_bool distance alertDistance then
              let lastAlert := orZ (alertCooldowns s !! username e) 0 in
              if cooldown <? now - lastAlert then
                let '(s, spawned) := raiseAlert now w e distance s in
                let '(s, more) := scanEntities now w rest s in
                (s, spawned ++ more)
              else scanEntities now w rest s
            else scanEntities now w rest s
        | _, _ => scanEntities now w rest s
        end
  end.

(** The callback of [startProximityCheck]'s interval. *)
Definition proximityTick (now : Z) (w : World) (s : State) : State * list Task :=
  if negb (bot s) || negb (Status_eqb (status s) online) || isPaused s || isInLobby s
  then (s, [])
  else scanEntities now w (entities w) s.

(** The callback of one alert burst; [h] is the burst's own interval. *)
Definition alertLoop (h : nat) (player : string) (distance : Q) (count : Z)
    (s : State) : State :=
  let count := count + 1 in
  let s := set_timers
             (<[h := mkTimer (cbAlertLoop player distance count) 1000 true]> (timers s)) s in
  let s := if bot s then
             let s := bump_stats
                        (fun st => set_alertsTriggered (alertsTriggered st + 1) st) s in
             if onProximityAlert s then emit (proximityAlert player distance) s else s
           else s in
  if 5 <=? count then clearTimer h s else s.

(** ** Idle prevention, self-sustenance, lobby retry *)

Definition antiAfkTick (s : State) : State :=
  if bot s && Status_eqb (status s) online && negb (isPaused s) && negb (isEating s)
  then setTimeout cbJumpRelease 100 (emit (setControlState "jump" true) s)
  else s.

Definition jumpRelease (s : State) : State :=
  if bot s then emit (setControlState "jump" false) s else s.

Definition FOOD_ITEMS : list string :=
  [ "bread"; "cooked_beef"; "cooked_porkchop"; "cooked_chicken";
    "cooked_mutton"; "cooked_rabbit"; "cooked_cod"; "cooked_salmon";
    "golden_apple"; "apple"; "golden_carrot"; "carrot";
    "baked_potato"; "beetroot"; "melon_slice"; "cookie";
    "beef"; "porkchop"; "chicken"; "mutton"; "rabbit";
    "cod"; "salmon"; "potato"; "beetroot_soup";
    "mushroom_stew"; "rabbit_stew"; "suspicious_stew";
    "sweet_berries"; "glow_berries"; "dried_kelp";
    "pumpkin_pie"; "honey_bottle" ].

Definition checkInterval : Z := 5000.

(** [this.autoEatTimeout = setTimeout(checkFood, d)]. *)
Definition scheduleCheckFood (d : Z) (s : State) : State :=
  set_autoEatTimeout (Some (nextTimer s)) (setTimeout cbCheckFood d s).

(** [checkFood] up to [await Promise.race([eatTask(), timeoutPromise])].
    When it gets there the equip call has been made and the tick is left
    suspended; the race, and with it the 5 s timer of [timeoutPromise],
    is settled by the environment. *)
Definition checkFood (w : World) (s : State) : State * list Task :=
  if negb (bot s) || negb (Status_eqb (status s) online) || isPaused s
  then (scheduleCheckFood checkInterval s, [])
  else if food w <? 14 then
    match find (fun i => list_includes FOOD_ITEMS (item_name i)) (items w) with
    | Some foodItem =>
        (emit (equip foodItem) (set_isEating true s), [eatTask foodItem (food w)])
    | None => (scheduleCheckFood checkInterval s, [])
    end
  else (scheduleCheckFood checkInterval s, []).

Definition isTimeoutMessage (m : string) : bool :=
  includes m "Promise timed out" || includes m "Eat operation timed out".

(** [checkFood] from the settled race to the end of its [finally]. A
    fulfilled race means the eat task ran to its end: [consume] was
    called. The log line after it reads [this.bot.food]; with the handle
    gone that read throws and the [catch] takes the error branch. *)
Definition checkFoodSettled (r : Settled) (s : State) : State :=
  match r with
  | Resolved =>
      let s := emit consume s in
      let s := set_isEating false s in
      let s := set_eatTimeoutCount 0 s in
      if bot s then scheduleCheckFood checkInterval s
      else scheduleCheckFood 10000 (set_isEating false s)
  | Rejected m =>
      let s := set_isEating false s in
      if isTimeoutMessage m then
        let s := set_eatTimeoutCount (eatTimeoutCount s + 1) s in
        scheduleCheckFood (if 3 <? eatTimeoutCount s then 60000 else 30000) s
      else scheduleCheckFood 10000 s
  end.

Definition lobbyFirstTry (s : State) : State :=
  if bot s && isInLobby s then emit (chat "/home sp1") s else s.

Definition lobbyRetry (s : State) : State :=
  if negb (bot s) || negb (isInLobby s) then stopLobbyRetry s
  else emit (chat "/home sp1") s.

(** The position checks scheduled by the chat handler. *)
Definition teleportAway (w : World) (s : State) : State :=
  match entity w, lastPosition s with
  | Some me, Some last =>
      if bot s && negb (isInLobby s) && negb (Qle_bool (distanceTo me last) 200)
      then enterLobbyMode s else s
  | _, _ => s
  end.

Definition teleportBack (w : World) (s : State) : State :=
  match entity w, lastPosition s with
  | Some me, Some last =>
      if bot s && isInLobby s && negb (Qle_bool 50 (distanceTo me last))
      then exitLobbyMode s else s
  | _, _ => s
  end.

(** The callback of [handleReconnect]'s timeout, and of [restart]'s. *)
Definition reconnectFire (createThrows : bool) (s : State) : State :=
  if negb (isManuallyStopped s) then fst (start createThrows s) else s.

Definition restartFire (createThrows : bool) (s : State) : State :=
  fst (start createThrows s).

(** ** The slot as a transition system *)

(** What the environment supplies with an event. *)
Record Env := mkEnv {
  now : Z;                 (* Date.now() *)
  world : World;           (* the client's data during the callback *)
  createThrows : bool      (* whether createBot would throw *)
}.

(** Timer [h] fires. A timeout leaves the table when it fires; a handle
    that was cleared fires nothing. *)
Definition fire (env : Env) (h : nat) (s : State) : State * list Task :=
  match timers s !! h with
  | None => (s, [])
  | Some t =>
      let s := if repeats t then s else clearTimer h s in
      match callback t with
      | cbAntiAfk => (antiAfkTick s, [])
      | cbJumpRelease => (jumpRelease s, [])
      | cbCheckFood => checkFood (world env) s
      | cbProximity => proximityTick (now env) (world env) s
      | cbAlertLoop player distance count => (alertLoop h player distance count s, [])
      | cbLobbyFirstTry => (lobbyFirstTry s, [])
      | cbLobbyRetry => (lobbyRetry s, [])
      | cbInventoryMonitor => (s, [])
      | cbReconnect => (reconnectFire (createThrows env) s, [])
      | cbRestart => (restartFire (createThrows env) s, [])
      | cbTeleportAway => (teleportAway (world env) s, [])
      | cbTeleportBack => (teleportBack (world env) s, [])
      end
  end.

Definition settle (env : Env) (t : Task) (r : Settled) (s : State)
    : State * list Task :=
  match t with
  | protectionTask k =>
      match resumeProtection k r (world env) s with
      | (s', Suspended k') => (s', [protectionTask k'])
      | (s', _) => (s', [])
      end
  | eatTask _ _ => (checkFoodSettled r s, [])
  end.

Inductive Event :=
| evLogin | evSpawn | evEnd | evKicked (reason : string) | evError
| evMessagestr (message : string)
| opStart | opStop | opPause | opResume | opRestart
| opToggleProtection (forceState : option bool)
| evTimer (h : nat)
| evSettled (t : Task) (r : Settled).

Definition step (env : Env) (ev : Event) (s : State) : State * list Task :=
  match ev with
  | evLogin => (onLogin (now env) s, [])
  | evSpawn => (onSpawn (world env) s, [])
  | evEnd => (onEnd (now env) s, [])
  | evKicked reason => (onKicked reason s, [])
  | evError => (onError s, [])
  | evMessagestr message => (onMessagestr message s, [])
  | opStart => (fst (start (createThrows env) s), [])
  | opStop => (fst (stop s), [])
  | opPause => (fst (pause s), [])
  | opResume => (fst (resume s), [])
  | opRestart => (fst (restart s), [])
  | opToggleProtection forceState => (fst (toggleProtection forceState s), [])
  | evTimer h => fire env h s
  | evSettled t r => settle env t r s
  end.

(** A run: the events in order, each with what the environment shows. *)
Fixpoint run (evs : list (Env * Event)) (s : State) : State :=
  match evs with
  | [] => s
  | (env, ev) :: rest => run rest (fst (step env ev s))
  end.

End Supervisor.

(** * Commands, statistics and the inventory monitor

    The methods of the session class that the command layer calls on a
    slot, and the two module-level helpers of the file. *)

(** [Math.round]: the nearest integer, a half rounded up. *)
Definition Math_round (q : Q) : Z := Qfloor (q + (1 # 2)).

(** [formatDuration(ms)], for an integer number of milliseconds below
    2^53 in size (the difference of two [Date.now()] values), where the
    floating-point quotients floor to the integer quotients.
    [Math.floor(a / b)] is then [a / b]; [%] is the remainder with the
    sign of the dividend, [Z.rem]. *)
Definition formatDuration (ms : Z) : string :=
  let seconds := ms / 1000 in
  let minutes := seconds / 60 in
  let hours := minutes / 60 in
  let days := hours / 24 in
  if 0 <? days then
    pretty days +:+ "g " +:+ pretty (Z.rem hours 24) +:+ "s "
      +:+ pretty (Z.rem minutes 60) +:+ "dk"
  else if 0 <? hours then
    pretty hours +:+ "s " +:+ pretty (Z.rem minutes 60) +:+ "dk"
  else if 0 <? minutes then
    pretty minutes +:+ "dk " +:+ pretty (Z.rem seconds 60) +:+ "sn"
  else pretty seconds +:+ "sn".

(** [{ success, message }], the answer of [move] and [dropItem]. *)
Record Result := mkResult { success : bool; message : string }.

(** What [getStats()] returns. *)
Module StatsReport.
Record t := mk {
  slot : Z;
  username : string;
  status : Status;
  uptime : Z;
  uptimeFormatted : string;
  sessionTime : Z;
  sessionTimeFormatted : string;
  reconnects : Z;
  spawnersBroken : Z;
  alertsTriggered : Z;
  lobbyEvents : Z;
  lastDisconnect : option Z
}.
End StatsReport.

(** The message of the [TypeError] raised by [this.bot.toss] on a null
    handle, as [error.message] gives it. *)
Definition nullTossMessage : string :=
  "Cannot read properties of null (reading 'toss')".

(** The first kind of message of the inventory monitor, by the numbers
    it shows (it also names the slot, which a session never changes). *)
Inductive InventoryAlert :=
| inventoryFull (usedSlots totalSlots : Z)
| inventoryAlmostFull (usedSlots totalSlots emptySlots : Z).

Section Commands.

Context {Vec3 : Type}.
Variable distanceTo : Vec3 -> Vec3 -> Q.
Variable cfg : Config.

Implicit Types (s : @State Vec3) (w : @World Vec3).

(** ** getStats *)

Definition getStats (now : Z) s : StatsReport.t :=
  let currentUptime := totalUptime (stats s) in
  let currentUptime :=
    if truthyZ (connectedAt (stats s))
    then currentUptime + (now - default 0 (connectedAt (stats s)))
    else currentUptime in
  let totalSessionTime := now - sessionStart (stats s) in
  {| StatsReport.slot := accountConfig.slot (config_account cfg);
     StatsReport.username := accountConfig.username (config_account cfg);
     StatsReport.status := status s;
     StatsReport.uptime := currentUptime;
     StatsReport.uptimeFormatted := formatDuration currentUptime;
     StatsReport.sessionTime := totalSessionTime;
     StatsReport.sessionTimeFormatted := formatDuration totalSessionTime;
     StatsReport.reconnects := reconnects (stats s);
     StatsReport.spawnersBroken := spawnersBroken (stats s);
     StatsReport.alertsTriggered := alertsTriggered (stats s);
     StatsReport.lobbyEvents := lobbyEvents (stats s);
     StatsReport.lastDisconnect := lastDisconnect (stats s) |}.

(** ** sendChat, getInventory *)

(** [sendChat(message)]; [chatThrows] says whether [this.bot.chat]
    throws. *)
Definition sendChat (chatThrows : bool) (message : string) s
    : @State Vec3 * bool :=
  if negb (bot s) || negb (Status_eqb (status s) online) || isPaused s
  then (s, false)
  else
    let s := emit (chat message) s in
    if chatThrows then (s, false) else (s, true).

(** [getInventory()]: [null], or the stacks with their name, count and
    slot. *)
Definition getInventory w s : option (list Item) :=
  if negb (bot s) || negb (Status_eqb (status s) online) then None
  else Some (map (fun item => mkItem (item_name item) (item_count item)
                                     (item_slot item)) (items w)).

(** ** dropItem *)

(** [this.bot.toss(item.type, null, dropCount)], by the stack it is
    called for. *)
Record Toss := mkToss { toss_item : Item; toss_count : Z }.

(** The stacks [dropItem(itemName, ...)] selects. *)
Definition selected (itemName : string) (item : Item) : bool :=
  String.eqb itemName "all" || includes (item_name item) itemName.

(** [count || item.count]; [count] is a number or missing ([null], or
    the [NaN] of a count that did not parse). *)
Definition dropCount (count : option Z) (item : Item) : Z :=
  orZ count (item_count item).

Definition droppedLine (count : option Z) (item : Item) : string :=
  pretty (dropCount count item) +:+ "x " +:+ item_name item.

(** The [for (const item of items)] loop. It waits at every toss: [held]
    says whether the handle is there when the iteration starts, and
    [outcome k] how the [k]-th awaited toss settles and whether the
    handle is still there afterwards. The result is the tosses made and
    the answer. *)
Fixpoint tossLoop (count : option Z) (outcome : nat -> Settled * bool)
    (k : nat) (held : bool) (items : list Item) (droppedItems : list string)
    : list Toss * Result :=
  match items with
  | [] => ([], mkResult true ("Dropped: " +:+ String.concat ", " droppedItems))
  | item :: rest =>
      if negb held then ([], mkResult false nullTossMessage)
      else
        let call := mkToss item (dropCount count item) in
        match outcome k with
        | (Resolved, held') =>
            let '(calls, r) :=
              tossLoop count outcome (S k) held' rest
                       (droppedItems ++ [droppedLine count item]) in
            (call :: calls, r)
        | (Rejected m, _) => ([call], mkResult false m)
        end
  end.

Definition dropItem (itemName : string) (count : option Z)
    (outcome : nat -> Settled * bool) w s : list Toss * Result :=
  if negb (bot s) || negb (Status_eqb (status s) online)
  then ([], mkResult false "Bot not ready")
  else
    match List.filter (selected itemName) (items w) with
    | [] => ([], mkResult false "Item not found")
    | items => tossLoop count outcome 0 true items []
    end.

(** ** move *)

(** The locals of one [move] call that its two timers share. *)
Record Move := mkMove {
  move_direction : string;
  move_distance : Z;
  startPos : Vec3;
  timeoutMs : Z;
  isResolved : bool;
  checkIntervalLive : bool;    (* checkInterval has not been cleared *)
  timeoutPending : bool        (* the timeout has not fired yet *)
}.

Definition validDirections : list string := ["forward"; "back"; "left"; "right"].

(** How a call of [move] ends: with an answer at once, with a
    [TypeError], or with its promise pending. *)
Inductive MoveCall :=
| moveAnswered (r : Result)
| moveThrew
| movePending (m : Move).

(** [move(direction, distance)] up to the promise it returns; a
    [distance] that is [NaN] is [None]. *)
Definition move (direction : string) (distance : option Z) w s
    : @State Vec3 * MoveCall :=
  if negb (bot s) || negb (Status_eqb (status s) online) || isPaused s
  then (s, moveAnswered (mkResult false "Bot not ready"))
  else if negb (list_includes validDirections direction)
  then (s, moveAnswered (mkResult false "Invalid direction"))
  else
    match distance with
    | None => (s, moveAnswered (mkResult false "Invalid distance"))
    | Some distance =>
        if distance <=? 0
        then (s, moveAnswered (mkResult false "Invalid distance"))
        else
          match entity w with
          | None => (throwTypeError s, moveThrew)   (* this.bot.entity.position *)
          | Some pos =>
              (emit (setControlState direction true) s,
               movePending (mkMove direction distance pos
                                   (distance * 1000 + 2000) false true true))
          end
    end.

Definition resolved (m : Move) : Move :=
  mkMove (move_direction m) (move_distance m) (startPos m) (timeoutMs m)
         true false (timeoutPending m).

(** The callback of [checkInterval], every 50 ms while it is not
    cleared. The third component is the answer it resolves the promise
    with, if it does. *)
Definition moveCheck w (m : Move) s : @State Vec3 * Move * option Result :=
  if negb (checkIntervalLive m) then (s, m, None)
  else if negb (bot s) then
    (s, resolved m,
     if isResolved m then None else Some (mkResult false "Bot disconnected"))
  else
    match entity w with
    | None => (throwTypeError s, m, None)   (* this.bot.entity.position *)
    | Some pos =>
        let currentDist := distanceTo pos (startPos m) in
        if Qle_bool (inject_Z (move_distance m)) currentDist then
          (emit (setControlState (move_direction m) false) s, resolved m,
           if isResolved m then None
           else Some (mkResult true
                        ("Moved " +:+ move_direction m +:+ " "
                           +:+ pretty (Math_round currentDist) +:+ " blocks")))
        else (s, m, None)
    end.

Definition fired (m : Move) : Move :=
  mkMove (move_direction m) (move_distance m) (startPos m) (timeoutMs m)
         (isResolved m) (checkIntervalLive m) false.

(** The callback of the timeout, [timeoutMs] after the call. *)
Definition moveTimeout w (m : Move) s : @State Vec3 * Move * option Result :=
  if negb (timeoutPending m) then (s, m, None)
  else
    let m := fired m in
    if isResolved m then (s, m, None)
    else
      let m := resolved m in
      if bot s then
        let s := emit (setControlState (move_direction m) false) s in
        match entity w with
        | None => (throwTypeError s, m, None)   (* this.bot.entity.position *)
        | Some pos =>
            (s, m,
             Some (mkResult true
                     ("Movement timed out (moved "
                        +:+ pretty (Math_round (distanceTo pos (startPos m)))
                        +:+ " blocks)")))
        end
      else (s, m, Some (mkResult true "Movement timed out (moved 0 blocks)")).

(** One firing of either timer, with what the client shows and the state
    of the slot at that moment. *)
Inductive MoveEvent :=
| mvCheck (w : @World Vec3) (s : @State Vec3)
| mvTimeout (w : @World Vec3) (s : @State Vec3).

Definition moveStep (ev : MoveEvent) (m : Move) : Move * option Result :=
  match ev with
  | mvCheck w s => let '(_, m', r) := moveCheck w m s in (m', r)
  | mvTimeout w s => let '(_, m', r) := moveTimeout w m s in (m', r)
  end.

(** The answers the promise is resolved with over a sequence of
    firings. *)
Fixpoint answers (evs : list MoveEvent) (m : Move) : list Result :=
  match evs with
  | [] => []
  | ev :: rest =>
      let '(m', r) := moveStep ev m in
      match r with
      | Some a => a :: answers rest m'
      | None => answers rest m'
      end
  end.

(** The locals after a sequence of firings. *)
Fixpoint moveRun (evs : list MoveEvent) (m : Move) : Move :=
  match evs with
  | [] => m
  | ev :: rest => moveRun rest (fst (moveStep ev m))
  end.

Definition isCheck (ev : MoveEvent) : bool :=
  match ev with
  | mvCheck _ _ => true
  | mvTimeout _ _ => false
  end.

(** ** The inventory monitor: fullness *)

(** The callback of [startInventoryMonitor]'s interval up to the end of
    its fullness check; the tool-durability check that follows reads and
    writes [toolAlertSent] only. The second component is the message
    handed to [onInventoryAlert], if any. *)
Definition inventoryFullness w s : @State Vec3 * option InventoryAlert :=
  if negb (bot s) || negb (Status_eqb (status s) online) || isPaused s
     || isInLobby s
  then (s, None)
  else
    let totalSlots := 36 in
    let emptySlots := emptySlotCount w in
    let usedSlots := totalSlots - emptySlots in
    if (emptySlots <=? 3) && negb (inventoryAlertSent s) then
      let s := set_inventoryAlertSent true s in
      let msg := if emptySlots =? 0
                 then inventoryFull usedSlots totalSlots
                 else inventoryAlmostFull usedSlots totalSlots emptySlots in
      (s, if onInventoryAlert s then Some msg else None)
    else if 5 <? emptySlots then (set_inventoryAlertSent false s, None)
    else (s, None).

(** The alerts of successive ticks of the monitor, none of them
    interleaved with another event. *)
Fixpoint fullnessAlerts (ws : list (@World Vec3)) s : list InventoryAlert :=
  match ws with
  | [] => []
  | w :: rest =>
      let '(s', a) := inventoryFullness w s in
      match a with
      | Some a => a :: fullnessAlerts rest s'
      | None => fullnessAlerts rest s'
      end
  end.

(** [s] answers none of the four commands: [sendChat] returns [false],
    [move] and [dropItem] answer that the bot is not ready, [getInventory]
    returns [null], and none of them changes anything or calls the
    client. *)
Definition refusesCommands s : Prop :=
  (forall c m, sendChat c m s = (s, false))
  /\ (forall direction distance w,
        move direction distance w s
        = (s, moveAnswered (mkResult false "Bot not ready")))
  /\ (forall w, getInventory w s = None)
  /\ (forall itemName count outcome w,
        dropItem itemName count outcome w s
        = ([], mkResult false "Bot not ready")).

End Commands.

(** * The command parser and the manager

    [CommandParser.parseSlots] and [validateSlots] (the parser shares
    the file of the session class) and the methods of [BotManager] that
    change what a slot is constructed from: the alert whitelist and the
    persisted protection switch. The manager writes config.json after
    each change; the file is not modelled. *)

Module CommandParser.

(** The first argument of [validateSlots]: the string ['all'] or an
    array of slot numbers. *)
Inductive Slots :=
| allSlots
| listed (slots : list Z).

(** [{ valid: true, slots }] or [{ valid: false, error, validSlots }]. *)
Inductive Validation :=
| valid (slots : list Z)
| invalid (error : string) (validSlots : list Z).

(** [Array.prototype.includes] on numbers. *)
Definition includesZ (l : list Z) (x : Z) : bool := existsb (Z.eqb x) l.

(** *** parseSlots

    Text is taken apart as a list of characters. The model is exact for
    text in ASCII (the white space that [trim] and [parseInt] skip has
    further characters outside it) and for numbers and ranges small
    enough to be counted exactly and to fit a [Set]. *)

(** The ASCII white space: tab, line feed, vertical tab, form feed,
    carriage return and space. *)
Definition isWhiteSpace (c : ascii) : bool :=
  let n := N_of_ascii c in
  ((9 <=? n) && (n <=? 13) || (n =? 32))%N.

Fixpoint trimStart (s : list ascii) : list ascii :=
  match s with
  | [] => []
  | c :: rest => if isWhiteSpace c then trimStart rest else s
  end.

(** [String.prototype.trim]. *)
Definition trim (s : list ascii) : list ascii :=
  rev (trimStart (rev (trimStart s))).

(** [String.prototype.split] on a one-character separator. *)
Fixpoint splitOn (sep : ascii) (s : list ascii) : list (list ascii) :=
  match s with
  | [] => [[]]
  | c :: rest =>
      if Ascii.eqb c sep then [] :: splitOn sep rest
      else match splitOn sep rest with
           | piece :: pieces => (c :: piece) :: pieces
           | [] => [[c]]
           end
  end.

(** The value of a digit: [0-9], then [a-z] or [A-Z] from ten on. *)
Definition digitValue (c : ascii) : option Z :=
  let n := Z.of_N (N_of_ascii c) in
  if (48 <=? n) && (n <=? 57) then Some (n - 48)
  else if (97 <=? n) && (n <=? 122) then Some (n - 87)
  else if (65 <=? n) && (n <=? 90) then Some (n - 55)
  else None.

(** The number written by the longest run of digits of radix [R] at
    the head of [s]; [acc] is what was read so far, [None] for
    nothing. *)
Fixpoint readDigits (R : Z) (s : list ascii) (acc : option Z) : option Z :=
  match s with
  | [] => acc
  | c :: rest =>
      match digitValue c with
      | Some d =>
          if d <? R then readDigits R rest (Some (default 0 acc * R + d))
          else acc
      | None => acc
      end
  end.

(** [parseInt(s)] without a radix; [NaN] is [None]. *)
Definition parseInt (s : list ascii) : option Z :=
  let s := trimStart s in
  let '(sign, s) :=
    match s with
    | c :: rest =>
        if Ascii.eqb c "-" then (-1, rest)
        else if Ascii.eqb c "+" then (1, rest)
        else (1, s)
    | [] => (1, s)
    end in
  let '(R, s) :=
    match s with
    | z :: x :: rest =>
        if Ascii.eqb z "0" && (Ascii.eqb x "x" || Ascii.eqb x "X")
        then (16, rest) else (10, s)
    | _ => (10, s)
    end in
  Z.mul sign <$> readDigits R s None.

(** [.replace(/[\[\]]/g, '')]. *)
Definition removeBrackets (s : list ascii) : list ascii :=
  List.filter (fun c => negb (Ascii.eqb c "[" || Ascii.eqb c "]")) s.

(** The slots one part of the list adds, in the order it adds them. *)
Definition partSlots (part : list ascii) : list Z :=
  let trimmed := removeBrackets (trim part) in
  if existsb (Ascii.eqb "-") trimmed then
    match map (fun n => parseInt (trim n)) (splitOn "-" trimmed) with
    | Some start :: Some end_ :: _ => seqZ start (end_ - start + 1)
    | _ => []
    end
  else
    match parseInt trimmed with
    | Some slot => [slot]
    | None => []
    end.

(** [slots.add(i)] for each of [xs]: a [Set] keeps the first insertion. *)
Definition addAll (slots : list Z) (xs : list Z) : list Z :=
  fold_left (fun slots i => if includesZ slots i then slots else slots ++ [i])
            xs slots.

(** [.sort((a, b) => a - b)]. *)
Fixpoint insertSorted (x : Z) (l : list Z) : list Z :=
  match l with
  | [] => [x]
  | y :: rest => if x <=? y then x :: l else y :: insertSorted x rest
  end.

Definition sortAscending (l : list Z) : list Z := fold_right insertSorted [] l.

Definition parseSlots (slotString : string) : Slots :=
  if String.eqb slotString "all" then allSlots
  else
    let parts := splitOn "," (list_ascii_of_string slotString) in
    listed (sortAscending
              (fold_left (fun slots part => addAll slots (partSlots part))
                         parts [])).

(** What one part of the list stands for: [x] is between the two ends
    of a range, or is the number written. *)
Definition partDenotes (part : list ascii) (x : Z) : Prop :=
  let trimmed := removeBrackets (trim part) in
  if existsb (Ascii.eqb "-") trimmed then
    exists start end_ more,
      map (fun n => parseInt (trim n)) (splitOn "-" trimmed)
      = Some start :: Some end_ :: more
      /\ start <= x <= end_
  else parseInt trimmed = Some x.

(** The text is ASCII and short enough for its numbers to be exact and
    its ranges to fit a [Set]. *)
Definition plainText (s : string) : Prop :=
  Forall (fun c => (N_of_ascii c < 128)%N) (list_ascii_of_string s)
  /\ (String.length s <= 9)%nat.

Definition validateSlots (slots : Slots) (availableSlots : list Z) : Validation :=
  match slots with
  | allSlots => valid availableSlots
  | listed slots =>
      let invalidSlots :=
        List.filter (fun s => negb (includesZ availableSlots s)) slots in
      if (0 <? List.length invalidSlots)%nat
      then invalid ("Invalid slots: "
                      +:+ String.concat ", " (map pretty invalidSlots))
                   (List.filter (fun s => includesZ availableSlots s) slots)
      else valid slots
  end.

End CommandParser.

(** The session's own [toggleProtection(forceState)] with a state forced. *)
Definition forceProtection {Vec3 : Type} (newState : bool) (s : @State Vec3)
    : @State Vec3 :=
  fst (toggleProtection (Some newState) s).

Module BotManager.

(** The configuration with another alert whitelist. *)
Definition withWhitelist (cfg : Config) (l : option (list string)) : Config :=
  let st := config_settings cfg in
  mkConfig
    (settings.mk (settings.autoReconnect st) (settings.maxReconnectAttempts st)
                 (settings.reconnectDelay st) (settings.antiAfkEnabled st)
                 (settings.antiAfkInterval st) (settings.proximityAlertEnabled st)
                 (settings.alertDistance st) (settings.alertCooldown st)
                 l (settings.protection st))
    (config_account cfg).

(** [getWhitelist()]. *)
Definition getWhitelist (cfg : Config) : list string :=
  default [] (settings.alertWhitelist (config_settings cfg)).

(** [addToWhitelist(username)]: the configuration it leaves and its
    answer. *)
Definition addToWhitelist (username : string) (cfg : Config) : Config * Result :=
  let l := default [] (settings.alertWhitelist (config_settings cfg)) in
  let currentList := map toLowerCase l in
  if list_includes currentList (toLowerCase username)
  then (withWhitelist cfg (Some l),
        mkResult false (username +:+ " is already in the whitelist"))
  else (withWhitelist cfg (Some (l ++ [username])),
        mkResult true ("Added " +:+ username +:+ " to whitelist")).

(** [removeFromWhitelist(username)]. *)
Definition removeFromWhitelist (username : string) (cfg : Config)
    : Config * Result :=
  match settings.alertWhitelist (config_settings cfg) with
  | None => (cfg, mkResult false "Whitelist is empty")
  | Some l =>
      let l' := List.filter
                  (fun u => negb (String.eqb (toLowerCase u) (toLowerCase username)))
                  l in
      if (List.length l' =? List.length l)%nat
      then (withWhitelist cfg (Some l'),
            mkResult false (username +:+ " not found in whitelist"))
      else (withWhitelist cfg (Some l'),
            mkResult true ("Removed " +:+ username +:+ " from whitelist"))
  end.

(** [accountConfig.protectionEnabled = newState] on the first account of
    the list that has the slot. *)
Fixpoint setProtection (slot : Z) (newState : bool)
    (accounts : list accountConfig.t) : list accountConfig.t :=
  match accounts with
  | [] => []
  | acc :: rest =>
      if accountConfig.slot acc =? slot
      then accountConfig.mk (accountConfig.slot acc) (accountConfig.username acc)
                            (Some newState) :: rest
      else acc :: setProtection slot newState rest
  end.

(** What [toggleProtection(slot)] returns. *)
Record Toggled := mkToggled {
  toggled_success : bool;
  toggled_message : string;
  toggled_enabled : option bool
}.

(** [toggleProtection(slot)] of the manager that persists the switch:
    [st] is [config.settings], [accounts] is [config.minecraft.accounts],
    and [bot] is [this.bots.get(slot)] as it is once the configuration
    has been written. The result is the accounts, that slot's session
    and the answer. *)
Definition toggleProtection {Vec3 : Type} (st : settings.t)
    (accounts : list accountConfig.t) (slot : Z) (bot : option (@State Vec3))
    : list accountConfig.t * option (@State Vec3) * Toggled :=
  match find (fun acc => accountConfig.slot acc =? slot) accounts with
  | None =>
      (accounts, bot,
       mkToggled false ("Slot " +:+ pretty slot +:+ " not found in configuration.")
                 None)
  | Some accountConfig =>
      let currentGlobal := match settings.protection st with
                           | Some p => protection.enabled p
                           | None => false
                           end in
      let currentState := match accountConfig.protectionEnabled accountConfig with
                          | Some b => b
                          | None => currentGlobal
                          end in
      let newState := negb currentState in
      (setProtection slot newState accounts,
       forceProtection newState <$> bot,
       mkToggled true
                 ("Protection for Slot " +:+ pretty slot +:+ " is now "
                    +:+ (if newState then "VP AÇIK" else "VP KAPALI")
                    +:+ " (kaydedildi).")
                 (Some newState))
  end.

End BotManager.

(** * Earlier revisions

    The source file also carries two earlier revisions of the class. They
    differ from the current one in two places that matter here. *)

Module Earlier.

Section Earlier.

Context {Vec3 : Type}.
Variable cfg : Config.

(** [stop()] as both earlier revisions have it: without a client handle
    it warns and returns [false], and touches nothing. (Their [cleanup]
    clears the fields they have; the others are never set there.) *)
Definition stop (s : @State Vec3) : @State Vec3 * bool :=
  if negb (bot s) then (s, false)
  else
    let s := set_isManuallyStopped true s in
    let s := if bot s then emit quit s else s in
    (cleanup s, true).

(** The test of the emergency rule in the earliest revision:
    [distance <= emergencyDistance && this.config.settings.protection?.enabled]. *)
Definition emergencyTest (distance : Q) : bool :=
  Qle_bool distance (emergencyDistance cfg)
  && match settings.protection (config_settings cfg) with
     | Some p => protection.enabled p
     | None => false
     end.

End Earlier.

End Earlier.

(** * Notions used in the statements *)

Section Notions.

Context {Vec3 : Type}.
Variable distanceTo : Vec3 -> Vec3 -> Q.
Variable cfg : Config.

Implicit Types (s : @State Vec3) (w : @World Vec3).

(** The state [stop()] and [cleanup()] leave behind. *)
Definition stopped s : Prop :=
  isManuallyStopped s = true /\ reconnectTimeout s = None /\ bot s = false
  /\ status s = offline /\ isInLobby s = false
  /\ antiAfkInterval s = None /\ proximityInterval s = None
  /\ autoEatTimeout s = None /\ inventoryMonitorInterval s = None
  /\ lobbyRetryInterval s = None.

(** Every timer pending in [s'] was already pending in [s]: nothing was
    scheduled in between. *)
Definition nothingScheduled s s' : Prop :=
  forall h t, timers s' !! h = Some t -> timers s !! h = Some t.

(** The delay [handleReconnect] uses: the one-shot override when there is
    one, else the configured delay, else 5 s. *)
Definition flatDelay s : Z :=
  orZ (tempReconnectDelay s)
      (orZ (settings.reconnectDelay (config_settings cfg)) 5000).

(** The pending reconnection timer, if any, fires. *)
Definition retry (env : @Env Vec3) s : @State Vec3 :=
  match reconnectTimeout s with
  | Some h => fst (fire distanceTo cfg env h s)
  | None => s
  end.

(** What the [end] handler does before it turns to reconnection. *)
Definition ended (now : Z) s : @State Vec3 :=
  let s := set_isConnecting false s in
  let s := bump_stats (set_lastDisconnect (Some now)) s in
  let s := if truthyZ (connectedAt (stats s))
           then bump_stats
                  (fun st => set_connectedAt None
                     (set_totalUptime
                        (totalUptime st + (now - default 0 (connectedAt st))) st)) s
           else s in
  cleanup s.

(** The state [handleReconnect] leaves when it schedules an attempt. *)
Definition attemptScheduled s : @State Vec3 :=
  let s1 := set_tempReconnectDelay None
              (set_reconnectAttempts (reconnectAttempts s + 1) s) in
  set_reconnectTimeout (Some (nextTimer s))
    (setTimeout cbReconnect (flatDelay s) s1).

(** A disconnect followed by the firing of the attempt it scheduled. *)
Definition disconnectThenRetry (env : @Env Vec3) s : @State Vec3 :=
  retry env (onEnd cfg (now env) s).


(** The delay of the pending [checkFood] timeout. *)
Definition nextCheck s : option Z :=
  match autoEatTimeout s with
  | Some h => delay <$> timers s !! h
  | None => None
  end.

(** The interval of an alert burst as [setInterval] creates it. *)
Definition burstTimer (player : string) (d : Q) : Timer :=
  mkTimer (cbAlertLoop player d 0) 1000 true.

(** [s'] has the alert times of [s] and no timer that [s] has not. *)
Definition noAlertChange s s' : Prop :=
  alertCooldowns s' = alertCooldowns s /\ timers s' ⊆ timers s.

(** The interval [h] fires once under each of the given environments. *)
Definition firings (h : nat) (envs : list (@Env Vec3)) : list (@Env Vec3 * @Event Vec3) :=
  map (fun env => (env, evTimer h)) envs.

(** The number of clients created so far: the calls of [start()] that got
    past its guards. *)
Definition isCreate (a : @Action Vec3) : bool :=
  match a with
  | createBot => true
  | _ => false
  end.

Definition starts s : nat := List.length (List.filter isCreate (trace s)).

(** From [s] to [s'] no client was created, and the manual-stop flag and
    the reconnection handle are either as they were or as [stop()] sets
    them. *)
Definition quiet s s' : Prop :=
  ((isManuallyStopped s' = isManuallyStopped s
    /\ reconnectTimeout s' = reconnectTimeout s)
   \/ (isManuallyStopped s' = true /\ reconnectTimeout s' = None))
  /\ starts s' = starts s.

(** The events by which the operator starts the slot: the [start]
    command, and the delayed [start()] of a [restart] command. *)
Definition isOperatorStart s (ev : @Event Vec3) : bool :=
  match ev with
  | opStart => true
  | evTimer h =>
      match timers s !! h with
      | Some t => match callback t with cbRestart => true | _ => false end
      | None => false
      end
  | _ => false
  end.

(** No event of the run is an operator start. *)
Fixpoint noOperatorStart (evs : list (@Env Vec3 * @Event Vec3)) s : Prop :=
  match evs with
  | [] => True
  | (env, ev) :: rest =>
      isOperatorStart s ev = false
      /\ noOperatorStart rest (fst (step distanceTo cfg env ev s))
  end.

(** The manual-stop flag is set and no reconnection handle is held. *)
Definition held s : Prop :=
  isManuallyStopped s = true /\ reconnectTimeout s = None.

(** One stretch of the protection sequence between two suspensions: the
    call itself, or its continuation from a point where it waited. *)
Definition protectionStep (k : option (@Await Vec3)) (r : Settled) w s
    : @State Vec3 * @Completion Vec3 :=
  match k with
  | None => executeProtection distanceTo cfg w s
  | Some k => resumeProtection distanceTo cfg k r w s
  end.

Definition sneakOn : @Action Vec3 := setControlState "sneak" true.
Definition sneakOff : @Action Vec3 := setControlState "sneak" false.

(** [e] is a player other than the slot itself, not on the whitelist, at
    emergency distance or closer. *)
Definition isThreat w s (e : @Entity Vec3) : bool :=
  String.eqb (type e) "player" && negb (isSelf cfg e) && negb (whitelisted s e)
  && match position e, entity w with
     | Some p, Some me => Qle_bool (distanceTo me p) (emergencyDistance cfg)
     | _, _ => false
     end.

(** From [s] to [s'] the trace has grown, nothing was caught back, and
    the client handle is either as it was or gone by a [stop()], which
    then has asked the client to quit if there was one. *)
Definition advances s s' : Prop :=
  (exists tr, trace s' = trace s ++ tr
              /\ (bot s' = bot s
                  \/ (stopped s' /\ (bot s = true -> In quit tr))))
  /\ (stopped s -> stopped s')
  /\ (uncaught s <= uncaught s')%nat
  /\ onProximityAlert s' = onProximityAlert s
  /\ _cachedWhitelist s' = _cachedWhitelist s.

End Notions.

(** * A concrete slot

    Positions on a line, one configuration and a few environments, used to
    run the model on explicit inputs. *)

Module Example.

Definition distanceTo (a b : Z) : Q := inject_Z (Z.abs (a - b)).

Definition protectionCfg : protection.t :=
  protection.mk true None None None None.

(** Slot 2 of the specification's scenario: at most three reconnection
    attempts, 5 s apart. *)
Definition cfg : Config :=
  mkConfig
    (settings.mk true (Some 3) (Some 5000) true None true None None
                 (Some ["Friend"]) (Some protectionCfg))
    (accountConfig.mk 2 "Bot" None).

Definition emptyWorld : @World Z :=
  mkWorld [] (Some 0) 20 [] 36 (fun _ _ => []) (fun _ => None).

Definition at_ (t : Z) : @Env Z := mkEnv t emptyWorld false.

(** The slot as [BotManager.initialize] leaves it: constructed, with the
    manager's callbacks registered. *)
Definition registered : @State Z :=
  set_onProximityAlert true
    (set_onConnect true
       (set_onLobbyDetected true
          (set_onInventoryAlert true (constructor cfg 0)))).

(** Started by the operator and logged in at time 1000. *)
Definition loggedIn : @State Z :=
  run distanceTo cfg [(at_ 0, opStart); (at_ 1000, evLogin)] registered.

(** The slot after it has spawned at position 0, its home. *)
Definition atHome : @State Z :=
  run distanceTo cfg [(at_ 1500, evSpawn)] loggedIn.

(** The client after a teleport to position 1000, and back near home. *)
Definition farWorld : @World Z :=
  mkWorld [] (Some 1000) 20 [] 36 (fun _ _ => []) (fun _ => None).

Definition nearWorld : @World Z :=
  mkWorld [] (Some 10) 20 [] 36 (fun _ _ => []) (fun _ => None).

(** The slot's own entity and two other players, 50 and 5 blocks away. *)
Definition self : @Entity Z := mkEntity "player" "Bot" (Some 0).
Definition steve : @Entity Z := mkEntity "player" "Steve" (Some 50).
Definition eve : @Entity Z := mkEntity "player" "Eve" (Some 5).

Definition pickaxe : Item := mkItem "diamond_pickaxe" 1 0.

(** Steve in alert range; a pickaxe in the inventory. *)
Definition steveWorld : @World Z :=
  mkWorld [self; steve] (Some 0) 20 [pickaxe] 36 (fun _ _ => []) (fun _ => None).

(** The slot after its connection dropped: the first reconnection attempt
    is pending under handle 4. *)
Definition dropped : @State Z :=
  run distanceTo cfg [(at_ 2000, evEnd)] loggedIn.

(** What may follow a [stop()] of that slot: the cancelled timeout's
    handle, a late [end] of the old connection, a kick notice, a scan. *)
Definition afterStop : list (@Env Z * @Event Z) :=
  [ (at_ 7000, evTimer 4%nat); (at_ 8000, evEnd);
    (at_ 8500, evKicked "already online"); (at_ 9000, evTimer 1%nat) ].

(** Two spawners in reach, at positions 7 and 8. *)
Definition spawner : Block := mkBlock "spawner".

Definition spawnerWorld : @World Z :=
  mkWorld [self; steve] (Some 0) 20 [pickaxe] 36
          (fun name _ => if String.eqb name "spawner" then [7; 8] else [])
          (fun _ => Some spawner).

(** The same, once Eve has come within 5 blocks. *)
Definition eveWorld : @World Z :=
  mkWorld [self; steve; eve] (Some 0) 20 [pickaxe] 36
          (fun name _ => if String.eqb name "spawner" then [7; 8] else [])
          (fun _ => Some spawner).

Definition seeing (t : Z) (w : @World Z) : @Env Z := mkEnv t w false.

(** The scan (interval 1) sees Steve and triggers the protection
    sequence; the pickaxe is equipped, the first spawner is looked at and
    dug. *)
Definition digging : @State Z :=
  run distanceTo cfg
      [ (seeing 400000 spawnerWorld, evTimer 1%nat);
        (seeing 400100 spawnerWorld, evSettled (protectionTask awEquip) Resolved);
        (seeing 400200 spawnerWorld,
         evSettled (protectionTask (awLookAt 7 spawner [8] 0)) Resolved) ]
      atHome.

(** The connection ends while the first spawner is being dug. *)
Definition lostWhileDigging : @State Z :=
  run distanceTo cfg [(at_ 400300, evEnd)] digging.

(** The scan has triggered the sequence, which waits for the pickaxe. *)
Definition equipping : @State Z :=
  run distanceTo cfg [(seeing 400000 spawnerWorld, evTimer 1%nat)] atHome.

(** No spawner in reach. *)
Definition clearedWorld : @World Z :=
  mkWorld [self; steve] (Some 0) 20 [pickaxe] 36 (fun _ _ => []) (fun _ => None).

(** The connection ends while the pickaxe is being equipped. *)
Definition lostWhileEquipping : @State Z :=
  run distanceTo cfg [(at_ 400050, evEnd)] equipping.

(** What follows once the equip promise has settled: the scheduled
    reconnection (handle 5) fires, the slot logs in and spawns. *)
Definition backOnline : list (@Env Z * @Event Z) :=
  [ (at_ 405050, evTimer 5%nat); (at_ 406000, evLogin);
    (seeing 406500 spawnerWorld, evSpawn) ].

(** Steve in alert range and Eve within emergency distance, scanned in
    that order; no pickaxe in the inventory. *)
Definition bareHandsWorld : @World Z :=
  mkWorld [self; steve; eve] (Some 0) 20 [] 36
          (fun name _ => if String.eqb name "spawner" then [7; 8] else [])
          (fun _ => Some spawner).

(** The slot at home with protection switched off by the operator. *)
Definition unprotected : @State Z :=
  run distanceTo cfg [(at_ 2000, opToggleProtection (Some false))] atHome.

(** Three disconnects in a row from the logged-in slot: after each of
    the first two, the scheduled attempt fires (handles 4 and 5) and
    opens a connection that ends before it logs in. *)
Definition threeDisconnects : list (@Env Z * @Event Z) :=
  [ (at_ 2000, evEnd); (at_ 7000, evTimer 4%nat);
    (at_ 8000, evEnd); (at_ 13000, evTimer 5%nat);
    (at_ 14000, evEnd) ].

(** Steve in alert range; no pickaxe in the inventory and no spawner in
    reach. *)
Definition emptyHandedWorld : @World Z :=
  mkWorld [self; steve] (Some 0) 20 [] 36 (fun _ _ => []) (fun _ => None).

(** Steve is seen a second time: the burst started at 400000 (handle 4)
    fires for the first time, and the next scan sees him still there. *)
Definition secondSighting : list (@Env Z * @Event Z) :=
  [ (at_ 401000, evTimer 4%nat); (seeing 401000 clearedWorld, evTimer 1%nat) ].

(** The pickaxe is equipped, the protection sequence finds no spawner to
    break and ends; the burst fires four more times. *)
Definition retreat : list (@Env Z * @Event Z) :=
  [ (seeing 401500 clearedWorld, evSettled (protectionTask awEquip) Resolved);
    (at_ 402000, evTimer 4%nat); (at_ 403000, evTimer 4%nat);
    (at_ 404000, evTimer 4%nat); (at_ 405000, evTimer 4%nat) ].

(** Five firings of an interval, 1 s apart from the time [t] on. *)
Definition fiveSeconds (t : Z) : list (@Env Z) :=
  [at_ (t + 1000); at_ (t + 2000); at_ (t + 3000); at_ (t + 4000); at_ (t + 5000)].

(** What may happen in the minutes after Steve's alert: scans that see
    him again, an idle tick, a chat line, a pause. *)
Definition afterAlert : list (@Env Z * @Event Z) :=
  [ (seeing 401000 steveWorld, evTimer 1%nat); (at_ 430000, evTimer 0%nat);
    (at_ 500000, evMessagestr "hello"); (at_ 600000, opPause);
    (seeing 700000 steveWorld, evTimer 1%nat) ].

(** The operator restarts the slot and, half a second later, stops it. *)
Definition restartStopped : @State Z :=
  run distanceTo cfg [(at_ 2000, opRestart); (at_ 2500, opStop)] atHome.

(** What follows: the timeout of the restart (handle 4) fires, the slot
    logs in, its connection ends, and the reconnection that the end has
    scheduled (handle 9) fires. *)
Definition afterRestartStop : list (@Env Z * @Event Z) :=
  [ (at_ 4000, evTimer 4%nat); (at_ 4500, evLogin); (at_ 9000, evEnd);
    (at_ 14000, evTimer 9%nat) ].

(** A second [login] event on the connection of the slot at home. *)
Definition loggedInAgain : @State Z :=
  run distanceTo cfg [(at_ 1600, evLogin)] atHome.

End Example.

(** * Further notions *)

Section MoreNotions.

Context {Vec3 : Type}.
Variable distanceTo : Vec3 -> Vec3 -> Q.
Variable cfg : Config.

Implicit Types (s : @State Vec3) (w : @World Vec3).

(** [e] is a player other than the slot itself, not on the whitelist,
    whose position is known and within the alert distance or the
    emergency distance of the slot. *)
Definition inAlertRange w s (e : @Entity Vec3) : bool :=
  String.eqb (type e) "player" && negb (isSelf cfg e) && negb (whitelisted s e)
  && match position e, entity w with
     | Some p, Some me =>
         Qle_bool (distanceTo me p) (emergencyDistance cfg)
         || Qle_bool (distanceTo me p) (alertDistance cfg)
     | _, _ => false
     end.

(** From [s] to [s'] the counters of the statistics have not gone down,
    and the two fields that nothing writes are as they were. *)
Definition countersGrow s s' : Prop :=
  spawnersBroken (stats s') = spawnersBroken (stats s)
  /\ sessionStart (stats s') = sessionStart (stats s)
  /\ alertsTriggered (stats s) <= alertsTriggered (stats s')
  /\ lobbyEvents (stats s) <= lobbyEvents (stats s')
  /\ reconnects (stats s) <= reconnects (stats s').

(** The handle [h] is held in one of the five fields that [cleanup()]
    clears. *)
Definition tracked s (h : nat) : Prop :=
  antiAfkInterval s = Some h \/ proximityInterval s = Some h
  \/ autoEatTimeout s = Some h \/ inventoryMonitorInterval s = Some h
  \/ lobbyRetryInterval s = Some h.

(** ** Frames *)

(** From [s] to [s'] the connecting flag is as it was and no client
    handle has been taken. *)
Definition sameConnection s s' : Prop :=
  isConnecting s' = isConnecting s /\ (bot s' = true -> bot s = true).

(** From [s] to [s'] no delayed [start()] of a [restart] command has
    been scheduled. *)
Definition noRestartScheduled s s' : Prop :=
  forall h t, timers s' !! h = Some t -> callback t = cbRestart ->
              timers s !! h = Some t.

(** [c] is the callback of an alert burst. *)
Definition isBurst (c : Callback) : bool :=
  match c with
  | cbAlertLoop _ _ _ => true
  | _ => false
  end.

(** From [s] to [s'] no alert time has been written and no alert burst
    has been started. *)
Definition alertsKept s s' : Prop :=
  alertCooldowns s' = alertCooldowns s
  /\ forall h t, timers s' !! h = Some t -> isBurst (callback t) = true ->
                 timers s !! h = Some t.

(** What every callback and handler other than [start()], [restart()]
    and the four client events that end a connection attempt leaves
    alone. *)
Definition calm s s' : Prop := sameConnection s s' /\ noRestartScheduled s s'.

(** Calm, and with the alerts kept: what everything but the scan and the
    bursts themselves leaves alone. *)
Definition still s s' : Prop := calm s s' /\ alertsKept s s'.

(** No delayed [start()] of a [restart] command is pending. *)
Definition noRestartPending s : Prop :=
  forall h t, timers s !! h = Some t -> callback t <> cbRestart.

(** The client events whose handlers clear the connecting flag. *)
Definition clearsConnecting (ev : @Event Vec3) : bool :=
  match ev with
  | evLogin | evEnd | evKicked _ | evError => true
  | _ => false
  end.

(** The commands by which the operator starts the slot. *)
Definition isStartCommand (ev : @Event Vec3) : bool :=
  match ev with
  | opStart | opRestart => true
  | _ => false
  end.

(** ** Alert bursts *)

(** [t] is the interval of an alert burst for [player], at whatever
    count it has reached. *)
Definition burstOf (player : string) (t : Timer) : bool :=
  match callback t with
  | cbAlertLoop u _ _ => String.eqb u player
  | _ => false
  end.

(** A burst for [player] is pending under the handle [h]. *)
Definition burstUnder (player : string) s (h : nat) : Prop :=
  exists t, timers s !! h = Some t /\ burstOf player t = true.

(** Between [s] and [s'] a burst for [player] was started under [h]. *)
Definition newBurst (player : string) s s' (h : nat) : Prop :=
  burstUnder player s' h /\ ~ burstUnder player s h.

(** The handle [h] is held in one of the fields of the slot. *)
Definition heldHandle s (h : nat) : Prop :=
  tracked s h \/ reconnectTimeout s = Some h.

(** Every handle in use has been issued by [setTimeout]/[setInterval]:
    the pending timers and the handles held in the fields are below the
    next fresh handle. *)
Definition issued s : Prop :=
  (forall h t, timers s !! h = Some t -> (h < nextTimer s)%nat)
  /\ (forall h, heldHandle s h -> (h < nextTimer s)%nat).

(** What a scan, or a part of one, that raises alerts for identities of
    [us] only can do to the timers: it takes fresh handles for the bursts
    it starts and for nothing else, cancels nothing but timers held in
    the fields, and leaves the alert times of the other identities
    alone. *)
Definition scanned (us : list string) s s' : Prop :=
  (nextTimer s <= nextTimer s')%nat
  /\ (us = [] -> nextTimer s' = nextTimer s)
  /\ _cachedWhitelist s' = _cachedWhitelist s
  /\ (forall h, heldHandle s' h -> heldHandle s h)
  /\ (forall u, ~ In u us -> alertCooldowns s' !! u = alertCooldowns s !! u)
  /\ (forall h t, timers s' !! h = Some t ->
        timers s !! h = Some t
        \/ ((nextTimer s <= h < nextTimer s')%nat
            /\ exists u d, In u us /\ t = burstTimer u d))
  /\ (forall h t, timers s !! h = Some t -> (h < nextTimer s)%nat ->
        ~ heldHandle s h -> timers s' !! h = Some t).

(** The distance at which a scan sees [e], when both positions are
    known. *)
Definition seenAt w (e : @Entity Vec3) : option Q :=
  match position e, entity w with
  | Some p, Some me => Some (distanceTo me p)
  | _, _ => None
  end.

(** [e] is a proximity event for the alert rule: a player other than the
    slot itself, not on the whitelist, seen at the distance [d], which is
    beyond the emergency distance and within the alert distance. *)
Definition alertEvent w s (e : @Entity Vec3) (d : Q) : Prop :=
  String.eqb (type e) "player" = true /\ isSelf cfg e = false
  /\ whitelisted s e = false /\ seenAt w e = Some d
  /\ Qle_bool d (emergencyDistance cfg) = false
  /\ Qle_bool d (alertDistance cfg) = true.

(** The guard of the scan passes. *)
Definition scanning s : Prop :=
  bot s = true /\ status s = online /\ isPaused s = false /\ isInLobby s = false.

(** Every event of the run happens within the cooldown that started at
    [t0]. *)
Definition withinCooldown (t0 : Z) (evs : list (@Env Vec3 * @Event Vec3)) : Prop :=
  Forall (fun p => now (fst p) - t0 <= cooldown cfg) evs.

(** ** Lobby mode *)

(** The only idle-prevention and threat-detection intervals pending are
    those whose handles the slot holds. *)
Definition loopsHeld s : Prop :=
  forall h t, timers s !! h = Some t ->
    (callback t = cbAntiAfk -> antiAfkInterval s = Some h)
    /\ (callback t = cbProximity -> proximityInterval s = Some h).

(** No idle-prevention or threat-detection interval is pending. *)
Definition loopsSuspended s : Prop :=
  forall h t, timers s !! h = Some t ->
    callback t <> cbAntiAfk /\ callback t <> cbProximity.

End MoreNotions.

(** * Further cases of the concrete slot *)

Module Cases.

Import Example.

(** The slot at home, paused by the operator. *)
Definition pausedHome : @State Z := fst (pause atHome).

(** The slot just started: its connection is being opened. *)
Definition connectingSlot : @State Z := fst (start false registered).

(** An inventory of four stacks. *)
Definition cobblestone : Item := mkItem "cobblestone" 64 9.
Definition bread : Item := mkItem "bread" 3 10.
Definition stonePickaxe : Item := mkItem "stone_pickaxe" 1 11.

Definition stockedWorld : @World Z :=
  mkWorld [self] (Some 0) 20 [pickaxe; cobblestone; bread; stonePickaxe] 32
          (fun _ _ => []) (fun _ => None).

(** Every toss resolves and the client stays. *)
Definition allResolve : nat -> Settled * bool := fun _ => (Resolved, true).

(** No empty slot, and four empty slots. *)
Definition fullWorld : @World Z :=
  mkWorld [self] (Some 0) 20 [] 0 (fun _ _ => []) (fun _ => None).

Definition fourLeftWorld : @World Z :=
  mkWorld [self] (Some 0) 20 [] 4 (fun _ _ => []) (fun _ => None).

(** The slot after the monitor has reported the full inventory. *)
Definition alerted : @State Z := fst (inventoryFullness fullWorld atHome).

(** A whitelisted player 5 blocks away and a zombie next to the slot. *)
Definition friend : @Entity Z := mkEntity "player" "FRIEND" (Some 5).
Definition zombie : @Entity Z := mkEntity "mob" "" (Some 1).

Definition friendlyWorld : @World Z :=
  mkWorld [self; friend; zombie] (Some 0) 20 [] 36 (fun _ _ => []) (fun _ => None).

(** [move('forward', 5)] accepted at home: the control is pressed and the
    promise is pending. *)
Definition pressed : @State Z := emit (setControlState "forward" true) atHome.

Definition moving : @Move Z := mkMove "forward" 5 0 7000 false true true.

(** The slot once the check has seen it 10 blocks from where it
    started. *)
Definition released : @State Z := emit (setControlState "forward" false) atHome.

(** The accounts of the configuration: another slot and slot 2. *)
Definition accounts : list accountConfig.t :=
  [accountConfig.mk 1 "Alt" None; config_account cfg].

(** What follows the [stop()] of a connecting slot before its client
    says anything: commands, and the delayed start of a restart. *)
Definition whileConnecting : list (@Env Z * @Event Z) :=
  [ (at_ 100, opStart); (at_ 200, opRestart); (at_ 2200, evTimer 0%nat);
    (at_ 2300, opResume) ].

End Cases.

(** * Properties *)

Section Properties.

Context {Vec3 : Type}.
Variable distanceTo : Vec3 -> Vec3 -> Q.
Variable cfg : Config.

Implicit Types (s : @State Vec3) (w : @World Vec3).

(** Projections of an updated state are reduced with [cbn]: the records
    have primitive projections, so a state that is stuck on a test stays
    folded. [split_if] reduces what an [if] of the goal inspects and
    splits on it. *)
Ltac split_if :=
  match goal with
  | |- context [if ?c then _ else _] =>
      let c' := eval cbn in c in
      change c with c'; destruct c' eqn:?
  end.

(** A key is absent from a table from which it was deleted. *)
Ltac deleted :=
  first [ apply lookup_delete_eq
        | apply lookup_delete_None; right; deleted ].

(** ** Operator commands *)

(** C10. [toggleProtection()] negates [protectionEnabled] and returns the
    new value; [toggleProtection(b)] sets it to [b] and returns [b]; two
    calls without argument give the state back as it was. *)
Theorem toggleProtection_spec s :
  (protectionEnabled (fst (toggleProtection None s)) = negb (protectionEnabled s)
   /\ snd (toggleProtection None s) = negb (protectionEnabled s))
  /\ (forall b : bool,
        protectionEnabled (fst (toggleProtection (Some b) s)) = b
        /\ snd (toggleProtection (Some b) s) = b)
  /\ fst (toggleProtection None (fst (toggleProtection None s))) = s.
Proof.
  repeat split.
  destruct s; cbn. now rewrite negb_involutive.
Qed.

Lemma stop_stopped s : stopped (fst (stop s)).
Proof.
  unfold stopped, stop. split_if; repeat split; reflexivity.
Qed.

Lemma stop_returns_true s : snd (stop s) = true.
Proof. reflexivity. Qed.

Lemma stop_fixpoint s : stopped s -> stop s = (s, true).
Proof.
  unfold stopped.
  destruct s; cbn; intros (-> & -> & -> & -> & -> & -> & -> & -> & -> & ->).
  reflexivity.
Qed.

Lemma stop_uncaught s : uncaught (fst (stop s)) = uncaught s.
Proof. unfold stop. split_if; reflexivity. Qed.

(** C4. [stop()] is idempotent: from any state, with or without a client
    handle, the first call and a second call right after it both leave the
    phase [offline], return [true] and throw nothing; the second call
    changes nothing at all. *)
Theorem stop_idempotent s :
  let s1 := fst (stop s) in
  let s2 := fst (stop s1) in
  (status s1 = offline /\ snd (stop s) = true /\ uncaught s1 = uncaught s)
  /\ (status s2 = offline /\ snd (stop s1) = true /\ uncaught s2 = uncaught s)
  /\ s2 = s1.
Proof.
  cbn zeta.
  pose proof (stop_stopped s) as Hs.
  rewrite (stop_fixpoint _ Hs). cbn [fst snd].
  rewrite stop_uncaught.
  destruct Hs as (_ & _ & _ & Hst & _). auto.
Qed.

(** ** Reconnection *)

Lemma clearHandle_timers o s : timers (clearHandle o s) ⊆ timers s.
Proof. destruct o; cbn; [apply delete_subseteq | reflexivity]. Qed.

Lemma cleanup_timers s : timers (cleanup s) ⊆ timers s.
Proof.
  unfold cleanup, stopLobbyRetry. cbn.
  repeat match goal with
         | |- context [match ?x with _ => _ end] => destruct x
         end;
    repeat (etrans; [apply delete_subseteq |]); reflexivity.
Qed.

Lemma nothingScheduled_sub s s' : timers s' ⊆ timers s -> nothingScheduled s s'.
Proof. intros H h t Ht. eapply lookup_weaken; eauto. Qed.

Lemma ended_frame now s :
  let e := ended now s in
  isPaused e = isPaused s /\ isManuallyStopped e = isManuallyStopped s
  /\ reconnectAttempts e = reconnectAttempts s
  /\ tempReconnectDelay e = tempReconnectDelay s
  /\ reconnectTimeout e = reconnectTimeout s
  /\ nextTimer e = nextTimer s /\ trace e = trace s
  /\ uncaught e = uncaught s
  /\ bot e = false /\ status e = offline /\ isConnecting e = false
  /\ timers e ⊆ timers s.
Proof.
  unfold ended. cbv zeta.
  destruct (truthyZ _); repeat split; try reflexivity;
    (etrans; [apply cleanup_timers |]); reflexivity.
Qed.

Lemma onEnd_ended now s :
  onEnd cfg now s =
  if settings.autoReconnect (config_settings cfg) && negb (isPaused s)
  then handleReconnect cfg (ended now s) else ended now s.
Proof.
  destruct (ended_frame now s) as (Hp & _). cbv zeta in Hp.
  rewrite <- Hp. reflexivity.
Qed.

Lemma handleReconnect_exhausted s :
  isManuallyStopped s = false -> attemptsExhausted cfg s = true ->
  handleReconnect cfg s = set_status failed s.
Proof. intros H1 H2. unfold handleReconnect. now rewrite H1, H2. Qed.

Lemma handleReconnect_schedules s :
  isManuallyStopped s = false -> attemptsExhausted cfg s = false ->
  handleReconnect cfg s = attemptScheduled cfg s.
Proof. intros H1 H2. unfold handleReconnect. now rewrite H1, H2. Qed.

Lemma attemptsExhausted_ended now s :
  attemptsExhausted cfg (ended now s) = attemptsExhausted cfg s.
Proof.
  destruct (ended_frame now s) as (_ & _ & Ha & _). cbv zeta in Ha.
  unfold attemptsExhausted. now rewrite Ha.
Qed.

(** The rule of [handleReconnect], as the [end] handler applies it. *)
Lemma handled_disconnect now s :
  settings.autoReconnect (config_settings cfg) = true ->
  isPaused s = false -> isManuallyStopped s = false ->
  let s' := onEnd cfg now s in
  (attemptsExhausted cfg s = true ->
     status s' = failed /\ reconnectAttempts s' = reconnectAttempts s
     /\ nothingScheduled s s')
  /\ (attemptsExhausted cfg s = false ->
     status s' = offline /\ reconnectAttempts s' = reconnectAttempts s + 1
     /\ tempReconnectDelay s' = None
     /\ reconnectTimeout s' = Some (nextTimer s)
     /\ timers s' !! nextTimer s
        = Some (mkTimer cbReconnect (flatDelay cfg s) false)).
Proof.
  intros Hauto Hp Hm. cbv zeta. rewrite onEnd_ended, Hauto, Hp. cbn [andb negb].
  destruct (ended_frame now s) as (_ & Hm' & Ha & Ht & _ & Hn & _ & _ & _ & Hst & _ & Hsub).
  cbv zeta in *. rewrite Hm in Hm'.
  generalize dependent (ended now s). intros e Hm' Ha Ht Hn Hst Hsub.
  split; intros Hex.
  - rewrite handleReconnect_exhausted
      by (try (unfold attemptsExhausted; rewrite Ha); assumption).
    split; [reflexivity | split; [exact Ha | now apply nothingScheduled_sub]].
  - rewrite handleReconnect_schedules
      by (try (unfold attemptsExhausted; rewrite Ha); assumption).
    unfold attemptScheduled, flatDelay. cbn. rewrite Ha, Ht, Hn.
    split; [exact Hst | split; [reflexivity | split; [reflexivity | split; [reflexivity |]]]].
    apply lookup_insert_eq.
Qed.

Lemma onEnd_frame now s :
  let s' := onEnd cfg now s in
  isPaused s' = isPaused s /\ isManuallyStopped s' = isManuallyStopped s
  /\ bot s' = false /\ isConnecting s' = false.
Proof.
  cbv zeta. rewrite onEnd_ended.
  destruct (ended_frame now s) as (Hp & Hm & _ & _ & _ & _ & _ & _ & Hb & _ & Hc & _).
  cbv zeta in *. generalize dependent (ended now s). intros e Hp Hm Hb Hc.
  destruct (_ && _); [| tauto].
  unfold handleReconnect.
  destruct (isManuallyStopped e) eqn:E; [cbn; repeat split; congruence |].
  destruct (attemptsExhausted cfg e); cbn; repeat split; congruence.
Qed.

Lemma retry_starts (env : @Env Vec3) s h d :
  createThrows env = false ->
  reconnectTimeout s = Some h ->
  timers s !! h = Some (mkTimer cbReconnect d false) ->
  isManuallyStopped s = false -> isConnecting s = false -> bot s = false ->
  let r := retry distanceTo cfg env s in
  isPaused r = isPaused s /\ isManuallyStopped r = false
  /\ reconnectAttempts r = reconnectAttempts s
  /\ bot r = true /\ status r = connecting
  /\ trace r = trace s ++ [createBot].
Proof.
  intros Hc Hh Ht Hm Hi Hb. unfold retry, fire. rewrite Hh, Ht. cbn.
  unfold reconnectFire. cbn. rewrite Hm. cbn.
  unfold start. cbn. rewrite Hi, Hb, Hc. cbn. tauto.
Qed.

(** One round of the scenario: while attempts remain, a disconnect counts
    one attempt and its timer restarts the client. *)
Lemma round_counts (env : @Env Vec3) s :
  settings.autoReconnect (config_settings cfg) = true ->
  createThrows env = false ->
  isPaused s = false -> isManuallyStopped s = false ->
  attemptsExhausted cfg s = false ->
  let r := disconnectThenRetry distanceTo cfg env s in
  isPaused r = false /\ isManuallyStopped r = false
  /\ reconnectAttempts r = reconnectAttempts s + 1
  /\ bot r = true /\ status r = connecting.
Proof.
  intros Hauto Hc Hp Hm Hex. unfold disconnectThenRetry.
  destruct (handled_disconnect (now env) s Hauto Hp Hm) as [_ H].
  destruct (H Hex) as (_ & Ha & _ & Hr & Ht).
  destruct (onEnd_frame (now env) s) as (Hp' & Hm' & Hb & Hi).
  cbv zeta in *. rewrite Hp in Hp'. rewrite Hm in Hm'.
  destruct (retry_starts env _ _ _ Hc Hr Ht Hm' Hi Hb)
    as (Hp2 & Hm2 & Ha2 & Hb2 & Hs2 & _).
  cbv zeta in *. rewrite Hp2, Ha2, Ha. tauto.
Qed.

(** C3, as the code has it. A disconnect handled with auto-reconnect on,
    not paused and not manually stopped either finds the attempts
    exhausted, and then the phase becomes [failed] and nothing is
    scheduled, or counts one more attempt and schedules [start()] after a
    delay that does not depend on the count: the pending one-shot
    override, else the configured delay, else 5 s. With at most three
    attempts and none made yet, three disconnects in a row leave the
    phase [offline] with three attempts counted and the third one
    scheduled; the fourth disconnect makes the phase [failed], still with
    three attempts, and schedules nothing. *)
Theorem reconnect_scheduling s :
  settings.autoReconnect (config_settings cfg) = true ->
  isPaused s = false -> isManuallyStopped s = false ->
  (forall now,
     let s' := onEnd cfg now s in
     (attemptsExhausted cfg s = true ->
        status s' = failed /\ reconnectAttempts s' = reconnectAttempts s
        /\ nothingScheduled s s')
     /\ (attemptsExhausted cfg s = false ->
        status s' = offline /\ reconnectAttempts s' = reconnectAttempts s + 1
        /\ reconnectTimeout s' = Some (nextTimer s)
        /\ timers s' !! nextTimer s
           = Some (mkTimer cbReconnect (flatDelay cfg s) false)))
  /\ (forall s2 : @State Vec3,
        tempReconnectDelay s2 = tempReconnectDelay s ->
        flatDelay cfg s2 = flatDelay cfg s)
  /\ (settings.maxReconnectAttempts (config_settings cfg) = Some 3 ->
      reconnectAttempts s = 0 ->
      forall e1 e2 e3 e4 : @Env Vec3,
        createThrows e1 = false -> createThrows e2 = false ->
        createThrows e3 = false ->
        let s2 := disconnectThenRetry distanceTo cfg e2
                    (disconnectThenRetry distanceTo cfg e1 s) in
        let s3 := onEnd cfg (now e3) s2 in
        let s4 := onEnd cfg (now e4) (retry distanceTo cfg e3 s3) in
        (status s3 = offline /\ reconnectAttempts s3 = 3
         /\ exists h d, reconnectTimeout s3 = Some h
                        /\ timers s3 !! h = Some (mkTimer cbReconnect d false))
        /\ (status s4 = failed /\ reconnectAttempts s4 = 3
            /\ nothingScheduled (retry distanceTo cfg e3 s3) s4)).
Proof.
  intros Hauto Hp Hm. split; [| split].
  - intros now0. cbv zeta.
    destruct (handled_disconnect now0 s Hauto Hp Hm) as [H1 H2]. split; [exact H1 |].
    intros Hex. destruct (H2 Hex) as (? & ? & ? & ? & ?). tauto.
  - intros s2 H. unfold flatDelay. now rewrite H.
  - intros Hmax Ha0 e1 e2 e3 e4 Hc1 Hc2 Hc3. cbv zeta.
    assert (Hex : forall x : @State Vec3,
               attemptsExhausted cfg x = (3 <=? reconnectAttempts x)).
    { intros x. unfold attemptsExhausted. now rewrite Hmax. }
    destruct (round_counts e1 s Hauto Hc1 Hp Hm) as (Hp1 & Hm1 & Ha1 & _).
    { rewrite Hex, Ha0. reflexivity. }
    cbv zeta in *. rewrite Ha0 in Ha1.
    set (r1 := disconnectThenRetry distanceTo cfg e1 s) in *.
    destruct (round_counts e2 r1 Hauto Hc2 Hp1 Hm1) as (Hp2 & Hm2 & Ha2 & _).
    { rewrite Hex, Ha1. reflexivity. }
    cbv zeta in *. rewrite Ha1 in Ha2.
    set (r2 := disconnectThenRetry distanceTo cfg e2 r1) in *.
    destruct (handled_disconnect (now e3) r2 Hauto Hp2 Hm2) as [_ H3].
    destruct H3 as (Hs3 & Ha3 & _ & Hr3 & Ht3).
    { rewrite Hex, Ha2. reflexivity. }
    cbv zeta in *. rewrite Ha2 in Ha3.
    destruct (onEnd_frame (now e3) r2) as (Hp3 & Hm3 & Hb3 & Hi3).
    cbv zeta in *. rewrite Hp2 in Hp3. rewrite Hm2 in Hm3.
    set (s3 := onEnd cfg (now e3) r2) in *.
    split.
    { split; [exact Hs3 | split; [exact Ha3 | eauto]]. }
    destruct (retry_starts e3 _ _ _ Hc3 Hr3 Ht3 Hm3 Hi3 Hb3)
      as (Hp4 & Hm4 & Ha4 & _).
    cbv zeta in *. rewrite Hp3 in Hp4. rewrite Ha3 in Ha4.
    set (r3 := retry distanceTo cfg e3 s3) in *.
    destruct (handled_disconnect (now e4) r3 Hauto Hp4 Hm4) as [H4 _].
    destruct H4 as (Hs4 & Ha5 & Hn4).
    { rewrite Hex, Ha4. reflexivity. }
    cbv zeta in *. rewrite Ha4 in Ha5. tauto.
Qed.

(** ** Self-sustenance *)

Lemma scheduleCheckFood_next d s :
  nextCheck (scheduleCheckFood d s) = Some d.
Proof.
  unfold nextCheck, scheduleCheckFood. cbn. now rewrite lookup_insert_eq.
Qed.




(** ** Lobby mode *)

Lemma negb_Qle_bool_lt (x y : Q) : (y < x)%Q -> negb (Qle_bool x y) = true.
Proof.
  intros H. destruct (Qle_bool x y) eqn:E; [| reflexivity].
  apply Qle_bool_iff in E. exfalso. eapply Qlt_not_le; eauto.
Qed.

Lemma enterLobbyMode_enters s :
  isInLobby s = false ->
  let s1 := enterLobbyMode s in
  isInLobby s1 = true /\ antiAfkInterval s1 = None /\ proximityInterval s1 = None
  /\ lastPosition s1 = lastPosition s /\ bot s1 = bot s
  /\ (forall h, (h < nextTimer s)%nat ->
        antiAfkInterval s = Some h \/ proximityInterval s = Some h ->
        timers s1 !! h = None).
Proof.
  intros Hl. cbv zeta. unfold enterLobbyMode. rewrite Hl.
  unfold startLobbyRetry, stopLobbyRetry. cbv zeta.
  destruct (onLobbyDetected _) eqn:E; cbn; (do 5 (split; [reflexivity |]));
    intros h Hh Hc;
    (rewrite lookup_insert_ne by lia); (rewrite lookup_insert_ne by lia);
    destruct (lobbyRetryInterval s), (antiAfkInterval s) as [a |],
             (proximityInterval s) as [b |];
    repeat match goal with
           | H : _ \/ _ |- _ => destruct H
           | H : Some _ = Some _ |- _ => injection H as ->
           | H : None = Some _ |- _ => discriminate H
           end;
    deleted.
Qed.

Lemma exitLobbyMode_exits s :
  let s2 := exitLobbyMode cfg s in
  isInLobby s2 = false
  /\ (if settings.antiAfkEnabled (config_settings cfg)
      then exists h, antiAfkInterval s2 = Some h
                     /\ timers s2 !! h
                        = Some (mkTimer cbAntiAfk
                                  (orZ (settings.antiAfkInterval (config_settings cfg)) 30000)
                                  true)
      else antiAfkInterval s2 = antiAfkInterval s)
  /\ (if settings.proximityAlertEnabled (config_settings cfg)
      then exists h, proximityInterval s2 = Some h
                     /\ timers s2 !! h = Some (mkTimer cbProximity 1000 true)
      else proximityInterval s2 = proximityInterval s).
Proof.
  cbv zeta. unfold exitLobbyMode, stopLobbyRetry, startAntiAfk, startProximityCheck.
  cbv zeta.
  destruct (onLobbyDetected _), (settings.antiAfkEnabled _),
           (settings.proximityAlertEnabled _); cbn;
    (split; [reflexivity |]); split;
    try reflexivity;
    eexists; (split; [reflexivity |]);
    rewrite ?lookup_insert_eq; try reflexivity;
    (rewrite lookup_insert_ne by lia); rewrite lookup_insert_eq; reflexivity.
Qed.

Lemma onSpawn_jump w s last p :
  bot s = true -> isInLobby s = false ->
  lastPosition s = Some last -> entity w = Some p ->
  (200 < distanceTo last p)%Q ->
  onSpawn distanceTo cfg w s
  = enterLobbyMode (emit (setControlState "sneak" true) s).
Proof.
  intros Hb Hl Hp He Hd. unfold onSpawn. rewrite Hb. cbn.
  rewrite Hp, He, Hl, (negb_Qle_bool_lt _ _ Hd). reflexivity.
Qed.

Lemma onSpawn_home w s last p :
  bot s = true -> isInLobby s = true ->
  lastPosition s = Some last -> entity w = Some p ->
  (distanceTo last p < 50)%Q ->
  onSpawn distanceTo cfg w s
  = set_lastPosition (Some p)
      (exitLobbyMode cfg (emit (setControlState "sneak" true) s)).
Proof.
  intros Hb Hl Hp He Hd. unfold onSpawn. rewrite Hb. cbn.
  rewrite Hp, He, Hl, (negb_Qle_bool_lt _ _ Hd), andb_false_r. cbn.
  destruct (exitLobbyMode_exits (emit (setControlState "sneak" true) s)) as [Hx _].
  cbv zeta in Hx. rewrite Hx. reflexivity.
Qed.

(** With a client handle and outside lobby mode, a spawn farther than
    200 blocks from [lastPosition] sets [isInLobby], clears the two
    handles the slot holds for the idle-prevention and the
    threat-detection interval and cancels the timers under them;
    [lastPosition] is kept. A later spawn closer than 50 blocks to
    [lastPosition] clears [isInLobby] and arms again each of the two loops
    whose policy flag is set. *)
Theorem lobby_mode w1 w2 s last p1 p2 :
  bot s = true -> isInLobby s = false ->
  lastPosition s = Some last ->
  entity w1 = Some p1 -> (200 < distanceTo last p1)%Q ->
  let s1 := onSpawn distanceTo cfg w1 s in
  (isInLobby s1 = true
   /\ antiAfkInterval s1 = None /\ proximityInterval s1 = None
   /\ (forall h, (h < nextTimer s)%nat ->
         antiAfkInterval s = Some h \/ proximityInterval s = Some h ->
         timers s1 !! h = None)
   /\ lastPosition s1 = Some last)
  /\ (entity w2 = Some p2 -> (distanceTo last p2 < 50)%Q ->
      let s2 := onSpawn distanceTo cfg w2 s1 in
      isInLobby s2 = false
      /\ (if settings.antiAfkEnabled (config_settings cfg)
          then exists h, antiAfkInterval s2 = Some h
                         /\ timers s2 !! h
                            = Some (mkTimer cbAntiAfk
                                      (orZ (settings.antiAfkInterval
                                              (config_settings cfg)) 30000)
                                      true)
          else antiAfkInterval s2 = None)
      /\ (if settings.proximityAlertEnabled (config_settings cfg)
          then exists h, proximityInterval s2 = Some h
                         /\ timers s2 !! h = Some (mkTimer cbProximity 1000 true)
          else proximityInterval s2 = None)).
Proof.
  intros Hb Hl Hp He1 Hd1. cbv zeta.
  rewrite (onSpawn_jump w1 s last p1 Hb Hl Hp He1 Hd1).
  set (s0 := emit (setControlState "sneak" true) s).
  destruct (enterLobbyMode_enters s0 Hl) as (H1 & H2 & H3 & H4 & H5 & H6).
  cbv zeta in *. set (s1 := enterLobbyMode s0) in *.
  split.
  - split; [exact H1 | split; [exact H2 | split; [exact H3 | split]]].
    + exact H6.
    + rewrite H4. exact Hp.
  - intros He2 Hd2.
    assert (Hb1 : bot s1 = true) by (rewrite H5; exact Hb).
    assert (Hp1 : lastPosition s1 = Some last) by (rewrite H4; exact Hp).
    rewrite (onSpawn_home w2 s1 last p2 Hb1 H1 Hp1 He2 Hd2).
    destruct (exitLobbyMode_exits (emit (setControlState "sneak" true) s1))
      as (Hx & Ha & Hq).
    cbv zeta in *.
    split; [exact Hx | split].
    + destruct (settings.antiAfkEnabled _); [exact Ha |].
      change (antiAfkInterval (exitLobbyMode cfg (emit (setControlState "sneak" true) s1)) = None).
      rewrite Ha. exact H2.
    + destruct (settings.proximityAlertEnabled _); [exact Hq |].
      change (proximityInterval (exitLobbyMode cfg (emit (setControlState "sneak" true) s1)) = None).
      rewrite Hq. exact H3.
Qed.

(** Entering lobby mode cancels every idle-prevention and
    threat-detection interval, provided the slot holds the handles of all
    of them; the return re-arms the loops under handles it holds. *)
Lemma lobby_mode_suspends w1 w2 s last p1 p2 :
  bot s = true -> isInLobby s = false ->
  lastPosition s = Some last ->
  entity w1 = Some p1 -> (200 < distanceTo last p1)%Q ->
  loopsHeld s ->
  let s1 := onSpawn distanceTo cfg w1 s in
  loopsSuspended s1
  /\ (entity w2 = Some p2 -> (distanceTo last p2 < 50)%Q ->
      loopsHeld (onSpawn distanceTo cfg w2 s1)).
Proof.
  intros Hb Hl Hp He1 Hd1 Hheld. cbv zeta.
  rewrite (onSpawn_jump w1 s last p1 Hb Hl Hp He1 Hd1).
  set (s0 := emit (setControlState "sneak" true) s).
  destruct (enterLobbyMode_enters s0 Hl) as (H1 & H2 & H3 & H4 & H5 & _).
  cbv zeta in *.
  assert (Hs : loopsSuspended (enterLobbyMode s0)).
  { intros h t Ht. unfold enterLobbyMode in Ht.
    change (isInLobby s0) with (isInLobby s) in Ht. rewrite Hl in Ht.
    unfold startLobbyRetry, stopLobbyRetry, clearHandle in Ht. cbv zeta in Ht.
    assert (Hs0 : forall t', timers s !! h = Some t' ->
                    (callback t' = cbAntiAfk -> antiAfkInterval s = Some h)
                    /\ (callback t' = cbProximity -> proximityInterval s = Some h))
      by (intros t'; apply Hheld).
    destruct (onLobbyDetected _) in Ht; cbn in Ht;
      (apply lookup_insert_Some in Ht as [[_ <-] | [_ Ht]];
       [split; discriminate |]);
      (apply lookup_insert_Some in Ht as [[_ <-] | [_ Ht]];
       [split; discriminate |]);
      destruct (lobbyRetryInterval s), (antiAfkInterval s) as [a |] eqn:Ea,
        (proximityInterval s) as [b |] eqn:Eb;
      repeat match type of Ht with
             | delete _ _ !! _ = Some _ =>
                 let Hn := fresh "Hn" in
                 apply lookup_delete_Some in Ht as [Hn Ht]
             end;
      destruct (Hs0 t Ht) as [Ha Hq];
      (split; intros E; [specialize (Ha E) | specialize (Hq E)]; congruence). }
  split; [exact Hs |].
  intros He2 Hd2.
  set (s1 := enterLobbyMode s0) in *.
  assert (Hb1 : bot s1 = true) by (rewrite H5; exact Hb).
  assert (Hp1 : lastPosition s1 = Some last) by (rewrite H4; exact Hp).
  rewrite (onSpawn_home w2 s1 last p2 Hb1 H1 Hp1 He2 Hd2).
  intros h t Ht.
  change (timers (exitLobbyMode cfg (emit (setControlState "sneak" true) s1)) !! h
          = Some t) in Ht.
  change (antiAfkInterval (set_lastPosition (Some p2)
            (exitLobbyMode cfg (emit (setControlState "sneak" true) s1))))
    with (antiAfkInterval (exitLobbyMode cfg (emit (setControlState "sneak" true) s1))).
  change (proximityInterval (set_lastPosition (Some p2)
            (exitLobbyMode cfg (emit (setControlState "sneak" true) s1))))
    with (proximityInterval (exitLobbyMode cfg (emit (setControlState "sneak" true) s1))).
  revert Ht. unfold exitLobbyMode, stopLobbyRetry, clearHandle,
    startAntiAfk, startProximityCheck. cbv zeta.
  assert (Hs1 : forall t', timers s1 !! h = Some t' ->
                  callback t' <> cbAntiAfk /\ callback t' <> cbProximity)
    by (intros t'; apply Hs).
  destruct (onLobbyDetected _), (settings.antiAfkEnabled _),
    (settings.proximityAlertEnabled _); cbn; intros Ht;
    repeat match type of Ht with
           | <[_ := _]> _ !! _ = Some _ =>
               apply lookup_insert_Some in Ht as [[<- <-] | [? Ht]];
               [split; intros E; first [reflexivity | discriminate E] |]
           | delete _ _ !! _ = Some _ =>
               apply lookup_delete_Some in Ht as [_ Ht]
           | match ?o with Some _ => _ | None => _ end !! _ = Some _ =>
               destruct o
           end;
    destruct (Hs1 t Ht) as [Ha Hq]; split; intros E; contradiction.
Qed.

(** ** Alerts and their cooldown *)

Lemma noAlertChange_refl s : noAlertChange s s.
Proof. split; reflexivity. Qed.

Lemma noAlertChange_trans s1 s2 s3 :
  noAlertChange s1 s2 -> noAlertChange s2 s3 -> noAlertChange s1 s3.
Proof. intros [A1 T1] [A2 T2]. split; [congruence | etrans; eassumption]. Qed.

Lemma stop_noAlertChange s : noAlertChange s (fst (stop s)).
Proof.
  unfold stop. cbn [fst]. split.
  - split_if; reflexivity.
  - etrans; [apply cleanup_timers |].
    split_if; cbn; destruct (reconnectTimeout s);
      first [apply delete_subseteq | reflexivity].
Qed.

Lemma afterLoop_noAlertChange s : noAlertChange s (fst (afterLoop s)).
Proof.
  unfold afterLoop. cbn [fst].
  eapply noAlertChange_trans; [| apply stop_noAlertChange].
  split_if; split; reflexivity.
Qed.

Lemma forBlocks_noAlertChange w blocks total s :
  noAlertChange s (fst (forBlocks distanceTo cfg w blocks total s)).
Proof.
  induction blocks as [| pos rest IH]; cbn [forBlocks].
  - apply noAlertChange_refl.
  - destruct (negb (bot s)); [split; reflexivity |].
    destruct (isEnemyNearby _ _ _ _).
    { cbn [fst]. eapply noAlertChange_trans; [| apply stop_noAlertChange].
      split; reflexivity. }
    destruct (emptySlotCount w <=? 2); [apply noAlertChange_refl |].
    destruct (blockAt w pos) as [b |]; [| exact IH].
    destruct (String.eqb _ _); [split; reflexivity | exact IH].
Qed.

Lemma whileLoop_noAlertChange w total s :
  noAlertChange s (fst (whileLoop distanceTo cfg w total s)).
Proof.
  unfold whileLoop.
  destruct (_ && _); [| apply afterLoop_noAlertChange].
  destruct (emptySlotCount w <=? 2); [apply afterLoop_noAlertChange |].
  destruct (findBlocks w _ _); [apply afterLoop_noAlertChange |].
  apply forBlocks_noAlertChange.
Qed.

Lemma executeProtection_noAlertChange w s :
  noAlertChange s (fst (executeProtection distanceTo cfg w s)).
Proof.
  unfold executeProtection.
  destruct (_ || _); [apply noAlertChange_refl |].
  destruct (_protectionRunning s); [apply noAlertChange_refl |].
  destruct (settings.protection _); [| split; reflexivity].
  destruct (find _ _); [split; reflexivity |].
  eapply noAlertChange_trans; [| apply whileLoop_noAlertChange].
  split; reflexivity.
Qed.

Lemma raiseAlert_alerts now w e d s :
  let s' := fst (raiseAlert distanceTo cfg now w e d s) in
  alertCooldowns s' = <[username e := now]> (alertCooldowns s)
  /\ exists n m, timers s' = <[n := burstTimer (username e) d]> m
                 /\ m ⊆ timers s.
Proof.
  cbv zeta. unfold raiseAlert.
  set (s1 := set_alertCooldowns _ s).
  assert (H : forall x, noAlertChange s1 x ->
            alertCooldowns x = <[username e := now]> (alertCooldowns s)
            /\ timers x ⊆ timers s).
  { intros x [A T]. split; [rewrite A; reflexivity | exact T]. }
  destruct (_ && _).
  - pose proof (executeProtection_noAlertChange w s1) as Hp.
    destruct (executeProtection distanceTo cfg w s1) as [sp c].
    cbn [fst] in Hp. destruct (H _ Hp) as [A T].
    destruct c as [x | k |]; cbn; (split; [exact A | eauto]).
  - destruct (H _ (noAlertChange_refl s1)) as [A T].
    cbn. split; [exact A | eauto].
Qed.

Lemma orZ_Some_0 (t : Z) : orZ (Some t) 0 = t.
Proof. unfold orZ. destruct (Z.eqb_spec t 0); congruence. Qed.

Lemma burstTimer_player u d u' d' : burstTimer u d = burstTimer u' d' -> u = u'.
Proof. unfold burstTimer. intros H. congruence. Qed.

(** What one scan does to the alert times and to the timers. *)
Lemma scan_alerts now w es : forall s,
  let s' := fst (scanEntities distanceTo cfg now w es s) in
  (forall u, alertCooldowns s !! u = Some now -> alertCooldowns s' !! u = Some now)
  /\ (forall h T, timers s' !! h = Some T ->
        timers s !! h = Some T
        \/ exists u d, T = burstTimer u d /\ alertCooldowns s' !! u = Some now)
  /\ (forall u t, alertCooldowns s !! u = Some t ->
        (cooldown cfg <? now - t) = false ->
        alertCooldowns s' !! u = Some t
        /\ forall h d, timers s' !! h = Some (burstTimer u d) ->
                       timers s !! h = Some (burstTimer u d)).
Proof.
  induction es as [| e rest IH]; intros s; cbv zeta; cbn [scanEntities].
  { cbn. repeat split; auto. }
  destruct (negb (bot s)).
  { cbn. repeat split; auto. }
  destruct (_ || _); [apply IH |].
  destruct (whitelisted s e); [apply IH |].
  destruct (position e) as [p |]; [| apply IH].
  destruct (entity w) as [me |]; [| apply IH].
  cbv zeta. destruct (_ && _).
  { (* the emergency rule *)
    cbn [fst].
    match goal with |- context [stop ?x] =>
      destruct (stop_noAlertChange x) as [A T]; set (sx := x) in * end.
    assert (As : alertCooldowns sx = alertCooldowns s) by (subst sx; split_if; reflexivity).
    assert (Ts : timers sx = timers s) by (subst sx; split_if; reflexivity).
    rewrite A, As. split; [auto | split].
    - intros h T0 H. left. rewrite <- Ts. eapply lookup_weaken; eauto.
    - intros u t Hu _. split; [exact Hu |].
      intros h d H. rewrite <- Ts. eapply lookup_weaken; eauto. }
  destruct (Qle_bool _ (alertDistance cfg)); [| apply IH].
  destruct (cooldown cfg <? now - orZ (alertCooldowns s !! username e) 0) eqn:Hcd;
    [| apply IH].
  (* the alert rule fires for [e] *)
  destruct (raiseAlert_alerts now w e (distanceTo me p) s) as (A & n & m & Tm & Hm).
  cbv zeta in A, Tm.
  destruct (raiseAlert distanceTo cfg now w e (distanceTo me p) s) as [s3 spawned].
  cbn [fst] in A, Tm.
  specialize (IH s3). cbv zeta in IH.
  destruct (scanEntities distanceTo cfg now w rest s3) as [s' more].
  cbn [fst] in *. destruct IH as (IH1 & IH2 & IH3).
  split; [| split].
  - intros u Hu. apply IH1. rewrite A.
    destruct (decide (username e = u)) as [E | Hne];
      [rewrite E; apply lookup_insert_eq
      | rewrite lookup_insert_ne by exact Hne; exact Hu].
  - intros h T0 H. destruct (IH2 h T0 H) as [H3 | H3]; [| right; exact H3].
    rewrite Tm in H3. destruct (decide (n = h)) as [-> | Hne].
    + rewrite lookup_insert_eq in H3. injection H3 as <-.
      right. exists (username e), (distanceTo me p). split; [reflexivity |].
      apply IH1. rewrite A. apply lookup_insert_eq.
    + rewrite lookup_insert_ne in H3 by exact Hne.
      left. exact (lookup_weaken _ _ _ _ H3 Hm).
  - intros u t Hu Ht.
    assert (Hne : username e <> u).
    { intros E. rewrite E, Hu, orZ_Some_0 in Hcd. congruence. }
    destruct (IH3 u t) as [I1 I2]; [| exact Ht |].
    { rewrite A, lookup_insert_ne by exact Hne. exact Hu. }
    split; [exact I1 |].
    intros h d Hb. specialize (I2 h d Hb). rewrite Tm in I2.
    destruct (decide (n = h)) as [-> | Hnh].
    + rewrite lookup_insert_eq in I2.
      assert (E : burstTimer (username e) (distanceTo me p) = burstTimer u d)
        by congruence.
      apply burstTimer_player in E. contradiction.
    + rewrite lookup_insert_ne in I2 by exact Hnh.
      exact (lookup_weaken _ _ _ _ I2 Hm).
Qed.

Lemma tick_alerts now w s :
  let s' := fst (proximityTick distanceTo cfg now w s) in
  (forall h T, timers s' !! h = Some T ->
     timers s !! h = Some T
     \/ exists u d, T = burstTimer u d /\ alertCooldowns s' !! u = Some now)
  /\ (forall u t, alertCooldowns s !! u = Some t ->
        (cooldown cfg <? now - t) = false ->
        alertCooldowns s' !! u = Some t
        /\ forall h d, timers s' !! h = Some (burstTimer u d) ->
                       timers s !! h = Some (burstTimer u d)).
Proof.
  cbv zeta. unfold proximityTick. destruct (_ || _).
  - cbn. split; auto.
  - destruct (scan_alerts now w (entities w) s) as (_ & H2 & H3). split; assumption.
Qed.

(** ** No reconnection after [stop()] *)

Lemma quiet_refl s : quiet s s.
Proof. split; [left; split |]; reflexivity. Qed.

Lemma quiet_trans s1 s2 s3 : quiet s1 s2 -> quiet s2 s3 -> quiet s1 s3.
Proof.
  intros [[[A1 B1] | [A1 B1]] C1] [[[A2 B2] | [A2 B2]] C2];
    (split; [| congruence]); [left | right | right | right]; split; congruence.
Qed.

(** A state change that leaves the three fields alone is quiet; the
    trace may grow by actions other than [createBot]. *)
Ltac quiet_frame :=
  split; [left; split; reflexivity
         | unfold starts; cbn;
           rewrite ?List.filter_app, ?length_app; cbn; lia].

Ltac break_match :=
  match goal with
  | |- context [match ?c with _ => _ end] => destruct c eqn:?
  end.

Ltac quiet_auto := repeat break_match; try apply quiet_refl; try quiet_frame.

Lemma cleanup_quiet s : quiet s (cleanup s).
Proof. unfold cleanup, stopLobbyRetry. quiet_auto. Qed.

Lemma stop_quiet s : quiet s (fst (stop s)).
Proof.
  unfold stop. cbn [fst].
  split_if; (split; [right; split; reflexivity |]);
    unfold starts; cbn; rewrite ?List.filter_app, ?length_app; cbn; lia.
Qed.

Lemma enterLobbyMode_quiet s : quiet s (enterLobbyMode s).
Proof. unfold enterLobbyMode, startLobbyRetry, stopLobbyRetry. quiet_auto. Qed.

Lemma exitLobbyMode_quiet s : quiet s (exitLobbyMode cfg s).
Proof.
  unfold exitLobbyMode, stopLobbyRetry, startAntiAfk, startProximityCheck.
  quiet_auto.
Qed.

Lemma afterLoop_quiet s : quiet s (fst (afterLoop s)).
Proof.
  unfold afterLoop. cbn [fst].
  eapply quiet_trans; [| apply stop_quiet]. quiet_auto.
Qed.

Lemma forBlocks_quiet w blocks total s :
  quiet s (fst (forBlocks distanceTo cfg w blocks total s)).
Proof.
  induction blocks as [| pos rest IH]; cbn [forBlocks].
  - apply quiet_refl.
  - destruct (negb (bot s)); [quiet_frame |].
    destruct (isEnemyNearby _ _ _ _).
    { cbn [fst]. eapply quiet_trans; [| apply stop_quiet]. quiet_frame. }
    destruct (emptySlotCount w <=? 2); [apply quiet_refl |].
    destruct (blockAt w pos) as [b |]; [| exact IH].
    destruct (String.eqb _ _); [quiet_frame | exact IH].
Qed.

Lemma whileLoop_quiet w total s :
  quiet s (fst (whileLoop distanceTo cfg w total s)).
Proof.
  unfold whileLoop.
  destruct (_ && _); [| apply afterLoop_quiet].
  destruct (emptySlotCount w <=? 2); [apply afterLoop_quiet |].
  destruct (findBlocks w _ _); [apply afterLoop_quiet |].
  apply forBlocks_quiet.
Qed.

Lemma executeProtection_quiet w s :
  quiet s (fst (executeProtection distanceTo cfg w s)).
Proof.
  unfold executeProtection.
  destruct (_ || _); [apply quiet_refl |].
  destruct (_protectionRunning s); [apply quiet_refl |].
  destruct (settings.protection _); [| quiet_frame].
  destruct (find _ _); [quiet_frame |].
  eapply quiet_trans; [| apply whileLoop_quiet]. quiet_frame.
Qed.

Lemma resumeProtection_quiet k r w s :
  quiet s (fst (resumeProtection distanceTo cfg k r w s)).
Proof.
  destruct k; cbn [resumeProtection].
  - destruct (bot s); [| quiet_frame].
    eapply quiet_trans; [| apply whileLoop_quiet]. quiet_frame.
  - destruct r; [| apply forBlocks_quiet].
    destruct (negb (bot s)); quiet_frame.
  - destruct r; [| apply forBlocks_quiet].
    destruct (0 <? breakDelay cfg); [apply quiet_refl | apply forBlocks_quiet].
  - apply forBlocks_quiet.
  - apply whileLoop_quiet.
Qed.

Lemma raiseAlert_quiet now w e d s :
  quiet s (fst (raiseAlert distanceTo cfg now w e d s)).
Proof.
  unfold raiseAlert.
  set (s1 := set_alertCooldowns _ s).
  assert (H1 : quiet s s1) by (subst s1; quiet_frame).
  destruct (_ && _).
  - pose proof (executeProtection_quiet w s1) as Hp.
    destruct (executeProtection distanceTo cfg w s1) as [sp c]. cbn [fst] in Hp.
    destruct c as [x | k |]; cbn [fst];
      (eapply quiet_trans; [exact H1 |]);
      (eapply quiet_trans; [exact Hp |]); quiet_frame.
  - cbn [fst]. eapply quiet_trans; [exact H1 |]. quiet_frame.
Qed.

Lemma scanEntities_quiet now w es : forall s,
  quiet s (fst (scanEntities distanceTo cfg now w es s)).
Proof.
  induction es as [| e rest IH]; intros s; cbn [scanEntities].
  { apply quiet_refl. }
  destruct (negb (bot s)); [quiet_frame |].
  destruct (_ || _); [apply IH |].
  destruct (whitelisted s e); [apply IH |].
  destruct (position e) as [p |]; [| apply IH].
  destruct (entity w) as [me |]; [| apply IH].
  cbv zeta. destruct (_ && _).
  { cbn [fst]. eapply quiet_trans; [| apply stop_quiet]. quiet_auto. }
  destruct (Qle_bool _ (alertDistance cfg)); [| apply IH].
  destruct (cooldown cfg <? _); [| apply IH].
  pose proof (raiseAlert_quiet now w e (distanceTo me p) s) as Hr.
  destruct (raiseAlert distanceTo cfg now w e (distanceTo me p) s) as [s3 spawned].
  cbn [fst] in Hr. specialize (IH s3).
  destruct (scanEntities distanceTo cfg now w rest s3) as [s' more].
  cbn [fst] in *. eapply quiet_trans; eassumption.
Qed.

Lemma proximityTick_quiet now w s :
  quiet s (fst (proximityTick distanceTo cfg now w s)).
Proof.
  unfold proximityTick. destruct (_ || _); [apply quiet_refl |].
  apply scanEntities_quiet.
Qed.

Lemma quiet_held s s' : held s -> quiet s s' -> held s' /\ starts s' = starts s.
Proof.
  intros [Hm Hr] [[[A B] | [A B]] C]; (split; [split |]); congruence.
Qed.

Lemma onLogin_quiet now s : quiet s (onLogin cfg now s).
Proof.
  unfold onLogin, startAntiAfk, startProximityCheck, startAutoEat,
    startInventoryMonitor.
  quiet_auto.
Qed.

Lemma onSpawn_quiet w s : quiet s (onSpawn distanceTo cfg w s).
Proof.
  unfold onSpawn.
  destruct (negb (bot s)); [quiet_frame |].
  set (s0 := emit _ s). assert (H0 : quiet s s0) by (subst s0; quiet_frame).
  eapply quiet_trans; [exact H0 |].
  destruct (match lastPosition s0 with Some _ => _ | None => _ end).
  { apply enterLobbyMode_quiet. }
  set (s1 := match lastPosition s0 with Some _ => _ | None => _ end).
  assert (H1 : quiet s0 s1).
  { subst s1. destruct (lastPosition s0); [| apply quiet_refl].
    destruct (entity w); [| apply quiet_refl].
    destruct (_ && _); [apply exitLobbyMode_quiet | apply quiet_refl]. }
  eapply quiet_trans; [exact H1 |].
  destruct (entity w); [| apply quiet_refl].
  destruct (negb _); [quiet_frame | apply quiet_refl].
Qed.

Lemma ended_quiet now s : quiet s (ended now s).
Proof.
  destruct (ended_frame now s) as (_ & Hm & _ & _ & Hr & _ & Ht & _).
  cbv zeta in *. split; [left; split; assumption |].
  unfold starts. now rewrite Ht.
Qed.

Lemma onEnd_quiet now s : isManuallyStopped s = true -> quiet s (onEnd cfg now s).
Proof.
  intros Hm. rewrite onEnd_ended.
  pose proof (ended_quiet now s) as Hq.
  destruct (_ && _); [| exact Hq].
  unfold handleReconnect.
  destruct (ended_frame now s) as (_ & Hm' & _). cbv zeta in Hm'.
  rewrite Hm', Hm. exact Hq.
Qed.

Lemma onKicked_quiet reason s : quiet s (onKicked reason s).
Proof. unfold onKicked. quiet_auto. Qed.

Lemma onError_quiet s : quiet s (onError s).
Proof. unfold onError. quiet_frame. Qed.

Lemma onMessagestr_quiet message s : quiet s (onMessagestr message s).
Proof. unfold onMessagestr. quiet_auto. Qed.

Lemma checkFood_quiet w s : quiet s (fst (checkFood w s)).
Proof. unfold checkFood, scheduleCheckFood. quiet_auto. Qed.

Lemma checkFoodSettled_quiet r s : quiet s (checkFoodSettled r s).
Proof. unfold checkFoodSettled, scheduleCheckFood. quiet_auto. Qed.

Lemma teleportAway_quiet w s : quiet s (teleportAway distanceTo w s).
Proof.
  unfold teleportAway. destruct (entity w); [| apply quiet_refl].
  destruct (lastPosition s); [| apply quiet_refl].
  destruct (_ && _); [apply enterLobbyMode_quiet | apply quiet_refl].
Qed.

Lemma teleportBack_quiet w s : quiet s (teleportBack distanceTo cfg w s).
Proof.
  unfold teleportBack. destruct (entity w); [| apply quiet_refl].
  destruct (lastPosition s); [| apply quiet_refl].
  destruct (_ && _); [apply exitLobbyMode_quiet | apply quiet_refl].
Qed.

Lemma alertLoop_quiet h u d c s : quiet s (alertLoop h u d c s).
Proof. unfold alertLoop. quiet_auto. Qed.

Lemma fire_quiet env h s :
  isManuallyStopped s = true ->
  isOperatorStart s (evTimer h) = false ->
  quiet s (fst (fire distanceTo cfg env h s)).
Proof.
  intros Hm Hop. unfold fire. cbn in Hop.
  destruct (timers s !! h) as [t |]; [| apply quiet_refl].
  set (s0 := if repeats t then s else clearTimer h s).
  assert (H0 : quiet s s0) by (subst s0; destruct (repeats t); [apply quiet_refl | quiet_frame]).
  assert (Hm0 : isManuallyStopped s0 = true)
    by (subst s0; destruct (repeats t); exact Hm).
  eapply quiet_trans; [exact H0 |].
  destruct (callback t); cbn [fst]; try apply quiet_refl.
  - unfold antiAfkTick. quiet_auto.
  - unfold jumpRelease. quiet_auto.
  - apply checkFood_quiet.
  - apply proximityTick_quiet.
  - apply alertLoop_quiet.
  - unfold lobbyFirstTry. quiet_auto.
  - unfold lobbyRetry, stopLobbyRetry. quiet_auto.
  - unfold reconnectFire. rewrite Hm0. apply quiet_refl.
  - discriminate Hop.
  - apply teleportAway_quiet.
  - apply teleportBack_quiet.
Qed.

Lemma settle_quiet env t r s : quiet s (fst (settle distanceTo cfg env t r s)).
Proof.
  destruct t; cbn [settle].
  - pose proof (resumeProtection_quiet k r (world env) s) as H.
    destruct (resumeProtection distanceTo cfg k r (world env) s) as [s' c].
    destruct c; exact H.
  - apply checkFoodSettled_quiet.
Qed.

(** An event other than an operator start, on a slot whose manual-stop
    flag is set, creates no client and keeps the flag. *)
Lemma step_quiet env ev s :
  isManuallyStopped s = true ->
  isOperatorStart s ev = false ->
  quiet s (fst (step distanceTo cfg env ev s)).
Proof.
  intros Hm Hop. destruct ev; cbn [step fst].
  - apply onLogin_quiet.
  - apply onSpawn_quiet.
  - now apply onEnd_quiet.
  - apply onKicked_quiet.
  - apply onError_quiet.
  - apply onMessagestr_quiet.
  - discriminate Hop.
  - apply stop_quiet.
  - unfold pause. quiet_auto.
  - unfold resume. quiet_auto.
  - unfold restart. cbn [fst].
    eapply quiet_trans; [apply stop_quiet | quiet_frame].
  - unfold toggleProtection. quiet_auto.
  - now apply fire_quiet.
  - apply settle_quiet.
Qed.

Lemma run_quiet evs : forall s,
  held s -> noOperatorStart distanceTo cfg evs s ->
  held (run distanceTo cfg evs s)
  /\ starts (run distanceTo cfg evs s) = starts s.
Proof.
  induction evs as [| [env ev] rest IH]; intros s Hh Hno; cbn [run].
  - split; [exact Hh | reflexivity].
  - cbn [noOperatorStart] in Hno. destruct Hno as [Hop Hrest].
    destruct (quiet_held _ _ Hh (step_quiet env ev s (proj1 Hh) Hop)) as [Hh' Hs'].
    destruct (IH _ Hh' Hrest) as [Hh2 Hs2].
    split; [exact Hh2 | congruence].
Qed.

Lemma stop_cancels s h :
  reconnectTimeout s = Some h -> timers (fst (stop s)) !! h = None.
Proof.
  intros Hr. unfold stop. cbn [fst].
  eapply lookup_weaken_None; [| apply cleanup_timers].
  split_if; cbn; rewrite Hr; apply lookup_delete_eq.
Qed.

(** [stop()] sets the manual-stop flag and cancels the pending
    reconnection timeout. From then on, as long as no [start] command
    arrives and no delayed [start()] of a [restart] command fires (be it
    of a restart issued before the stop), the flag stays set, no
    reconnection handle is held, and no client is created; an [end] event
    then schedules nothing. *)
Theorem no_reconnect_after_stop s evs :
  let s0 := fst (stop s) in
  noOperatorStart distanceTo cfg evs s0 ->
  (isManuallyStopped s0 = true /\ reconnectTimeout s0 = None
   /\ forall h, reconnectTimeout s = Some h -> timers s0 !! h = None)
  /\ (let s' := run distanceTo cfg evs s0 in
      isManuallyStopped s' = true /\ reconnectTimeout s' = None
      /\ starts s' = starts s0
      /\ forall now,
           let s'' := onEnd cfg now s' in
           nothingScheduled s' s'' /\ isManuallyStopped s'' = true
           /\ starts s'' = starts s0).
Proof.
  cbv zeta. intros Hno.
  destruct (stop_stopped s) as (Hm & Hr & _).
  split; [split; [exact Hm | split; [exact Hr | apply stop_cancels]] |].
  destruct (run_quiet evs _ (conj Hm Hr) Hno) as [[Hm' Hr'] Hs'].
  split; [exact Hm' | split; [exact Hr' | split; [exact Hs' |]]].
  intros now0.
  destruct (quiet_held _ _ (conj Hm' Hr') (onEnd_quiet now0 _ Hm')) as [[Hm2 _] Hs2].
  split; [| split; [exact Hm2 | congruence]].
  rewrite onEnd_ended.
  destruct (ended_frame now0 (run distanceTo cfg evs (fst (stop s))))
    as (_ & Hme & _ & _ & _ & _ & _ & _ & _ & _ & _ & Hsub).
  cbv zeta in *.
  destruct (_ && _); [| now apply nothingScheduled_sub].
  unfold handleReconnect. rewrite Hme, Hm'. now apply nothingScheduled_sub.
Qed.

(** ** The protection sequence *)

Lemma stop_trace s :
  trace (fst (stop s)) = trace s ++ (if bot s then [quit] else []).
Proof.
  unfold stop. cbn [fst]. split_if; cbn; [reflexivity | now rewrite app_nil_r].
Qed.

Lemma stop_guard s : _protectionRunning (fst (stop s)) = _protectionRunning s.
Proof. unfold stop. cbn [fst]. split_if; reflexivity. Qed.

Lemma afterLoop_exit s :
  let s' := fst (afterLoop s) in
  snd (afterLoop s) = Returned exitLoopDone
  /\ stopped s' /\ _protectionRunning s' = false
  /\ trace s' = trace s ++ (if bot s then [sneakOff; quit] else []).
Proof.
  cbv zeta. unfold afterLoop. cbn [fst snd].
  split; [reflexivity |]. split; [apply stop_stopped |].
  rewrite stop_guard, stop_trace.
  destruct (bot s) eqn:Hb; cbn; rewrite ?Hb; cbn.
  - split; [reflexivity |]. now rewrite <- app_assoc.
  - split; reflexivity.
Qed.

(** The block loop returns in two ways only. *)
Lemma forBlocks_returns w blocks total s s' e :
  forBlocks distanceTo cfg w blocks total s = (s', Returned e) ->
  (e = exitBotGone /\ bot s = false /\ s' = set__protectionRunning false s)
  \/ (e = exitEmergency /\ bot s = true
      /\ s' = fst (stop (set__protectionRunning false s))).
Proof.
  induction blocks as [| pos rest IH]; cbn [forBlocks]; [discriminate |].
  destruct (bot s) eqn:Hb; cbn [negb].
  2: { intros [= <- <-]. left. auto. }
  destruct (isEnemyNearby _ _ _ _).
  { intros [= <- <-]. right. auto. }
  destruct (emptySlotCount w <=? 2); [discriminate |].
  destruct (blockAt w pos) as [b |]; [| exact IH].
  destruct (String.eqb _ _); [discriminate | exact IH].
Qed.

Lemma whileLoop_returns w total s s' e :
  whileLoop distanceTo cfg w total s = (s', Returned e) ->
  (e = exitLoopDone /\ s' = fst (afterLoop s))
  \/ (e = exitEmergency /\ bot s = true
      /\ s' = fst (stop (set__protectionRunning false s))).
Proof.
  unfold whileLoop.
  assert (A : afterLoop s = (s', Returned e) ->
              e = exitLoopDone /\ s' = fst (afterLoop s)).
  { intros H. rewrite H. cbn [fst]. split; [| reflexivity].
    pose proof (afterLoop_exit s) as (E & _). rewrite H in E. cbn in E. congruence. }
  destruct (bot s) eqn:Hb; cbn [andb]; [| intros H; left; auto].
  destruct (Status_eqb _ _); [| intros H; left; auto].
  destruct (emptySlotCount w <=? 2); [intros H; left; auto |].
  destruct (findBlocks w _ _) as [| b bs]; [intros H; left; auto |].
  intros H. apply forBlocks_returns in H.
  destruct H as [(_ & Hf & _) | (He & _ & Hs)]; [congruence | right; auto].
Qed.

Lemma emergency_exit s :
  bot s = true ->
  let s' := fst (stop (set__protectionRunning false s)) in
  stopped s' /\ _protectionRunning s' = false /\ trace s' = trace s ++ [quit].
Proof.
  intros Hb. cbv zeta. split; [apply stop_stopped |].
  rewrite stop_guard, stop_trace. cbn. rewrite Hb. split; reflexivity.
Qed.

Lemma afterLoop_after_sneakOn s :
  bot s = true ->
  let s' := fst (afterLoop (emit sneakOn s)) in
  stopped s' /\ _protectionRunning s' = false
  /\ trace s' = trace s ++ [sneakOn; sneakOff; quit].
Proof.
  intros Hb. cbv zeta.
  destruct (afterLoop_exit (emit sneakOn s)) as (_ & H1 & H2 & H3).
  cbv zeta in H1, H2, H3.
  change (trace (fst (afterLoop (emit sneakOn s)))
          = (trace s ++ [sneakOn]) ++ (if bot s then [sneakOff; quit] else []))
    in H3.
  rewrite Hb, <- app_assoc in H3. auto.
Qed.

Lemma emergency_after_sneakOn s :
  bot s = true ->
  let s' := fst (stop (set__protectionRunning false (emit sneakOn s))) in
  stopped s' /\ _protectionRunning s' = false
  /\ trace s' = trace s ++ [sneakOn; quit].
Proof.
  intros Hb. cbv zeta.
  destruct (emergency_exit (emit sneakOn s) Hb) as (H1 & H2 & H3).
  cbv zeta in H1, H2, H3.
  change (trace (fst (stop (set__protectionRunning false (emit sneakOn s))))
          = (trace s ++ [sneakOn]) ++ [quit]) in H3.
  rewrite <- app_assoc in H3. auto.
Qed.

(** The loop entered right after the sneak control was set. *)
Lemma loop_entry_exit w x s' e :
  bot x = true ->
  whileLoop distanceTo cfg w 0 (emit sneakOn x) = (s', Returned e) ->
  match e with
  | exitEmergency =>
      stopped s' /\ _protectionRunning s' = false
      /\ trace s' = trace x ++ [sneakOn; quit]
  | exitLoopDone =>
      stopped s' /\ _protectionRunning s' = false
      /\ trace s' = trace x ++ [sneakOn; sneakOff; quit]
  | _ => False
  end.
Proof.
  intros Hb H. apply whileLoop_returns in H.
  destruct H as [(-> & ->) | (-> & _ & ->)].
  - exact (afterLoop_after_sneakOn x Hb).
  - exact (emergency_after_sneakOn x Hb).
Qed.

(** The block loop, continued. *)
Lemma block_loop_exit w blocks total s s' e :
  forBlocks distanceTo cfg w blocks total s = (s', Returned e) ->
  match e with
  | exitBotGone => bot s = false /\ s' = set__protectionRunning false s
  | exitEmergency =>
      bot s = true /\ stopped s' /\ _protectionRunning s' = false
      /\ trace s' = trace s ++ [quit]
  | _ => False
  end.
Proof.
  intros H. apply forBlocks_returns in H.
  destruct H as [(-> & Hb & ->) | (-> & Hb & ->)]; [auto |].
  split; [exact Hb | exact (emergency_exit s Hb)].
Qed.

(** The exits of the protection sequence. A stretch of the sequence that
    returns does so in one of three ways. Through the code after the
    loop (reserve threshold reached, no target block left, slot no longer
    online): the sneak control is released if the client handle is still
    held, and [stop()] is called. On a renewed threat at emergency
    distance: [stop()] is called and the sneak control is not released.
    On finding the client handle gone inside the block loop: the guard is
    cleared and nothing else is done. *)
Theorem protection_exit k r w s s' e :
  protectionStep distanceTo cfg k r w s = (s', Returned e) ->
  match e with
  | exitNotOnline | exitGuard => k = None /\ s' = s
  | exitBotGone => bot s = false /\ s' = set__protectionRunning false s
  | exitEmergency =>
      bot s = true /\ stopped s' /\ _protectionRunning s' = false
      /\ (trace s' = trace s ++ [quit]
          \/ trace s' = trace s ++ [sneakOn; quit])
  | exitLoopDone =>
      stopped s' /\ _protectionRunning s' = false
      /\ (if bot s
          then trace s' = trace s ++ [sneakOff; quit]
               \/ trace s' = trace s ++ [sneakOn; sneakOff; quit]
          else trace s' = trace s)
  end.
Proof.
  assert (FB : forall blocks total,
             forBlocks distanceTo cfg w blocks total s = (s', Returned e) ->
             match e with
             | exitNotOnline | exitGuard => k = None /\ s' = s
             | exitBotGone => bot s = false /\ s' = set__protectionRunning false s
             | exitEmergency =>
                 bot s = true /\ stopped s' /\ _protectionRunning s' = false
                 /\ (trace s' = trace s ++ [quit]
                     \/ trace s' = trace s ++ [sneakOn; quit])
             | exitLoopDone =>
                 stopped s' /\ _protectionRunning s' = false
                 /\ (if bot s
                     then trace s' = trace s ++ [sneakOff; quit]
                          \/ trace s' = trace s ++ [sneakOn; sneakOff; quit]
                     else trace s' = trace s)
             end).
  { intros blocks total H. apply block_loop_exit in H.
    destruct e; try contradiction; [exact H |].
    destruct H as (? & ? & ? & ?). auto. }
  assert (WL : forall x, bot x = true -> bot x = bot s -> trace x = trace s ->
             whileLoop distanceTo cfg w 0 (emit sneakOn x) = (s', Returned e) ->
             match e with
             | exitNotOnline | exitGuard => k = None /\ s' = s
             | exitBotGone => bot s = false /\ s' = set__protectionRunning false s
             | exitEmergency =>
                 bot s = true /\ stopped s' /\ _protectionRunning s' = false
                 /\ (trace s' = trace s ++ [quit]
                     \/ trace s' = trace s ++ [sneakOn; quit])
             | exitLoopDone =>
                 stopped s' /\ _protectionRunning s' = false
                 /\ (if bot s
                     then trace s' = trace s ++ [sneakOff; quit]
                          \/ trace s' = trace s ++ [sneakOn; sneakOff; quit]
                     else trace s' = trace s)
             end).
  { intros x Hx Hbx Htx H. apply (loop_entry_exit w x s' e Hx) in H.
    rewrite <- Hbx, Hx, <- Htx.
    destruct e; try contradiction; destruct H as (? & ? & ?); auto. }
  destruct k as [k |]; cbn [protectionStep].
  - destruct k; cbn [resumeProtection].
    + intros H.
      assert (Hb : bot s = true) by (destruct (bot s); [reflexivity | discriminate H]).
      rewrite Hb in H. exact (WL s Hb eq_refl eq_refl H).
    + destruct r; [| apply FB]. intros H.
      assert (Hb : bot s = false) by (destruct (bot s); [discriminate H | reflexivity]).
      rewrite Hb in H. cbn [negb] in H. injection H as <- <-. auto.
    + destruct r; [| apply FB].
      destruct (0 <? breakDelay cfg); [discriminate | apply FB].
    + apply FB.
    + intros H. apply whileLoop_returns in H.
      destruct H as [(-> & ->) | (-> & Hb & ->)].
      * destruct (afterLoop_exit s) as (_ & H1 & H2 & H3).
        cbv zeta in H1, H2, H3.
        split; [exact H1 | split; [exact H2 |]].
        destruct (bot s); [left; exact H3 | now rewrite app_nil_r in H3].
      * destruct (emergency_exit s Hb) as (H1 & H2 & H3).
        cbv zeta in H1, H2, H3. auto.
  - unfold executeProtection. intros H.
    destruct (negb (bot s) || negb (Status_eqb (status s) online)) eqn:E.
    { injection H as <- <-. auto. }
    apply orb_false_elim in E. destruct E as [E _].
    apply negb_false_iff in E.
    destruct (_protectionRunning s); [injection H as <- <-; auto |].
    destruct (settings.protection _); [| discriminate H].
    destruct (find _ _); [discriminate H |].
    exact (WL (set__protectionRunning true s) E eq_refl eq_refl H).
Qed.

(** While the guard is set a call of [executeProtection] returns at once
    and changes nothing. *)
Lemma guard_blocks_reentry w s :
  _protectionRunning s = true ->
  fst (executeProtection distanceTo cfg w s) = s
  /\ (snd (executeProtection distanceTo cfg w s) = Returned exitNotOnline
      \/ snd (executeProtection distanceTo cfg w s) = Returned exitGuard).
Proof.
  intros Hg. unfold executeProtection.
  destruct (_ || _); [cbn; auto |]. rewrite Hg. cbn. auto.
Qed.

(** Every [return] of the sequence other than the two guards at its head
    leaves the guard cleared. *)
Lemma returns_clear_guard k r w s s' e :
  protectionStep distanceTo cfg k r w s = (s', Returned e) ->
  e <> exitNotOnline -> e <> exitGuard ->
  _protectionRunning s' = false.
Proof.
  intros H N1 N2.
  assert (FB : forall blocks total x,
             forBlocks distanceTo cfg w blocks total x = (s', Returned e) ->
             _protectionRunning s' = false).
  { intros blocks total x Hx. apply block_loop_exit in Hx.
    destruct e; try contradiction.
    - destruct Hx as [_ ->]. reflexivity.
    - tauto. }
  assert (WL : forall total x,
             whileLoop distanceTo cfg w total x = (s', Returned e) ->
             _protectionRunning s' = false).
  { intros total x Hx. apply whileLoop_returns in Hx.
    destruct Hx as [(_ & ->) | (_ & Hb & ->)].
    - apply afterLoop_exit.
    - now apply emergency_exit. }
  destruct k as [k |]; cbn [protectionStep] in H.
  - destruct k; cbn [resumeProtection] in H.
    + destruct (bot s); [now apply WL in H | discriminate H].
    + destruct r; [| now apply FB in H].
      destruct (negb (bot s)); [| discriminate H].
      injection H as <- <-. reflexivity.
    + destruct r; [| now apply FB in H].
      destruct (0 <? breakDelay cfg); [discriminate H | now apply FB in H].
    + now apply FB in H.
    + now apply WL in H.
  - unfold executeProtection in H.
    destruct (_ || _); [injection H as <- <-; congruence |].
    destruct (_protectionRunning s); [injection H as <- <-; congruence |].
    destruct (settings.protection _); [| discriminate H].
    destruct (find _ _); [discriminate H | now apply WL in H].
Qed.

(** The sequence ends with a [TypeError] in two places only; the one
    reached from the scan is the statement after [await this.bot.equip],
    run when the client handle is gone. It leaves the guard as it was. *)
Lemma thrown_keeps_guard k r w s s' :
  protectionStep distanceTo cfg k r w s = (s', Threw) ->
  s' = throwTypeError s
  \/ (k = None /\ settings.protection (config_settings cfg) = None
      /\ s' = throwTypeError (set__protectionRunning true s)).
Proof.
  assert (FB : forall blocks total x,
             forBlocks distanceTo cfg w blocks total x <> (s', Threw)).
  { induction blocks as [| pos rest IH]; intros total x; cbn [forBlocks];
      [discriminate |].
    destruct (negb (bot x)); [discriminate |].
    destruct (isEnemyNearby _ _ _ _); [discriminate |].
    destruct (emptySlotCount w <=? 2); [discriminate |].
    destruct (blockAt w pos); [| apply IH].
    destruct (String.eqb _ _); [discriminate | apply IH]. }
  assert (WL : forall total x, whileLoop distanceTo cfg w total x <> (s', Threw)).
  { intros total x. unfold whileLoop, afterLoop.
    destruct (_ && _); [| discriminate].
    destruct (emptySlotCount w <=? 2); [discriminate |].
    destruct (findBlocks w _ _); [discriminate | apply FB]. }
  destruct k as [k |]; cbn [protectionStep].
  - destruct k; cbn [resumeProtection].
    + destruct (bot s); [intros H; now apply WL in H | intros [= <-]; auto].
    + destruct r; [| intros H; now apply FB in H].
      destruct (negb (bot s)); discriminate.
    + destruct r; [| intros H; now apply FB in H].
      destruct (0 <? breakDelay cfg); [discriminate | intros H; now apply FB in H].
    + intros H; now apply FB in H.
    + intros H; now apply WL in H.
  - unfold executeProtection.
    destruct (_ || _); [discriminate |].
    destruct (_protectionRunning s); [discriminate |].
    destruct (settings.protection _) eqn:E; [| intros [= <-]; auto].
    destruct (find _ _); [discriminate | intros H; now apply WL in H].
Qed.

(** ** The emergency rule *)

Lemma advances_refl s : advances s s.
Proof.
  split; [exists []; split; [now rewrite app_nil_r | left; reflexivity] |].
  split; [auto | split; [lia | split; reflexivity]].
Qed.

Lemma advances_trans s1 s2 s3 : advances s1 s2 -> advances s2 s3 -> advances s1 s3.
Proof.
  intros ((t1 & T1 & B1) & S1 & U1 & P1 & W1) ((t2 & T2 & B2) & S2 & U2 & P2 & W2).
  split; [| split; [auto | split; [lia | split; congruence]]].
  exists (t1 ++ t2). split; [rewrite T2, T1; now rewrite app_assoc |].
  destruct B1 as [B1 | [B1 Q1]].
  - destruct B2 as [B2 | [B2 Q2]]; [left; congruence | right].
    split; [exact B2 |]. intros Hb. apply in_or_app. right. apply Q2. congruence.
  - right. split; [auto |]. intros Hb. apply in_or_app. left. auto.
Qed.

(** A state change that touches neither the handle nor what [stopped]
    reads, and emits the actions [tr]. *)
Ltac adv_frame tr :=
  split;
  [ exists tr; split; [cbn; rewrite ?app_nil_r; reflexivity | left; reflexivity]
  | split; [unfold stopped; cbn; tauto
           | split; [cbn; lia | split; reflexivity]] ].

Lemma stop_advances s : advances s (fst (stop s)).
Proof.
  pose proof (stop_stopped s) as Hs. pose proof (stop_trace s) as Ht.
  pose proof (stop_uncaught s) as Hu.
  split; [| split; [auto | split; [lia | split]]].
  - eexists. split; [exact Ht |]. right. split; [exact Hs |].
    intros ->. now left.
  - unfold stop. cbn [fst]. split_if; reflexivity.
  - unfold stop. cbn [fst]. split_if; reflexivity.
Qed.

Lemma afterLoop_advances s : advances s (fst (afterLoop s)).
Proof.
  unfold afterLoop. cbn [fst].
  eapply advances_trans; [| apply stop_advances].
  destruct (bot s) eqn:Hb.
  - adv_frame [@sneakOff Vec3].
  - adv_frame (@nil (@Action Vec3)).
Qed.

Lemma forBlocks_advances w blocks total s :
  advances s (fst (forBlocks distanceTo cfg w blocks total s)).
Proof.
  induction blocks as [| pos rest IH]; cbn [forBlocks].
  - apply advances_refl.
  - destruct (negb (bot s)); [adv_frame (@nil (@Action Vec3)) |].
    destruct (isEnemyNearby _ _ _ _).
    { cbn [fst]. eapply advances_trans; [| apply stop_advances].
      adv_frame (@nil (@Action Vec3)). }
    destruct (emptySlotCount w <=? 2); [apply advances_refl |].
    destruct (blockAt w pos) as [b |]; [| exact IH].
    destruct (String.eqb _ _); [adv_frame [lookAt pos] | exact IH].
Qed.

Lemma whileLoop_advances w total s :
  advances s (fst (whileLoop distanceTo cfg w total s)).
Proof.
  unfold whileLoop.
  destruct (_ && _); [| apply afterLoop_advances].
  destruct (emptySlotCount w <=? 2); [apply afterLoop_advances |].
  destruct (findBlocks w _ _); [apply afterLoop_advances |].
  apply forBlocks_advances.
Qed.

Lemma executeProtection_advances w s :
  advances s (fst (executeProtection distanceTo cfg w s)).
Proof.
  unfold executeProtection.
  destruct (_ || _); [apply advances_refl |].
  destruct (_protectionRunning s); [apply advances_refl |].
  destruct (settings.protection _); [| adv_frame (@nil (@Action Vec3))].
  destruct (find _ _) as [pk |]; [adv_frame [@equip Vec3 pk] |].
  eapply advances_trans; [| apply whileLoop_advances].
  adv_frame [@sneakOn Vec3].
Qed.

Lemma raiseAlert_advances now w e d s :
  advances s (fst (raiseAlert distanceTo cfg now w e d s)).
Proof.
  unfold raiseAlert.
  set (s1 := set_alertCooldowns _ s).
  assert (H1 : advances s s1) by (subst s1; adv_frame (@nil (@Action Vec3))).
  assert (F : forall x : @State Vec3, advances x
                (setInterval (cbAlertLoop (username e) d 0) 1000
                   (bump_stats (fun st => set_alertsTriggered (alertsTriggered st + 1) st) x))).
  { intros x. adv_frame (@nil (@Action Vec3)). }
  destruct (_ && _).
  - pose proof (executeProtection_advances w s1) as Hp.
    destruct (executeProtection distanceTo cfg w s1) as [sp c]. cbn [fst] in Hp.
    destruct c as [x | k |]; cbn [fst];
      (eapply advances_trans; [exact H1 |]);
      (eapply advances_trans; [exact Hp |]); apply F.
  - cbn [fst]. eapply advances_trans; [exact H1 | apply F].
Qed.

Lemma isThreat_frame w s s' e :
  _cachedWhitelist s' = _cachedWhitelist s ->
  isThreat distanceTo cfg w s' e = isThreat distanceTo cfg w s e.
Proof. intros H. unfold isThreat, whitelisted. now rewrite H. Qed.

(** A scan whose remaining entities include a threat, entered with the
    client handle in place. *)
Lemma scan_with_threat now w es : forall s e,
  In e es -> isThreat distanceTo cfg w s e = true -> bot s = true ->
  let s' := fst (scanEntities distanceTo cfg now w es s) in
  stopped s' /\ (uncaught s <= uncaught s')%nat
  /\ exists tr, trace s' = trace s ++ tr /\ In quit tr
       /\ (uncaught s' = uncaught s -> onProximityAlert s = true ->
           exists e' d, In e' es /\ isThreat distanceTo cfg w s e' = true
                        /\ In (proximityAlert (username e') d) tr).
Proof.
  induction es as [| x rest IH]; intros s e Hin Hth Hb; [destruct Hin |].
  cbv zeta.
  (* the remaining entities, when [x] itself is no threat *)
  assert (Hrest : isThreat distanceTo cfg w s x = false ->
            let s' := fst (scanEntities distanceTo cfg now w rest s) in
            stopped s' /\ (uncaught s <= uncaught s')%nat
            /\ exists tr, trace s' = trace s ++ tr /\ In quit tr
                 /\ (uncaught s' = uncaught s -> onProximityAlert s = true ->
                     exists e' d, In e' (x :: rest)
                                  /\ isThreat distanceTo cfg w s e' = true
                                  /\ In (proximityAlert (username e') d) tr)).
  { intros Hx. destruct Hin as [-> | Hin]; [congruence |].
    destruct (IH s e Hin Hth Hb) as (H1 & H2 & tr & H3 & H4 & H5).
    split; [exact H1 | split; [exact H2 |]].
    exists tr. split; [exact H3 | split; [exact H4 |]].
    intros Hu Hc. destruct (H5 Hu Hc) as (e' & d & Hi & Ht & Ha).
    exists e', d. split; [now right | auto]. }
  assert (Ex : isThreat distanceTo cfg w s x
               = (String.eqb (type x) "player" && negb (isSelf cfg x)
                  && negb (whitelisted s x)
                  && match position x, entity w with
                     | Some p, Some me =>
                         Qle_bool (distanceTo me p) (emergencyDistance cfg)
                     | _, _ => false
                     end)) by reflexivity.
  cbn [scanEntities]. rewrite Hb. cbn [negb].
  destruct (String.eqb (type x) "player"); cbn [negb orb andb] in *;
    [| now apply Hrest].
  destruct (isSelf cfg x); cbn [negb andb] in *; [now apply Hrest |].
  destruct (whitelisted s x) eqn:Hw; cbn [negb andb] in *; [now apply Hrest |].
  destruct (position x) as [p |]; [| now apply Hrest].
  destruct (entity w) as [me |] eqn:Hme; [| now apply Hrest].
  cbv zeta.
  destruct (Qle_bool (distanceTo me p) (emergencyDistance cfg)) eqn:Hd;
    cbn [andb] in *.
  { (* [x] is the threat the rule fires on *)
    clear Hrest IH.
    set (s1 := set__protectionRunning false _).
    assert (A1 : trace s1 = trace s ++ (if onProximityAlert s
                   then [proximityAlert (username x) (distanceTo me p)] else [])).
    { subst s1. destruct (onProximityAlert s); cbn;
        [reflexivity | now rewrite app_nil_r]. }
    assert (B1 : bot s1 = true)
      by (subst s1; destruct (onProximityAlert s); exact Hb).
    assert (U1 : uncaught s1 = uncaught s)
      by (subst s1; destruct (onProximityAlert s); reflexivity).
    cbn [fst]. split; [apply stop_stopped |].
    rewrite stop_uncaught, stop_trace, A1, B1, U1. split; [lia |].
    eexists. split; [now rewrite <- app_assoc |].
    split; [apply in_or_app; right; now left |].
    intros _ Hc. exists x, (distanceTo me p).
    split; [now left |]. split; [exact Ex |].
    rewrite Hc. apply in_or_app. left. now left. }
  (* [x] is no threat *)
  specialize (Hrest Ex).
  destruct (Qle_bool _ (alertDistance cfg)); [| exact Hrest].
  destruct (cooldown cfg <? _); [| exact Hrest].
  clear Hrest.
  destruct Hin as [-> | Hin]; [congruence |].
  (* the alert rule fires on [x] and may run the protection sequence *)
  pose proof (raiseAlert_advances now w x (distanceTo me p) s) as Ha.
  destruct (raiseAlert distanceTo cfg now w x (distanceTo me p) s) as [s3 spawned].
  cbn [fst] in Ha.
  destruct Ha as ((t3 & T3 & B3) & S3 & U3 & P3 & W3).
  destruct B3 as [B3 | [B3 Q3]].
  - (* the handle is still there: the scan goes on *)
    rewrite Hb in B3.
    rewrite <- (isThreat_frame w s s3 e W3) in Hth.
    destruct (IH s3 e Hin Hth B3) as (H1 & H2 & tr & H3 & H4 & H5).
    destruct (scanEntities distanceTo cfg now w rest s3) as [s' more].
    cbn [fst] in *.
    split; [exact H1 | split; [lia |]].
    exists (t3 ++ tr). split; [rewrite H3, T3; now rewrite app_assoc |].
    split; [apply in_or_app; now right |].
    intros Hu Hc.
    destruct H5 as (e' & d & Hi & Ht & Hal); [lia | congruence |].
    exists e', d. split; [now right |].
    split; [now rewrite <- (isThreat_frame w s s3 e' W3) |].
    apply in_or_app. now right.
  - (* the sequence has stopped the slot: the next iteration throws *)
    destruct rest as [| y rest']; [destruct Hin |].
    cbn [scanEntities].
    assert (Hb3 : bot s3 = false) by (destruct B3 as (_ & _ & Hb3 & _); exact Hb3).
    rewrite Hb3. cbn [negb fst].
    split; [unfold stopped in *; cbn; tauto |].
    split; [cbn; lia |].
    exists t3. split; [exact T3 |]. split; [auto |].
    cbn. intros Hu. lia.
Qed.

(** On every scan taken online, not paused and outside lobby mode, with
    a threat among the entities, the slot ends up stopped and the client
    was asked to quit. Unless the scan was cut short by a [TypeError],
    the registered observer was told of a threat. *)
Lemma emergency_always_stops now w s e :
  bot s = true -> status s = online -> isPaused s = false -> isInLobby s = false ->
  In e (entities w) -> isThreat distanceTo cfg w s e = true ->
  let s' := fst (proximityTick distanceTo cfg now w s) in
  stopped s'
  /\ exists tr, trace s' = trace s ++ tr /\ In quit tr
       /\ (uncaught s' = uncaught s -> onProximityAlert s = true ->
           exists e' d, In e' (entities w)
                        /\ isThreat distanceTo cfg w s e' = true
                        /\ In (proximityAlert (username e') d) tr).
Proof.
  intros Hb Hs Hp Hl Hin Hth. cbv zeta. unfold proximityTick.
  rewrite Hb, Hs, Hp, Hl. cbn [negb orb Status_eqb].
  destruct (scan_with_threat now w (entities w) s e Hin Hth Hb) as (H1 & _ & H2).
  split; assumption.
Qed.

(** ** Frames of the callbacks and handlers *)

Lemma noRestartScheduled_refl s : noRestartScheduled s s.
Proof. intros h t H _. exact H. Qed.

Lemma noRestartScheduled_trans s1 s2 s3 :
  noRestartScheduled s1 s2 -> noRestartScheduled s2 s3 -> noRestartScheduled s1 s3.
Proof. intros H1 H2 h t H Hc. apply H1; [apply H2 |]; assumption. Qed.

Lemma alertsKept_refl s : alertsKept s s.
Proof. split; [reflexivity | intros h t H _; exact H]. Qed.

Lemma alertsKept_trans s1 s2 s3 :
  alertsKept s1 s2 -> alertsKept s2 s3 -> alertsKept s1 s3.
Proof.
  intros [A1 B1] [A2 B2]. split; [congruence |].
  intros h t H Hc. apply B1; [apply B2 |]; assumption.
Qed.

Lemma calm_refl s : calm s s.
Proof. split; [split; [reflexivity | exact id] | apply noRestartScheduled_refl]. Qed.

Lemma calm_trans s1 s2 s3 : calm s1 s2 -> calm s2 s3 -> calm s1 s3.
Proof.
  intros [[A1 B1] C1] [[A2 B2] C2].
  split; [split; [congruence | auto] |].
  eapply noRestartScheduled_trans; eassumption.
Qed.

Lemma still_refl s : still s s.
Proof. split; [apply calm_refl | apply alertsKept_refl]. Qed.

Lemma still_trans s1 s2 s3 : still s1 s2 -> still s2 s3 -> still s1 s3.
Proof.
  intros [A1 B1] [A2 B2].
  split; [eapply calm_trans | eapply alertsKept_trans]; eassumption.
Qed.

Lemma still_calm s s' : still s s' -> calm s s'.
Proof. intros H. apply H. Qed.

Lemma still_noRestartScheduled s s' : still s s' -> noRestartScheduled s s'.
Proof. intros H. apply H. Qed.

Lemma still_alertsKept s s' : still s s' -> alertsKept s s'.
Proof. intros H. apply H. Qed.

(** A timer found after some insertions and deletions, whose callback is
    none of those inserted, was there before. *)
Ltac was_pending :=
  let h := fresh "h" in
  let t := fresh "t" in
  let Ht := fresh "Ht" in
  let Hc := fresh "Hc" in
  intros h t Ht Hc; cbn in Ht;
  repeat match type of Ht with
         | <[_ := _]> _ !! _ = Some _ =>
             apply lookup_insert_Some in Ht as [[_ <-] | [_ Ht]];
             [cbn in Hc; discriminate Hc |]
         | delete _ _ !! _ = Some _ =>
             apply lookup_delete_Some in Ht as [_ Ht]
         end;
  exact Ht.

Ltac kept_frame := split; [reflexivity | was_pending].

Ltac calm_frame :=
  split; [split; [reflexivity | cbn; first [exact id | discriminate]]
         | was_pending].

Ltac still_frame := split; [calm_frame | kept_frame].

Ltac calm_auto := repeat break_match; try apply calm_refl; try calm_frame.

Ltac still_auto := repeat break_match; try apply still_refl; try still_frame.

Lemma cleanup_still s : still s (cleanup s).
Proof. unfold cleanup, stopLobbyRetry, clearHandle. still_auto. Qed.

Lemma stop_still s : still s (fst (stop s)).
Proof.
  unfold stop. cbn [fst].
  eapply still_trans; [| apply cleanup_still].
  unfold clearHandle. still_auto.
Qed.

Lemma enterLobbyMode_still s : still s (enterLobbyMode s).
Proof.
  unfold enterLobbyMode, startLobbyRetry, stopLobbyRetry, clearHandle.
  still_auto.
Qed.

Lemma startAntiAfk_still s : still s (startAntiAfk cfg s).
Proof. unfold startAntiAfk. still_frame. Qed.

Lemma startProximityCheck_still s : still s (startProximityCheck s).
Proof. unfold startProximityCheck. still_frame. Qed.

Lemma startAutoEat_still s : still s (startAutoEat s).
Proof. unfold startAutoEat. still_frame. Qed.

Lemma startInventoryMonitor_still s : still s (startInventoryMonitor s).
Proof. unfold startInventoryMonitor, clearHandle. still_auto. Qed.

Lemma armLoops_still s :
  still s (let s := if settings.antiAfkEnabled (config_settings cfg)
                    then startAntiAfk cfg s else s in
           if settings.proximityAlertEnabled (config_settings cfg)
           then startProximityCheck s else s).
Proof.
  cbv zeta.
  destruct (settings.antiAfkEnabled _), (settings.proximityAlertEnabled _);
    repeat first [ apply still_refl
                 | apply startAntiAfk_still
                 | apply startProximityCheck_still
                 | eapply still_trans; [apply startAntiAfk_still |] ].
Qed.

Lemma exitLobbyMode_still s : still s (exitLobbyMode cfg s).
Proof.
  unfold exitLobbyMode. cbv zeta.
  eapply still_trans; [| apply armLoops_still].
  unfold stopLobbyRetry, clearHandle. still_auto.
Qed.

Lemma afterLoop_still s : still s (fst (afterLoop s)).
Proof.
  unfold afterLoop. cbn [fst].
  eapply still_trans; [| apply stop_still]. still_auto.
Qed.

Lemma forBlocks_still w blocks total s :
  still s (fst (forBlocks distanceTo cfg w blocks total s)).
Proof.
  induction blocks as [| pos rest IH]; cbn [forBlocks].
  - apply still_refl.
  - destruct (negb (bot s)); [still_frame |].
    destruct (isEnemyNearby _ _ _ _).
    { cbn [fst]. eapply still_trans; [| apply stop_still]. still_frame. }
    destruct (emptySlotCount w <=? 2); [apply still_refl |].
    destruct (blockAt w pos) as [b |]; [| exact IH].
    destruct (String.eqb _ _); [still_frame | exact IH].
Qed.

Lemma whileLoop_still w total s :
  still s (fst (whileLoop distanceTo cfg w total s)).
Proof.
  unfold whileLoop.
  destruct (_ && _); [| apply afterLoop_still].
  destruct (emptySlotCount w <=? 2); [apply afterLoop_still |].
  destruct (findBlocks w _ _); [apply afterLoop_still |].
  apply forBlocks_still.
Qed.

Lemma executeProtection_still w s :
  still s (fst (executeProtection distanceTo cfg w s)).
Proof.
  unfold executeProtection.
  destruct (_ || _); [apply still_refl |].
  destruct (_protectionRunning s); [apply still_refl |].
  destruct (settings.protection _); [| still_frame].
  destruct (find _ _); [still_frame |].
  eapply still_trans; [| apply whileLoop_still]. still_frame.
Qed.

Lemma resumeProtection_still k r w s :
  still s (fst (resumeProtection distanceTo cfg k r w s)).
Proof.
  destruct k; cbn [resumeProtection].
  - destruct (bot s); [| still_frame].
    eapply still_trans; [| apply whileLoop_still]. still_frame.
  - destruct r; [| apply forBlocks_still].
    destruct (negb (bot s)); still_frame.
  - destruct r; [| apply forBlocks_still].
    destruct (0 <? breakDelay cfg); [apply still_refl | apply forBlocks_still].
  - apply forBlocks_still.
  - apply whileLoop_still.
Qed.

Lemma raiseAlert_calm now w e d s :
  calm s (fst (raiseAlert distanceTo cfg now w e d s)).
Proof.
  unfold raiseAlert.
  set (s1 := set_alertCooldowns _ s).
  assert (H1 : calm s s1) by (subst s1; calm_frame).
  destruct (_ && _).
  - pose proof (still_calm _ _ (executeProtection_still w s1)) as Hp.
    destruct (executeProtection distanceTo cfg w s1) as [sp c]. cbn [fst] in Hp.
    destruct c as [x | k |]; cbn [fst];
      (eapply calm_trans; [exact H1 |]);
      (eapply calm_trans; [exact Hp |]); calm_frame.
  - cbn [fst]. eapply calm_trans; [exact H1 |]. calm_frame.
Qed.

Lemma scanEntities_calm now w es : forall s,
  calm s (fst (scanEntities distanceTo cfg now w es s)).
Proof.
  induction es as [| e rest IH]; intros s; cbn [scanEntities].
  { apply calm_refl. }
  destruct (negb (bot s)); [calm_frame |].
  destruct (_ || _); [apply IH |].
  destruct (whitelisted s e); [apply IH |].
  destruct (position e) as [p |]; [| apply IH].
  destruct (entity w) as [me |]; [| apply IH].
  cbv zeta. destruct (_ && _).
  { cbn [fst]. eapply calm_trans; [| apply still_calm, stop_still]. calm_auto. }
  destruct (Qle_bool _ (alertDistance cfg)); [| apply IH].
  destruct (cooldown cfg <? _); [| apply IH].
  pose proof (raiseAlert_calm now w e (distanceTo me p) s) as Hr.
  destruct (raiseAlert distanceTo cfg now w e (distanceTo me p) s) as [s3 spawned].
  cbn [fst] in Hr. specialize (IH s3).
  destruct (scanEntities distanceTo cfg now w rest s3) as [s' more].
  cbn [fst] in *. eapply calm_trans; eassumption.
Qed.

Lemma proximityTick_calm now w s :
  calm s (fst (proximityTick distanceTo cfg now w s)).
Proof.
  unfold proximityTick. destruct (_ || _); [apply calm_refl |].
  apply scanEntities_calm.
Qed.

Lemma alertLoop_calm h u d c s : calm s (alertLoop h u d c s).
Proof. unfold alertLoop, clearTimer. calm_auto. Qed.

Lemma onSpawn_still w s : still s (onSpawn distanceTo cfg w s).
Proof.
  unfold onSpawn.
  destruct (negb (bot s)); [still_frame |].
  set (s0 := emit _ s). assert (H0 : still s s0) by (subst s0; still_frame).
  eapply still_trans; [exact H0 |].
  destruct (match lastPosition s0 with Some _ => _ | None => _ end).
  { apply enterLobbyMode_still. }
  set (s1 := match lastPosition s0 with Some _ => _ | None => _ end).
  assert (H1 : still s0 s1).
  { subst s1. destruct (lastPosition s0); [| apply still_refl].
    destruct (entity w); [| apply still_refl].
    destruct (_ && _); [apply exitLobbyMode_still | apply still_refl]. }
  eapply still_trans; [exact H1 |].
  destruct (entity w); [| apply still_refl].
  destruct (negb _); [still_frame | apply still_refl].
Qed.

Lemma onMessagestr_still message s : still s (onMessagestr message s).
Proof. unfold onMessagestr. still_auto. Qed.

Lemma checkFood_still w s : still s (fst (checkFood w s)).
Proof. unfold checkFood, scheduleCheckFood. still_auto. Qed.

Lemma checkFoodSettled_still r s : still s (checkFoodSettled r s).
Proof. unfold checkFoodSettled, scheduleCheckFood. still_auto. Qed.

Lemma teleportAway_still w s : still s (teleportAway distanceTo w s).
Proof.
  unfold teleportAway. destruct (entity w); [| apply still_refl].
  destruct (lastPosition s); [| apply still_refl].
  destruct (_ && _); [apply enterLobbyMode_still | apply still_refl].
Qed.

Lemma teleportBack_still w s : still s (teleportBack distanceTo cfg w s).
Proof.
  unfold teleportBack. destruct (entity w); [| apply still_refl].
  destruct (lastPosition s); [| apply still_refl].
  destruct (_ && _); [apply exitLobbyMode_still | apply still_refl].
Qed.

Lemma settle_still env t r s : still s (fst (settle distanceTo cfg env t r s)).
Proof.
  destruct t; cbn [settle].
  - pose proof (resumeProtection_still k r (world env) s) as H.
    destruct (resumeProtection distanceTo cfg k r (world env) s) as [s' c].
    destruct c; exact H.
  - apply checkFoodSettled_still.
Qed.

(** [start()], and the handlers that end a connection attempt, schedule
    no restart and touch no alert. *)
Lemma start_kept c s :
  noRestartScheduled s (fst (start c s)) /\ alertsKept s (fst (start c s)).
Proof. unfold start. repeat break_match; (split; [was_pending | kept_frame]). Qed.

Lemma start_refused c s : isConnecting s = true -> start c s = (s, false).
Proof. intros H. unfold start. now rewrite H. Qed.

Lemma onLogin_kept now s :
  noRestartScheduled s (onLogin cfg now s) /\ alertsKept s (onLogin cfg now s).
Proof.
  assert (K : forall x y : @State Vec3, still x y ->
                noRestartScheduled x y /\ alertsKept x y).
  { intros x y [[_ H1] H2]. auto. }
  assert (Tr : forall x y z : @State Vec3,
             noRestartScheduled x y /\ alertsKept x y ->
             noRestartScheduled y z /\ alertsKept y z ->
             noRestartScheduled x z /\ alertsKept x z).
  { intros x y z [A1 B1] [A2 B2].
    split; [eapply noRestartScheduled_trans | eapply alertsKept_trans]; eassumption. }
  unfold onLogin. cbv zeta.
  split_if; [repeat break_match; (split; [was_pending | kept_frame]) |].
  eapply Tr; [| apply K, startInventoryMonitor_still].
  eapply Tr; [| apply K, startAutoEat_still].
  assert (Hc : forall x : @State Vec3,
             still x (if onConnect x then emit connected x else x))
    by (intros x; destruct (onConnect x); still_frame).
  eapply Tr; [| apply K, Hc].
  eapply Tr; [| apply K, armLoops_still].
  repeat break_match; (split; [was_pending | kept_frame]).
Qed.

Lemma handleReconnect_kept s :
  noRestartScheduled s (handleReconnect cfg s)
  /\ alertsKept s (handleReconnect cfg s).
Proof.
  unfold handleReconnect. repeat break_match; (split; [was_pending | kept_frame]).
Qed.

Lemma onEnd_kept now s :
  noRestartScheduled s (onEnd cfg now s) /\ alertsKept s (onEnd cfg now s).
Proof.
  rewrite onEnd_ended.
  assert (H : noRestartScheduled s (ended now s) /\ alertsKept s (ended now s)).
  { unfold ended.
    match goal with |- context [cleanup ?x] =>
      pose proof (cleanup_still x) as [[_ C1] C2]; set (y := x) in * end.
    assert (Hy : noRestartScheduled s y /\ alertsKept s y)
      by (subst y; repeat break_match; (split; [was_pending | kept_frame])).
    destruct Hy as [Y1 Y2].
    split; [eapply noRestartScheduled_trans | eapply alertsKept_trans]; eassumption. }
  destruct (_ && _); [| exact H].
  destruct H as [H1 H2], (handleReconnect_kept (ended now s)) as [R1 R2].
  split; [eapply noRestartScheduled_trans | eapply alertsKept_trans]; eassumption.
Qed.

Lemma onLogin_clears now s :
  isConnecting (onLogin cfg now s) = false /\ bot (onLogin cfg now s) = bot s.
Proof.
  unfold onLogin, startInventoryMonitor, startAutoEat, startProximityCheck,
    startAntiAfk. cbv zeta. repeat split_if; split; reflexivity.
Qed.

(** A timer that fires while the connecting flag is set: the [start()]
    of a reconnection or of a restart is refused. *)
Lemma fire_calm env h s :
  isConnecting s = true -> calm s (fst (fire distanceTo cfg env h s)).
Proof.
  intros Hc. unfold fire.
  destruct (timers s !! h) as [t |]; [| apply calm_refl].
  set (s0 := if repeats t then s else clearTimer h s).
  assert (H0 : calm s s0)
    by (subst s0; destruct (repeats t);
        [apply calm_refl | unfold clearTimer; calm_frame]).
  assert (Hc0 : isConnecting s0 = true) by (rewrite (proj1 (proj1 H0)); exact Hc).
  eapply calm_trans; [exact H0 |].
  destruct (callback t); cbn [fst]; try apply calm_refl.
  - unfold antiAfkTick. calm_auto.
  - unfold jumpRelease. calm_auto.
  - apply still_calm, checkFood_still.
  - apply proximityTick_calm.
  - apply alertLoop_calm.
  - unfold lobbyFirstTry. calm_auto.
  - unfold lobbyRetry, stopLobbyRetry, clearHandle. calm_auto.
  - unfold reconnectFire. destruct (negb _); [| apply calm_refl].
    rewrite (start_refused _ _ Hc0). apply calm_refl.
  - unfold restartFire. rewrite (start_refused _ _ Hc0). apply calm_refl.
  - apply still_calm, teleportAway_still.
  - apply still_calm, teleportBack_still.
Qed.

(** While the connecting flag is set, an event other than the four that
    clear it leaves it set, and the slot takes no client handle. *)
Lemma step_connecting env ev s :
  isConnecting s = true -> clearsConnecting ev = false ->
  sameConnection s (fst (step distanceTo cfg env ev s)).
Proof.
  intros Hc Hev.
  assert (H : forall x, still s x -> sameConnection s x)
    by (intros x H; apply H).
  destruct ev; try discriminate Hev; cbn [step fst].
  - apply H, onSpawn_still.
  - apply H, onMessagestr_still.
  - rewrite (start_refused _ _ Hc). apply H, still_refl.
  - apply H, stop_still.
  - apply H. unfold pause. still_auto.
  - apply H. unfold resume. still_auto.
  - unfold restart. cbn [fst]. exact (H _ (stop_still s)).
  - apply H. unfold toggleProtection. still_auto.
  - apply fire_calm, Hc.
  - apply H, settle_still.
Qed.

Lemma run_connecting evs : forall s,
  isConnecting s = true -> bot s = false ->
  forallb (fun p => negb (clearsConnecting (snd p))) evs = true ->
  let x := run distanceTo cfg evs s in
  isConnecting x = true /\ bot x = false.
Proof.
  induction evs as [| [env ev] rest IH]; intros s Hc Hb Hevs; cbn [run].
  - split; assumption.
  - cbn [forallb snd] in Hevs. apply andb_true_iff in Hevs as [Hev Hrest].
    apply negb_true_iff in Hev.
    destruct (step_connecting env ev s Hc Hev) as [Hc' Hb'].
    apply IH; [congruence | | exact Hrest].
    destruct (bot (fst (step distanceTo cfg env ev s))); [| reflexivity].
    rewrite Hb' in Hb by reflexivity. discriminate Hb.
Qed.

(** A timer that fires schedules no restart. *)
Lemma fire_noRestartScheduled env h s :
  noRestartScheduled s (fst (fire distanceTo cfg env h s)).
Proof.
  unfold fire.
  destruct (timers s !! h) as [t |]; [| apply noRestartScheduled_refl].
  set (s0 := if repeats t then s else clearTimer h s).
  assert (H0 : noRestartScheduled s s0)
    by (subst s0; destruct (repeats t);
        [apply noRestartScheduled_refl | unfold clearTimer; was_pending]).
  eapply noRestartScheduled_trans; [exact H0 |].
  destruct (callback t); cbn [fst]; try apply noRestartScheduled_refl.
  - unfold antiAfkTick. repeat break_match; was_pending.
  - unfold jumpRelease. repeat break_match; was_pending.
  - apply checkFood_still.
  - apply proximityTick_calm.
  - apply alertLoop_calm.
  - unfold lobbyFirstTry. repeat break_match; was_pending.
  - unfold lobbyRetry, stopLobbyRetry, clearHandle. repeat break_match; was_pending.
  - unfold reconnectFire. destruct (negb _);
      [apply start_kept | apply noRestartScheduled_refl].
  - unfold restartFire. apply start_kept.
  - apply teleportAway_still.
  - apply teleportBack_still.
Qed.

(** An event other than a start or restart command schedules no
    restart. *)
Lemma step_noRestartScheduled env ev s :
  isStartCommand ev = false ->
  noRestartScheduled s (fst (step distanceTo cfg env ev s)).
Proof.
  intros Hev. destruct ev; try discriminate Hev; cbn [step fst].
  - apply onLogin_kept.
  - apply onSpawn_still.
  - apply onEnd_kept.
  - unfold onKicked. repeat break_match; was_pending.
  - unfold onError. was_pending.
  - apply onMessagestr_still.
  - apply stop_still.
  - unfold pause. repeat break_match; was_pending.
  - unfold resume. repeat break_match; was_pending.
  - unfold toggleProtection. repeat break_match; was_pending.
  - apply fire_noRestartScheduled.
  - apply settle_still.
Qed.

Lemma noRestartPending_step s s' :
  noRestartPending s -> noRestartScheduled s s' -> noRestartPending s'.
Proof. intros Hp Hs h t Ht Hc. exact (Hp h t (Hs h t Ht Hc) Hc). Qed.

(** With no restart pending, a run without start and restart commands
    has no operator start. *)
Lemma run_noOperatorStart evs : forall s,
  noRestartPending s ->
  forallb (fun p => negb (isStartCommand (snd p))) evs = true ->
  noOperatorStart distanceTo cfg evs s.
Proof.
  induction evs as [| [env ev] rest IH]; intros s Hp Hevs; cbn [noOperatorStart].
  - exact I.
  - cbn [forallb snd] in Hevs. apply andb_true_iff in Hevs as [Hev Hrest].
    apply negb_true_iff in Hev. split.
    + destruct ev; try discriminate Hev; try reflexivity.
      cbn. destruct (timers s !! h) as [t |] eqn:Ht; [| reflexivity].
      specialize (Hp h t Ht). destruct (callback t); try reflexivity.
      now destruct Hp.
    + apply IH; [| exact Hrest].
      eapply noRestartPending_step; [exact Hp |].
      now apply step_noRestartScheduled.
Qed.

(** With no restart pending when [stop()] is called, no later event
    other than a start or restart command creates a client: the
    manual-stop flag stays set and no reconnection is pending. *)
Lemma stopped_until_started s evs :
  noRestartPending s ->
  forallb (fun p => negb (isStartCommand (snd p))) evs = true ->
  let s0 := fst (stop s) in
  let s' := run distanceTo cfg evs s0 in
  isManuallyStopped s' = true /\ reconnectTimeout s' = None
  /\ starts s' = starts s0.
Proof.
  intros Hp Hevs. cbv zeta.
  destruct (stop_stopped s) as (Hm & Hr & _).
  assert (Hp0 : noRestartPending (fst (stop s)))
    by (eapply noRestartPending_step; [exact Hp | apply stop_still]).
  destruct (run_quiet evs _ (conj Hm Hr)
              (run_noOperatorStart evs _ Hp0 Hevs)) as [[Hm' Hr'] Hs'].
  repeat split; assumption.
Qed.

(** ** What a scan does to the timers *)

Lemma scanned_refl us s : scanned us s s.
Proof.
  split; [lia |]. split; [reflexivity |]. split; [reflexivity |]. split; [auto |].
  split; [reflexivity |]. split; [auto | auto].
Qed.

Lemma scanned_trans us s1 s2 s3 :
  scanned us s1 s2 -> scanned us s2 s3 -> scanned us s1 s3.
Proof.
  intros (N1 & E1 & W1 & H1 & A1 & T1 & S1) (N2 & E2 & W2 & H2 & A2 & T2 & S2).
  split; [lia |]. split; [intros E; rewrite E2, E1 by exact E; reflexivity |].
  split; [congruence |]. split; [auto |].
  split; [intros u Hu; rewrite A2, A1 by exact Hu; reflexivity |].
  split.
  - intros h t Ht. destruct (T2 h t Ht) as [H | (Hr & u & d & Hu & ->)].
    + destruct (T1 h t H) as [H' | (Hr & u & d & Hu & ->)]; [now left |].
      right. split; [lia | eauto].
    + right. split; [lia | eauto].
  - intros h t Ht Hh Hn. apply S2; [apply S1; assumption | lia | auto].
Qed.

Lemma scanned_mono us us' s s' :
  (forall u, In u us -> In u us') -> scanned us s s' -> scanned us' s s'.
Proof.
  intros Hi (N & E & W & H & A & T & S).
  split; [exact N |].
  split; [intros ->; apply E; destruct us as [| u us]; [reflexivity |];
          destruct (Hi u (or_introl eq_refl)) |].
  split; [exact W |]. split; [exact H |].
  split; [intros u Hu; apply A; auto |].
  split; [| exact S].
  intros h t Ht. destruct (T h t Ht) as [H' | (Hr & u & d & Hu & ->)]; [now left |].
  right. split; [exact Hr |]. exists u, d. auto.
Qed.

Lemma scanned_issued us s s' : issued s -> scanned us s s' -> issued s'.
Proof.
  intros [I1 I2] (N & _ & _ & H & _ & T & _). split.
  - intros h t Ht. destruct (T h t Ht) as [Ht' | (Hr & _)]; [| lia].
    specialize (I1 h t Ht'). lia.
  - intros h Hh. specialize (I2 h (H h Hh)). lia.
Qed.

(** A state change that touches no timer, no handle field, no alert time
    and not the whitelist. *)
Ltac scanned_frame :=
  split; [cbn; lia |]; split; [reflexivity |]; split; [reflexivity |];
  split; [unfold heldHandle, tracked; cbn; auto |];
  split; [reflexivity |]; split; [intros ? ? ?; left; assumption | auto].

Lemma cleanup_scanned us s : scanned us s (cleanup s).
Proof.
  unfold cleanup, stopLobbyRetry, clearHandle.
  split; [cbn; lia |]. split; [reflexivity |]. split; [reflexivity |].
  split; [unfold heldHandle, tracked; cbn; intros h [H | H]; [| now right];
          decompose [or] H; discriminate |].
  split; [reflexivity |].
  split.
  - intros h t Ht. left. cbn in Ht.
    destruct (antiAfkInterval s), (proximityInterval s), (autoEatTimeout s),
      (inventoryMonitorInterval s), (lobbyRetryInterval s);
      repeat (apply lookup_delete_Some in Ht as [_ Ht]); exact Ht.
  - intros h t Ht _ Hn. cbn. unfold heldHandle, tracked in Hn.
    destruct (antiAfkInterval s), (proximityInterval s), (autoEatTimeout s),
      (inventoryMonitorInterval s), (lobbyRetryInterval s);
      repeat (rewrite lookup_delete_ne by (intros ->; apply Hn; tauto));
      exact Ht.
Qed.

Lemma stop_scanned us s : scanned us s (fst (stop s)).
Proof.
  unfold stop. cbn [fst].
  eapply scanned_trans; [| apply cleanup_scanned].
  assert (H : scanned us s
                (set_reconnectTimeout None
                   (clearHandle (reconnectTimeout (set_isManuallyStopped true s))
                      (set_isManuallyStopped true s)))).
  { unfold clearHandle.
    split; [cbn; lia |]. split; [reflexivity |]. split; [reflexivity |].
    split; [unfold heldHandle, tracked; cbn; intros h [H | H];
            [now left | discriminate] |].
    split; [reflexivity |].
    split.
    - intros h t Ht. left. cbn in Ht. destruct (reconnectTimeout s);
        [apply lookup_delete_Some in Ht as [_ Ht] |]; exact Ht.
    - intros h t Ht _ Hn. cbn. unfold heldHandle in Hn.
      destruct (reconnectTimeout s);
        [rewrite lookup_delete_ne by (intros ->; apply Hn; tauto) |]; exact Ht. }
  eapply scanned_trans; [exact H |].
  split_if; [scanned_frame | apply scanned_refl].
Qed.

Lemma afterLoop_scanned us s : scanned us s (fst (afterLoop s)).
Proof.
  unfold afterLoop. cbn [fst].
  eapply scanned_trans; [| apply stop_scanned].
  split_if; scanned_frame.
Qed.

Lemma forBlocks_scanned us w blocks total s :
  scanned us s (fst (forBlocks distanceTo cfg w blocks total s)).
Proof.
  induction blocks as [| pos rest IH]; cbn [forBlocks].
  - apply scanned_refl.
  - destruct (negb (bot s)); [scanned_frame |].
    destruct (isEnemyNearby _ _ _ _).
    { cbn [fst]. eapply scanned_trans; [| apply stop_scanned]. scanned_frame. }
    destruct (emptySlotCount w <=? 2); [apply scanned_refl |].
    destruct (blockAt w pos) as [b |]; [| exact IH].
    destruct (String.eqb _ _); [scanned_frame | exact IH].
Qed.

Lemma whileLoop_scanned us w total s :
  scanned us s (fst (whileLoop distanceTo cfg w total s)).
Proof.
  unfold whileLoop.
  destruct (_ && _); [| apply afterLoop_scanned].
  destruct (emptySlotCount w <=? 2); [apply afterLoop_scanned |].
  destruct (findBlocks w _ _); [apply afterLoop_scanned |].
  apply forBlocks_scanned.
Qed.

Lemma executeProtection_scanned us w s :
  scanned us s (fst (executeProtection distanceTo cfg w s)).
Proof.
  unfold executeProtection.
  destruct (_ || _); [apply scanned_refl |].
  destruct (_protectionRunning s); [apply scanned_refl |].
  destruct (settings.protection _); [| scanned_frame].
  destruct (find _ _); [scanned_frame |].
  eapply scanned_trans; [| apply whileLoop_scanned]. scanned_frame.
Qed.

(** The alert rule: the time is recorded, and the burst is the one timer
    added, under the next fresh handle. *)
Lemma raiseAlert_burst now w e d s :
  let s' := fst (raiseAlert distanceTo cfg now w e d s) in
  scanned [username e] s s'
  /\ alertCooldowns s' !! username e = Some now
  /\ nextTimer s' = S (nextTimer s)
  /\ timers s' !! nextTimer s = Some (burstTimer (username e) d)
  /\ (forall h t, timers s' !! h = Some t ->
        h = nextTimer s \/ timers s !! h = Some t).
Proof.
  cbv zeta. unfold raiseAlert.
  assert (F : forall x : @State Vec3,
             scanned []
               (set_alertCooldowns (<[username e := now]> (alertCooldowns s)) s) x ->
             alertCooldowns x = <[username e := now]> (alertCooldowns s) ->
             let s' := setInterval (cbAlertLoop (username e) d 0) 1000
                         (bump_stats
                            (fun st => set_alertsTriggered (alertsTriggered st + 1) st)
                            x) in
             scanned [username e] s s'
             /\ alertCooldowns s' !! username e = Some now
             /\ nextTimer s' = S (nextTimer s)
             /\ timers s' !! nextTimer s = Some (burstTimer (username e) d)
             /\ (forall h t, timers s' !! h = Some t ->
                   h = nextTimer s \/ timers s !! h = Some t)).
  { intros x (N & E & W & H & A & T & S) Ha. cbv zeta.
    specialize (E eq_refl). cbn in N, E, W, T, S.
    assert (H' : forall h, heldHandle x h -> heldHandle s h) by exact H.
    assert (S' : forall h t, timers s !! h = Some t -> (h < nextTimer s)%nat ->
                   ~ heldHandle s h -> timers x !! h = Some t) by exact S.
    assert (T' : forall h t, timers x !! h = Some t -> timers s !! h = Some t).
    { intros h t Ht. destruct (T h t Ht) as [Ht' | (_ & u & _ & [] & _)]. exact Ht'. }
    split; [| split; [| split; [| split]]].
    - split; [cbn; lia |]. split; [discriminate |].
      split; [exact W |]. split; [exact H' |].
      split.
      { intros u Hu. cbn. rewrite Ha. apply lookup_insert_ne.
        intros Eu. apply Hu. now left. }
      split.
      + intros h t Ht. cbn in Ht. rewrite E in Ht.
        apply lookup_insert_Some in Ht as [[<- <-] | [Hne Ht]].
        * right. split; [cbn; lia |].
          exists (username e), d. split; [now left | reflexivity].
        * left. now apply T'.
      + intros h t Ht Hh Hnh. cbn.
        rewrite lookup_insert_ne by lia. now apply S'.
    - cbn. rewrite Ha. apply lookup_insert_eq.
    - cbn. now rewrite E.
    - cbn. rewrite E. apply lookup_insert_eq.
    - intros h t Ht. cbn in Ht. rewrite E in Ht.
      apply lookup_insert_Some in Ht as [[<- _] | [_ Ht]]; [now left |].
      right. now apply T'. }
  set (s1 := set_alertCooldowns _ s) in *.
  destruct (_ && _).
  - pose proof (executeProtection_scanned [] w s1) as Hp.
    pose proof (executeProtection_noAlertChange w s1) as [Hq _].
    destruct (executeProtection distanceTo cfg w s1) as [sp c]. cbn [fst] in *.
    destruct c as [x | k |]; cbn [fst]; apply F; assumption.
  - cbn [fst]. apply F; [apply scanned_refl | reflexivity].
Qed.

(** The scan raises alerts for identities of the entities it visits. *)
Lemma scanEntities_scanned now w es : forall s,
  scanned (map username es) s (fst (scanEntities distanceTo cfg now w es s)).
Proof.
  induction es as [| e rest IH]; intros s; cbn [scanEntities map].
  { apply scanned_refl. }
  assert (IH' : forall x, scanned (username e :: map username rest) x
                  (fst (scanEntities distanceTo cfg now w rest x))).
  { intros x. eapply scanned_mono; [| apply IH]. intros u Hu. now right. }
  destruct (negb (bot s)); [scanned_frame |].
  destruct (_ || _); [apply IH' |].
  destruct (whitelisted s e); [apply IH' |].
  destruct (position e) as [p |]; [| apply IH'].
  destruct (entity w) as [me |]; [| apply IH'].
  cbv zeta. destruct (_ && _).
  { cbn [fst]. eapply scanned_trans; [| apply stop_scanned].
    destruct (onProximityAlert s); scanned_frame. }
  destruct (Qle_bool _ (alertDistance cfg)); [| apply IH'].
  destruct (cooldown cfg <? _); [| apply IH'].
  pose proof (raiseAlert_burst now w e (distanceTo me p) s) as (Hr & _).
  cbv zeta in Hr.
  destruct (raiseAlert distanceTo cfg now w e (distanceTo me p) s) as [s3 spawned].
  cbn [fst] in Hr. specialize (IH' s3).
  destruct (scanEntities distanceTo cfg now w rest s3) as [s' more].
  cbn [fst] in *. eapply scanned_trans; [| exact IH'].
  eapply scanned_mono; [| exact Hr]. intros u [<- | []]. now left.
Qed.

(** A scan that is left with the client handle in place went through all
    the entities: scanning a longer list continues from its state. *)
Lemma scanEntities_app now w pre rest : forall s,
  bot (fst (scanEntities distanceTo cfg now w pre s)) = true ->
  fst (scanEntities distanceTo cfg now w (pre ++ rest) s)
  = fst (scanEntities distanceTo cfg now w rest
           (fst (scanEntities distanceTo cfg now w pre s))).
Proof.
  induction pre as [| x pre IH]; intros s; cbn [scanEntities app]; [reflexivity |].
  destruct (bot s) eqn:Hb; cbn [negb].
  2: { cbn. rewrite Hb. discriminate. }
  destruct (_ || _); [apply IH |].
  destruct (whitelisted s x); [apply IH |].
  destruct (position x) as [p |]; [| apply IH].
  destruct (entity w) as [me |]; [| apply IH].
  cbv zeta. destruct (_ && _).
  { cbn [fst]. intros H. destruct (stop_stopped (set__protectionRunning false
        (if onProximityAlert s
         then emit (proximityAlert (username x) (distanceTo me p)) s else s)))
      as (_ & _ & Hf & _). congruence. }
  destruct (Qle_bool _ (alertDistance cfg)); [| apply IH].
  destruct (cooldown cfg <? _); [| apply IH].
  destruct (raiseAlert distanceTo cfg now w x (distanceTo me p) s) as [s3 spawned].
  specialize (IH s3).
  destruct (scanEntities distanceTo cfg now w pre s3) as [s' more] eqn:E1.
  destruct (scanEntities distanceTo cfg now w (pre ++ rest) s3) as [s'' more'] eqn:E2.
  cbn [fst] in *. exact IH.
Qed.

Lemma burstOf_burstTimer player u d :
  burstOf player (burstTimer u d) = true -> u = player.
Proof. unfold burstOf, burstTimer. cbn. apply String.eqb_eq. Qed.

Lemma burstOf_isBurst player t : burstOf player t = true -> isBurst (callback t) = true.
Proof. unfold burstOf, isBurst. destruct (callback t); congruence. Qed.

(** Firings of a burst's interval, from the count [c] on: each notifies
    the observer if the client handle is held, the interval stays at 1 s,
    and it clears itself when the count reaches 5. *)
Lemma burst_firings h u d (envs : list (@Env Vec3)) : forall c x,
  0 <= c < 5 -> c + Z.of_nat (List.length envs) <= 5 ->
  timers x !! h = Some (mkTimer (cbAlertLoop u d c) 1000 true) ->
  let x' := run distanceTo cfg (firings h envs) x in
  trace x' = trace x ++ (if bot x && onProximityAlert x
                         then replicate (List.length envs) (proximityAlert u d)
                         else [])
  /\ timers x' !! h
     = if c + Z.of_nat (List.length envs) =? 5 then None
       else Some (mkTimer (cbAlertLoop u d (c + Z.of_nat (List.length envs))) 1000 true).
Proof.
  induction envs as [| env envs IH]; intros c x Hc Hlen Ht; cbv zeta.
  - cbn [List.length firings map run replicate].
    rewrite Z.add_0_r. replace (c =? 5) with false by (symmetry; apply Z.eqb_neq; lia).
    split; [destruct (_ && _); now rewrite app_nil_r | exact Ht].
  - cbn [List.length firings map run step] in *.
    set (x1 := fst (fire distanceTo cfg env h x)).
    assert (H1 : trace x1 = trace x ++ (if bot x && onProximityAlert x
                                        then [proximityAlert u d] else [])
                 /\ bot x1 = bot x /\ onProximityAlert x1 = onProximityAlert x
                 /\ timers x1 !! h
                    = if 5 <=? c + 1 then None
                      else Some (mkTimer (cbAlertLoop u d (c + 1)) 1000 true)).
    { subst x1. unfold fire. rewrite Ht. cbn [repeats callback fst].
      unfold alertLoop. cbv zeta.
      destruct (bot x) eqn:Hb, (onProximityAlert x) eqn:Ho, (5 <=? c + 1);
        cbn; rewrite ?Hb, ?Ho; cbn; rewrite ?app_nil_r;
        repeat split; try reflexivity; try assumption;
        first [apply lookup_delete_eq | apply lookup_insert_eq]. }
    destruct H1 as (T1 & B1 & O1 & L1).
    destruct (Z.leb_spec 5 (c + 1)) as [Hle | Hlt].
    + (* the fifth firing: nothing is left to fire *)
      destruct envs as [| env' envs']; [| cbn [List.length] in Hlen; lia].
      cbn [firings map run List.length replicate].
      replace (c + Z.of_nat 1 =? 5) with true by (symmetry; apply Z.eqb_eq; lia).
      split; [exact T1 | exact L1].
    + specialize (IH (c + 1) x1 ltac:(lia) ltac:(lia) L1). cbv zeta in IH.
      destruct IH as [T2 L2].
      replace (c + Z.of_nat (S (List.length envs)))
        with (c + 1 + Z.of_nat (List.length envs)) by lia.
      split; [| exact L2].
      fold (firings h envs). rewrite T2, T1, B1, O1.
      destruct (bot x && onProximityAlert x); cbn [replicate];
        rewrite <- app_assoc; reflexivity.
Qed.

(** ** The cooldown across events *)

Lemma alertsKept_record player t0 s s' :
  alertsKept s s' ->
  alertCooldowns s !! player = Some t0 ->
  alertCooldowns s' !! player = Some t0
  /\ forall h, burstUnder player s' h -> burstUnder player s h.
Proof.
  intros [A B] Hr. split; [now rewrite A |].
  intros h (t & Ht & Hb). exists t. split; [| exact Hb].
  apply B; [exact Ht | now apply (burstOf_isBurst player)].
Qed.

(** A scan taken within the cooldown of [player] keeps the record and
    starts no burst for [player]. *)
Lemma tick_within player t0 now w s :
  alertCooldowns s !! player = Some t0 -> now - t0 <= cooldown cfg ->
  let s' := fst (proximityTick distanceTo cfg now w s) in
  alertCooldowns s' !! player = Some t0
  /\ forall h, burstUnder player s' h -> burstUnder player s h.
Proof.
  intros Hrec Hwin. cbv zeta.
  destruct (tick_alerts now w s) as [H1 H2]. cbv zeta in H1, H2.
  destruct (H2 player t0 Hrec) as [H3 H4]; [apply Z.ltb_ge; lia |].
  split; [exact H3 |].
  intros h (t & Ht & Hbo). exists t. split; [| exact Hbo].
  destruct (H1 h t Ht) as [H | (u & d' & -> & _)]; [exact H |].
  apply burstOf_burstTimer in Hbo as ->. now apply H4.
Qed.

(** An event that happens within the cooldown of [player] keeps the
    record and starts no burst for [player]. *)
Lemma step_within player t0 env ev s :
  alertCooldowns s !! player = Some t0 -> now env - t0 <= cooldown cfg ->
  let s' := fst (step distanceTo cfg env ev s) in
  alertCooldowns s' !! player = Some t0
  /\ forall h, burstUnder player s' h -> burstUnder player s h.
Proof.
  intros Hrec Hwin. cbv zeta.
  assert (K : forall x y : @State Vec3, alertsKept x y ->
                alertCooldowns x !! player = Some t0 ->
                alertCooldowns y !! player = Some t0
                /\ forall h, burstUnder player y h -> burstUnder player x h)
    by (intros x y; apply alertsKept_record).
  destruct ev; cbn [step fst].
  - apply K; [apply onLogin_kept | exact Hrec].
  - apply K; [apply onSpawn_still | exact Hrec].
  - apply K; [apply onEnd_kept | exact Hrec].
  - apply K; [| exact Hrec]. unfold onKicked. repeat break_match; kept_frame.
  - apply K; [| exact Hrec]. unfold onError. kept_frame.
  - apply K; [apply onMessagestr_still | exact Hrec].
  - apply K; [apply start_kept | exact Hrec].
  - apply K; [apply stop_still | exact Hrec].
  - apply K; [| exact Hrec]. unfold pause. repeat break_match; kept_frame.
  - apply K; [| exact Hrec]. unfold resume. repeat break_match; kept_frame.
  - apply K; [| exact Hrec]. unfold restart. cbn [fst].
    eapply alertsKept_trans; [apply stop_still | kept_frame].
  - apply K; [| exact Hrec]. unfold toggleProtection. repeat break_match; kept_frame.
  - unfold fire. destruct (timers s !! h) as [t |] eqn:Et; [| auto].
    set (s0 := if repeats t then s else clearTimer h s).
    assert (H0 : alertsKept s s0)
      by (subst s0; destruct (repeats t);
          [apply alertsKept_refl | unfold clearTimer; kept_frame]).
    destruct (K _ _ H0 Hrec) as [R0 B0].
    assert (Tr : forall y : @State Vec3,
               (alertCooldowns y !! player = Some t0
                /\ forall h, burstUnder player y h -> burstUnder player s0 h) ->
               alertCooldowns y !! player = Some t0
               /\ forall h, burstUnder player y h -> burstUnder player s h)
      by (intros y [Y1 Y2]; split; [exact Y1 | auto]).
    assert (Kt : forall y : @State Vec3, alertsKept s0 y ->
               alertCooldowns y !! player = Some t0
               /\ forall h, burstUnder player y h -> burstUnder player s h)
      by (intros y Hy; apply Tr, K; assumption).
    destruct (callback t) as [| | | | u d c | | | | | | |] eqn:Ec; cbn [fst].
    + apply Kt. unfold antiAfkTick. repeat break_match; kept_frame.
    + apply Kt. unfold jumpRelease. repeat break_match; kept_frame.
    + apply Kt, checkFood_still.
    + apply Tr. now apply tick_within.
    + (* a burst's own interval: what it puts back under [h] is a burst
         for the identity it had *)
      assert (Hh : (u =? player)%string = true -> burstUnder player s h).
      { intros E. exists t. split; [exact Et |]. unfold burstOf. now rewrite Ec. }
      assert (A : alertCooldowns (alertLoop h u d c s0) = alertCooldowns s0)
        by (unfold alertLoop, clearTimer; repeat break_match; reflexivity).
      split; [rewrite A; exact R0 |].
      intros h' (t' & Ht' & Hb').
      destruct (decide (h' = h)) as [-> | Hne].
      * apply Hh. revert Ht' Hb'. unfold alertLoop, clearTimer.
        repeat break_match; cbn; rewrite ?lookup_delete_eq, ?lookup_insert_eq;
          try discriminate; intros [= <-]; exact id.
      * apply B0. exists t'. split; [| exact Hb'].
        revert Ht'. unfold alertLoop, clearTimer.
        repeat break_match; cbn;
          rewrite ?lookup_delete_ne, ?lookup_insert_ne by congruence; exact id.
    + apply Kt. unfold lobbyFirstTry. repeat break_match; kept_frame.
    + apply Kt. unfold lobbyRetry, stopLobbyRetry, clearHandle.
      repeat break_match; kept_frame.
    + apply Kt, alertsKept_refl.
    + apply Kt. unfold reconnectFire.
      destruct (negb _); [apply start_kept | apply alertsKept_refl].
    + apply Kt. unfold restartFire. apply start_kept.
    + apply Kt, teleportAway_still.
    + apply Kt, teleportBack_still.
  - apply K; [apply settle_still | exact Hrec].
Qed.

Lemma run_within player t0 evs : forall s,
  alertCooldowns s !! player = Some t0 -> withinCooldown cfg t0 evs ->
  let s' := run distanceTo cfg evs s in
  alertCooldowns s' !! player = Some t0
  /\ forall h, burstUnder player s' h -> burstUnder player s h.
Proof.
  induction evs as [| [env ev] rest IH]; intros s Hrec Hw; cbn [run].
  - split; [exact Hrec | auto].
  - apply Forall_cons in Hw as [Hw1 Hw2]. cbn [fst] in Hw1.
    destruct (step_within player t0 env ev s Hrec Hw1) as [R1 B1].
    destruct (IH _ R1 Hw2) as [R2 B2].
    split; [exact R2 | auto].
Qed.

(** C7. A proximity event for the alert rule, on an identity whose
    cooldown has elapsed, in a scan that reaches it with the client handle
    in place: the scan records its time as the alert time of the identity
    and starts exactly one burst for it, one interval under a handle that
    was free. A scan taken within the cooldown starts no burst for the
    identity and keeps the record, from whatever state the record stands
    in; and through any events that happen within the cooldown after the
    first, the record stands and no burst is started for the identity. A
    burst is one interval of 1 s that counts its firings and clears
    itself with the fifth; a firing notifies the registered observer if
    the slot holds a client handle then, so the five make five
    notifications on a slot that stays connected and none on a slot that
    has been stopped. *)
Theorem alert_cooldown now1 w1 s pre e post d :
  issued s -> 0 <= cooldown cfg -> scanning s ->
  entities w1 = pre ++ e :: post ->
  bot (fst (scanEntities distanceTo cfg now1 w1 pre s)) = true ->
  Forall (fun x => username x <> username e) pre ->
  alertEvent distanceTo cfg w1 s e d ->
  cooldown cfg < now1 - orZ (alertCooldowns s !! username e) 0 ->
  let player := username e in
  let s1 := fst (proximityTick distanceTo cfg now1 w1 s) in
  (alertCooldowns s1 !! player = Some now1
   /\ exists h, timers s !! h = None
                /\ timers s1 !! h = Some (burstTimer player d)
                /\ forall h', newBurst player s s1 h' -> h' = h)
  /\ (forall now2 w2 s2,
        alertCooldowns s2 !! player = Some now1 ->
        now2 - now1 <= cooldown cfg ->
        let s3 := fst (proximityTick distanceTo cfg now2 w2 s2) in
        alertCooldowns s3 !! player = Some now1
        /\ forall h', ~ newBurst player s2 s3 h')
  /\ (forall evs,
        withinCooldown cfg now1 evs ->
        let s3 := run distanceTo cfg evs s1 in
        alertCooldowns s3 !! player = Some now1
        /\ forall h', ~ newBurst player s1 s3 h')
  /\ (forall h d' c (x : @State Vec3) envs,
        0 <= c < 5 -> c + Z.of_nat (List.length envs) <= 5 ->
        timers x !! h = Some (mkTimer (cbAlertLoop player d' c) 1000 true) ->
        let x' := run distanceTo cfg (firings h envs) x in
        trace x' = trace x ++ (if bot x && onProximityAlert x
                               then replicate (List.length envs)
                                      (proximityAlert player d')
                               else [])
        /\ timers x' !! h
           = if c + Z.of_nat (List.length envs) =? 5 then None
             else Some (mkTimer (cbAlertLoop player d'
                                   (c + Z.of_nat (List.length envs))) 1000 true)).
Proof.
  intros Hi Hcd (Hb & Hs & Hp & Hl) Hes Hpre Hnames
         (Hty & Hself & Hwl & Hseen & Hem & Hal) Hel.
  cbv zeta.
  assert (First :
    alertCooldowns (fst (proximityTick distanceTo cfg now1 w1 s)) !! username e
    = Some now1
    /\ exists h, timers s !! h = None
         /\ timers (fst (proximityTick distanceTo cfg now1 w1 s)) !! h
            = Some (burstTimer (username e) d)
         /\ forall h', newBurst (username e) s
                         (fst (proximityTick distanceTo cfg now1 w1 s)) h' ->
                       h' = h).
  { unfold proximityTick. rewrite Hb, Hs, Hp, Hl. cbn [negb orb Status_eqb].
    rewrite Hes, (scanEntities_app now1 w1 pre (e :: post) s Hpre).
    pose proof (scanEntities_scanned now1 w1 pre s) as Hsc.
    set (sp := fst (scanEntities distanceTo cfg now1 w1 pre s)) in *.
    pose proof (scanned_issued _ _ _ Hi Hsc) as [Ip1 Ip2].
    destruct Hsc as (Np & _ & Wp & Hp' & Ap & Tp & _).
    assert (Hnot : ~ In (username e) (map username pre)).
    { intros Hin. apply in_map_iff in Hin as (x & Ex & Hx).
      rewrite List.Forall_forall in Hnames. exact (Hnames x Hx Ex). }
    cbn [scanEntities]. rewrite Hpre. cbn [negb].
    rewrite Hty, Hself. cbn [negb orb].
    assert (Hw : whitelisted sp e = false)
      by (unfold whitelisted in *; rewrite Wp; exact Hwl).
    rewrite Hw. unfold seenAt in Hseen.
    destruct (position e) as [p |]; [| discriminate Hseen].
    destruct (entity w1) as [me |]; [| discriminate Hseen].
    injection Hseen as Hd. cbv zeta. rewrite Hd, Hem, Hal. cbn [andb].
    rewrite (Ap _ Hnot).
    replace (cooldown cfg <? now1 - orZ (alertCooldowns s !! username e) 0)
      with true by (symmetry; apply Z.ltb_lt; exact Hel).
    pose proof (raiseAlert_burst now1 w1 e d sp) as (Ra & Rc & Rn & Rt & Ru).
    cbv zeta in Ra, Rc, Rn, Rt, Ru.
    destruct (raiseAlert distanceTo cfg now1 w1 e d sp) as [sa spawned].
    cbn [fst] in Ra, Rc, Rn, Rt, Ru.
    pose proof (scanEntities_scanned now1 w1 post sa) as Hpo.
    pose proof (scan_alerts now1 w1 post sa) as (K1 & _ & K3).
    cbv zeta in K1, K3.
    destruct (scanEntities distanceTo cfg now1 w1 post sa) as [s1 more].
    cbn [fst] in *.
    destruct Hpo as (_ & _ & _ & _ & _ & To & So).
    destruct Ra as (_ & _ & _ & Ha & _).
    split; [apply K1; exact Rc |].
    exists (nextTimer sp). split; [| split].
    + destruct (timers s !! nextTimer sp) as [t |] eqn:Et; [| reflexivity].
      destruct Hi as [I1 _]. specialize (I1 _ _ Et). lia.
    + apply So; [exact Rt | lia |].
      intros Hh. specialize (Ip2 _ (Ha _ Hh)). lia.
    + intros h' [(t & Ht & Hbo) Hnew].
      assert (Hsa : timers sa !! h' = Some t).
      { destruct (To h' t Ht) as [H | (_ & u & d' & _ & ->)]; [exact H |].
        apply burstOf_burstTimer in Hbo as ->.
        destruct (K3 (username e) now1 Rc) as [_ K]; [apply Z.ltb_ge; lia |].
        now apply K. }
      destruct (Ru h' t Hsa) as [-> | Hsp]; [reflexivity |].
      destruct (Tp h' t Hsp) as [H | (_ & u & d' & Hu & ->)].
      * destruct Hnew. exists t. auto.
      * apply burstOf_burstTimer in Hbo as ->. contradiction. }
  destruct First as [Hrec1 Hone].
  split; [split; [exact Hrec1 | exact Hone] |]. split; [| split].
  - (* a second event within the cooldown *)
    intros now2 w2 s2 Hrec Hwin.
    destruct (tick_within (username e) now1 now2 w2 s2 Hrec Hwin) as [H1 H2].
    split; [exact H1 |]. intros h' [Hn Ho]. exact (Ho (H2 h' Hn)).
  - (* whatever happens within the cooldown *)
    intros evs Hw.
    destruct (run_within (username e) now1 evs _ Hrec1 Hw) as [H1 H2].
    split; [exact H1 |]. intros h' [Hn Ho]. exact (Ho (H2 h' Hn)).
  - (* the burst *)
    intros h d' c x envs Hc Hlen Ht.
    exact (burst_firings h (username e) d' envs c x Hc Hlen Ht).
Qed.

(** ** The handles in use have been issued *)

(** What is pending after insertions under the next handle and
    deletions was pending before or is under it; what a field holds is
    what it held, or the handle just taken. *)
Ltac issued_step s :=
  let I1 := fresh "I1" in
  let I2 := fresh "I2" in
  intros [I1 I2]; split;
  [ let h := fresh "h" in
    let t := fresh "t" in
    let Ht := fresh "Ht" in
    intros h t Ht; cbn in Ht |- *;
    repeat match type of Ht with
           | <[_ := _]> _ !! _ = Some _ =>
               apply lookup_insert_Some in Ht as [[<- _] | [_ Ht]]; [lia |]
           | delete _ _ !! _ = Some _ =>
               apply lookup_delete_Some in Ht as [_ Ht]
           end;
    specialize (I1 _ _ Ht); lia
  | let h := fresh "h" in
    let Hh := fresh "Hh" in
    intros h Hh; unfold heldHandle, tracked in Hh; cbn in Hh |- *;
    assert (forall k, heldHandle s k -> (k < nextTimer s)%nat) as J by exact I2;
    unfold heldHandle, tracked in J;
    decompose [or] Hh; clear Hh;
    match goal with
    | E : _ = Some h |- _ =>
        first [ discriminate E
              | injection E as <-; lia
              | specialize (J h); rewrite E in J;
                assert (h < nextTimer s)%nat by (apply J; tauto); lia
              | assert (h < nextTimer s)%nat by (apply J; tauto); lia ]
    end ].

Lemma setTimer_issued cb d rep s : issued s -> issued (setTimer cb d rep s).
Proof. unfold setTimer. issued_step s. Qed.

Lemma clearHandle_issued o s : issued s -> issued (clearHandle o s).
Proof. unfold clearHandle. destruct o; issued_step s. Qed.

Lemma clearTimer_issued h s : issued s -> issued (clearTimer h s).
Proof. unfold clearTimer. issued_step s. Qed.

Lemma startAntiAfk_issued s : issued s -> issued (startAntiAfk cfg s).
Proof. unfold startAntiAfk. issued_step s. Qed.

Lemma startProximityCheck_issued s : issued s -> issued (startProximityCheck s).
Proof. unfold startProximityCheck. issued_step s. Qed.

Lemma startAutoEat_issued s : issued s -> issued (startAutoEat s).
Proof. unfold startAutoEat. issued_step s. Qed.

Lemma scheduleCheckFood_issued d s : issued s -> issued (scheduleCheckFood d s).
Proof. unfold scheduleCheckFood. issued_step s. Qed.

Lemma startInventoryMonitor_issued s : issued s -> issued (startInventoryMonitor s).
Proof. unfold startInventoryMonitor, clearHandle. destruct (inventoryMonitorInterval s) eqn:E; issued_step s. Qed.

Lemma stopLobbyRetry_issued s : issued s -> issued (stopLobbyRetry s).
Proof. unfold stopLobbyRetry, clearHandle. destruct (lobbyRetryInterval s) eqn:E; issued_step s. Qed.

Lemma startLobbyRetry_issued s : issued s -> issued (startLobbyRetry s).
Proof.
  intros H. unfold startLobbyRetry. cbv zeta.
  apply stopLobbyRetry_issued in H. revert H.
  generalize (stopLobbyRetry s). intros x. issued_step x.
Qed.

Lemma scanned_keeps_issued s s' : scanned [] s s' -> issued s -> issued s'.
Proof. intros H Hi. exact (scanned_issued _ _ _ Hi H). Qed.

Lemma cleanup_issued s : issued s -> issued (cleanup s).
Proof. apply scanned_keeps_issued, cleanup_scanned. Qed.

Lemma stop_issued s : issued s -> issued (fst (stop s)).
Proof. apply scanned_keeps_issued, stop_scanned. Qed.

Lemma enterLobbyMode_issued s : issued s -> issued (enterLobbyMode s).
Proof.
  intros H. unfold enterLobbyMode. destruct (isInLobby s); [exact H |]. cbv zeta.
  apply startLobbyRetry_issued.
  assert (H1 : issued (set_antiAfkInterval None
                 (clearHandle (antiAfkInterval s)
                    (set_proximityInterval None (clearHandle (proximityInterval s) s))))).
  { revert H. unfold clearHandle.
    destruct (antiAfkInterval s) eqn:Ea, (proximityInterval s) eqn:Ep; issued_step s. }
  destruct (onLobbyDetected _); exact H1.
Qed.

Lemma armLoops_issued s :
  issued s ->
  issued (let s := if settings.antiAfkEnabled (config_settings cfg)
                   then startAntiAfk cfg s else s in
          if settings.proximityAlertEnabled (config_settings cfg)
          then startProximityCheck s else s).
Proof.
  intros H. cbv zeta.
  destruct (settings.antiAfkEnabled _), (settings.proximityAlertEnabled _);
    auto using startAntiAfk_issued, startProximityCheck_issued.
Qed.

Lemma exitLobbyMode_issued s : issued s -> issued (exitLobbyMode cfg s).
Proof.
  intros H. unfold exitLobbyMode. cbv zeta. apply armLoops_issued.
  apply stopLobbyRetry_issued in H.
  destruct (onLobbyDetected _); exact H.
Qed.

Lemma resumeProtection_issued k r w s :
  issued s -> issued (fst (resumeProtection distanceTo cfg k r w s)).
Proof.
  intros H. destruct k; cbn [resumeProtection].
  - destruct (bot s); [| exact H].
    eapply scanned_keeps_issued; [apply whileLoop_scanned | exact H].
  - destruct r; [| eapply scanned_keeps_issued; [apply forBlocks_scanned | exact H]].
    destruct (negb (bot s)); exact H.
  - destruct r; [| eapply scanned_keeps_issued; [apply forBlocks_scanned | exact H]].
    destruct (0 <? breakDelay cfg);
      [exact H | eapply scanned_keeps_issued; [apply forBlocks_scanned | exact H]].
  - eapply scanned_keeps_issued; [apply forBlocks_scanned | exact H].
  - eapply scanned_keeps_issued; [apply whileLoop_scanned | exact H].
Qed.

Lemma proximityTick_issued now w s :
  issued s -> issued (fst (proximityTick distanceTo cfg now w s)).
Proof.
  intros H. unfold proximityTick. destruct (_ || _); [exact H |].
  exact (scanned_issued _ _ _ H (scanEntities_scanned now w (entities w) s)).
Qed.

Lemma onLogin_issued now s : issued s -> issued (onLogin cfg now s).
Proof.
  intros H. unfold onLogin. cbv zeta.
  split_if; [repeat break_match; exact H |].
  apply startInventoryMonitor_issued, startAutoEat_issued.
  assert (Hc : forall x : @State Vec3, issued x ->
             issued (if onConnect x then emit connected x else x))
    by (intros x Hx; destruct (onConnect x); exact Hx).
  apply Hc, armLoops_issued.
  repeat break_match; exact H.
Qed.

Lemma onSpawn_issued w s : issued s -> issued (onSpawn distanceTo cfg w s).
Proof.
  intros H. unfold onSpawn.
  destruct (negb (bot s)); [exact H |].
  set (s0 := emit _ s). assert (H0 : issued s0) by exact H.
  destruct (match lastPosition s0 with Some _ => _ | None => _ end).
  { now apply enterLobbyMode_issued. }
  set (s1 := match lastPosition s0 with Some _ => _ | None => _ end).
  assert (H1 : issued s1).
  { subst s1. destruct (lastPosition s0); [| exact H0].
    destruct (entity w); [| exact H0].
    destruct (_ && _); [now apply exitLobbyMode_issued | exact H0]. }
  destruct (entity w); [| exact H1].
  destruct (negb _); exact H1.
Qed.

Lemma handleReconnect_issued s : issued s -> issued (handleReconnect cfg s).
Proof.
  unfold handleReconnect.
  destruct (isManuallyStopped s); [exact id |].
  destruct (attemptsExhausted cfg s); [exact id |].
  cbv zeta. issued_step s.
Qed.

Lemma onEnd_issued now s : issued s -> issued (onEnd cfg now s).
Proof.
  intros H. rewrite onEnd_ended.
  assert (He : issued (ended now s)).
  { unfold ended. apply cleanup_issued. repeat break_match; exact H. }
  destruct (_ && _); [now apply handleReconnect_issued | exact He].
Qed.

Lemma start_issued c s : issued s -> issued (fst (start c s)).
Proof. intros H. unfold start. repeat break_match; exact H. Qed.

Lemma checkFood_issued w s : issued s -> issued (fst (checkFood w s)).
Proof.
  intros H. unfold checkFood.
  repeat break_match; cbn [fst];
    first [now apply scheduleCheckFood_issued | exact H].
Qed.

Lemma checkFoodSettled_issued r s : issued s -> issued (checkFoodSettled r s).
Proof.
  intros H. unfold checkFoodSettled.
  repeat break_match; apply scheduleCheckFood_issued; exact H.
Qed.

Lemma fire_issued env h s : issued s -> issued (fst (fire distanceTo cfg env h s)).
Proof.
  intros H. unfold fire.
  destruct (timers s !! h) as [t |] eqn:Et; [| exact H].
  assert (Hh : (h < nextTimer s)%nat) by (destruct H as [I1 _]; exact (I1 _ _ Et)).
  set (s0 := if repeats t then s else clearTimer h s).
  assert (H0 : issued s0)
    by (subst s0; destruct (repeats t); [exact H | now apply clearTimer_issued]).
  assert (Hh0 : (h < nextTimer s0)%nat)
    by (subst s0; destruct (repeats t); exact Hh).
  destruct (callback t); cbn [fst].
  - unfold antiAfkTick. destruct (_ && _); [| exact H0].
    apply setTimer_issued. exact H0.
  - unfold jumpRelease. destruct (bot s0); exact H0.
  - now apply checkFood_issued.
  - now apply proximityTick_issued.
  - revert H0. unfold alertLoop, clearTimer. cbv zeta.
    repeat break_match; issued_step s0.
  - unfold lobbyFirstTry. destruct (_ && _); exact H0.
  - unfold lobbyRetry. destruct (_ || _); [now apply stopLobbyRetry_issued | exact H0].
  - exact H0.
  - unfold reconnectFire. destruct (negb _); [now apply start_issued | exact H0].
  - unfold restartFire. now apply start_issued.
  - unfold teleportAway. destruct (entity _); [| exact H0].
    destruct (lastPosition s0); [| exact H0].
    destruct (_ && _); [now apply enterLobbyMode_issued | exact H0].
  - unfold teleportBack. destruct (entity _); [| exact H0].
    destruct (lastPosition s0); [| exact H0].
    destruct (_ && _); [now apply exitLobbyMode_issued | exact H0].
Qed.

Lemma step_issued env ev s : issued s -> issued (fst (step distanceTo cfg env ev s)).
Proof.
  intros H. destruct ev; cbn [step fst].
  - now apply onLogin_issued.
  - now apply onSpawn_issued.
  - now apply onEnd_issued.
  - unfold onKicked. repeat break_match; exact H.
  - exact H.
  - unfold onMessagestr. repeat break_match;
      first [apply setTimer_issued; exact H | exact H].
  - now apply start_issued.
  - now apply stop_issued.
  - unfold pause. repeat break_match; exact H.
  - unfold resume. repeat break_match; exact H.
  - unfold restart. cbn [fst]. apply setTimer_issued. now apply stop_issued.
  - unfold toggleProtection. repeat break_match; exact H.
  - now apply fire_issued.
  - destruct t; cbn [settle].
    + pose proof (resumeProtection_issued k r (world env) s H) as Hr.
      destruct (resumeProtection distanceTo cfg k r (world env) s) as [s' c].
      destruct c; exact Hr.
    + now apply checkFoodSettled_issued.
Qed.

(** Every state of a slot that was constructed and then driven by events
    has its handles issued. *)
Lemma run_issued evs : forall s, issued s -> issued (run distanceTo cfg evs s).
Proof.
  induction evs as [| [env ev] rest IH]; intros s H; cbn [run]; [exact H |].
  apply IH. now apply step_issued.
Qed.

Lemma constructor_issued now : issued (constructor cfg now : @State Vec3).
Proof.
  split.
  - intros h t Ht. cbn in Ht. rewrite lookup_empty in Ht. discriminate Ht.
  - intros h [H | H]; [| discriminate H].
    unfold tracked in H. cbn in H. decompose [or] H; discriminate.
Qed.

(** ** The earlier revisions *)

(** In the earlier revisions [stop()] without a client handle changes
    nothing and returns [false]: a phase other than [offline] stays. *)
Lemma earlier_stop_without_handle s :
  bot s = false -> Earlier.stop s = (s, false).
Proof. intros Hb. unfold Earlier.stop. now rewrite Hb. Qed.

(** In the earliest revision the emergency rule needs protection to be
    enabled in the configuration. *)
Lemma earliest_emergency_needs_protection p d :
  settings.protection (config_settings cfg) = Some p ->
  protection.enabled p = false ->
  Earlier.emergencyTest cfg d = false.
Proof.
  intros Hp He. unfold Earlier.emergencyTest. rewrite Hp, He.
  apply andb_false_r.
Qed.

End Properties.

(** * Runs of the concrete slot *)

Import Example.

(** C3, the scenario as the specification words it, fails: with at most
    three attempts, the third disconnect in a row leaves the phase
    [offline], not [failed], and the third attempt pending (handle 6). *)
Lemma three_disconnects_not_failed :
  let s3 := run distanceTo cfg threeDisconnects loggedIn in
  settings.maxReconnectAttempts (config_settings cfg) = Some 3
  /\ status s3 <> failed
  /\ status s3 = offline
  /\ reconnectAttempts s3 = 3
  /\ reconnectTimeout s3 = Some 6%nat
  /\ timers s3 !! 6%nat = Some (mkTimer cbReconnect 5000 false).
Proof.
  cbv zeta. split; [reflexivity |]. split; [vm_compute; discriminate |].
  repeat split; vm_compute; reflexivity.
Qed.

Lemma reconnect_scheduling_witness :
  (settings.autoReconnect (config_settings cfg) = true
   /\ isPaused loggedIn = false /\ isManuallyStopped loggedIn = false
   /\ attemptsExhausted cfg loggedIn = false
   /\ settings.maxReconnectAttempts (config_settings cfg) = Some 3
   /\ reconnectAttempts loggedIn = 0)
  /\ (let s' := onEnd cfg 2000 loggedIn in
      status s' = offline /\ reconnectAttempts s' = reconnectAttempts loggedIn + 1
      /\ reconnectTimeout s' = Some (nextTimer loggedIn)
      /\ timers s' !! nextTimer loggedIn
         = Some (mkTimer cbReconnect (flatDelay cfg loggedIn) false))
  /\ (let s3 := onEnd cfg (now (at_ 14000))
                  (disconnectThenRetry distanceTo cfg (at_ 8000)
                     (disconnectThenRetry distanceTo cfg (at_ 2000) loggedIn)) in
      let r3 := retry distanceTo cfg (at_ 14000) s3 in
      let s4 := onEnd cfg (now (at_ 20000)) r3 in
      status s3 = offline /\ reconnectAttempts s3 = 3
      /\ status s4 = failed /\ reconnectAttempts s4 = 3
      /\ nothingScheduled r3 s4).
Proof.
  split; [repeat split; reflexivity |].
  destruct (reconnect_scheduling distanceTo cfg loggedIn eq_refl eq_refl eq_refl)
    as (H1 & _ & H3).
  split.
  - destruct (H1 2000) as [_ H]. exact (H eq_refl).
  - destruct (H3 eq_refl eq_refl (at_ 2000) (at_ 8000) (at_ 14000) (at_ 20000)
                 eq_refl eq_refl eq_refl) as ((Ha & Hb & _) & Hc & Hd & He).
    cbv zeta. exact (conj Ha (conj Hb (conj Hc (conj Hd He)))).
Defined.


Lemma lobby_mode_witness :
  (bot atHome = true /\ isInLobby atHome = false
   /\ lastPosition atHome = Some 0
   /\ entity farWorld = Some 1000 /\ (200 < distanceTo 0 1000)%Q
   /\ entity nearWorld = Some 10 /\ (distanceTo 0 10 < 50)%Q)
  /\ (let s1 := onSpawn distanceTo cfg farWorld atHome in
      isInLobby s1 = true
      /\ antiAfkInterval s1 = None /\ proximityInterval s1 = None
      /\ isInLobby (onSpawn distanceTo cfg nearWorld s1) = false).
Proof.
  split; [repeat split; reflexivity |].
  destruct (lobby_mode distanceTo cfg farWorld nearWorld atHome 0 1000 10
              eq_refl eq_refl eq_refl eq_refl eq_refl)
    as ((H1 & H2 & H3 & _) & H).
  destruct (H eq_refl eq_refl) as (H4 & _).
  exact (conj H1 (conj H2 (conj H3 H4))).
Defined.

(** C8 fails on the code. A second [login] event arrives on the
    connection of the slot at home: the handler arms the two loops again
    and overwrites their handles without clearing the intervals they held
    (handles 0 and 1). The spawn 1000 blocks away enters lobby mode and
    cancels the intervals whose handles the slot holds; those of the first
    login stay pending. In lobby mode the idle tick still presses jump,
    and after the return home two intervals of each kind are pending. *)
Lemma lobby_mode_leaves_loops :
  let s1 := onSpawn distanceTo cfg farWorld loggedInAgain in
  let s2 := fst (fire distanceTo cfg (seeing 30000 farWorld) 0%nat s1) in
  let s3 := onSpawn distanceTo cfg nearWorld s1 in
  (bot loggedInAgain = true /\ status loggedInAgain = online
   /\ isInLobby loggedInAgain = false /\ lastPosition loggedInAgain = Some 0
   /\ entity farWorld = Some 1000 /\ (200 < distanceTo 0 1000)%Q
   /\ entity nearWorld = Some 10 /\ (distanceTo 0 10 < 50)%Q)
  /\ (isInLobby s1 = true
      /\ antiAfkInterval s1 = None /\ proximityInterval s1 = None
      /\ timers s1 !! 0%nat = Some (mkTimer cbAntiAfk 30000 true)
      /\ timers s1 !! 1%nat = Some (mkTimer cbProximity 1000 true))
  /\ trace s2 = trace s1 ++ [setControlState "jump" true]
  /\ (isInLobby s3 = false
      /\ timers s3 !! 0%nat = Some (mkTimer cbAntiAfk 30000 true)
      /\ timers s3 !! 10%nat = Some (mkTimer cbAntiAfk 30000 true)
      /\ timers s3 !! 1%nat = Some (mkTimer cbProximity 1000 true)
      /\ timers s3 !! 11%nat = Some (mkTimer cbProximity 1000 true)).
Proof. cbv zeta. repeat split; vm_compute; reflexivity. Qed.

Lemma loopsHeld_atHome : loopsHeld atHome.
Proof.
  intros h t Ht.
  apply (map_Forall_lookup_1
           (fun h t => (callback t = cbAntiAfk -> antiAfkInterval atHome = Some h)
                       /\ (callback t = cbProximity
                           -> proximityInterval atHome = Some h))
           (timers atHome) h t); [| exact Ht].
  clear h t Ht. apply map_Forall_to_list. vm_compute.
  repeat constructor; cbn; intros; first [discriminate | reflexivity].
Qed.

(** On the slot after a single login the far spawn does cancel both
    loops. *)
Lemma lobby_mode_suspends_at_home :
  loopsSuspended (onSpawn distanceTo cfg farWorld atHome)
  /\ loopsHeld (onSpawn distanceTo cfg nearWorld
                  (onSpawn distanceTo cfg farWorld atHome)).
Proof.
  destruct (lobby_mode_suspends distanceTo cfg farWorld nearWorld atHome 0 1000 10
              eq_refl eq_refl eq_refl eq_refl eq_refl loopsHeld_atHome) as [H1 H2].
  split; [exact H1 | exact (H2 eq_refl eq_refl)].
Qed.

Lemma issued_atHome : issued atHome.
Proof.
  split.
  - intros h t Ht.
    apply (map_Forall_lookup_1 (fun h _ => (h < nextTimer atHome)%nat)
             (timers atHome) h t); [| exact Ht].
    apply (bool_decide_unpack _). vm_compute. exact I.
  - intros h [H | H]; [| discriminate H].
    unfold tracked in H. vm_compute in H. vm_compute.
    decompose [or] H; clear H;
      match goal with E : _ = _ |- _ => try discriminate E; injection E as <- end;
      lia.
Qed.

Lemma alert_cooldown_witness :
  let s1 := fst (proximityTick distanceTo cfg 400000 steveWorld atHome) in
  alertEvent distanceTo cfg steveWorld atHome steve (inject_Z 50)
  /\ alertCooldowns s1 !! "Steve" = Some 400000
  /\ timers s1 !! 4%nat = Some (burstTimer "Steve" (inject_Z 50))
  /\ (forall h, newBurst "Steve" atHome s1 h -> h = 4%nat)
  /\ (forall h, ~ newBurst "Steve" s1
                  (fst (proximityTick distanceTo cfg 401000 steveWorld s1)) h)
  /\ (forall h, ~ newBurst "Steve" s1 (run distanceTo cfg afterAlert s1) h)
  /\ trace (run distanceTo cfg (firings 4%nat (fiveSeconds 400000)) s1)
     = trace s1 ++ replicate 5 (proximityAlert "Steve" (inject_Z 50)).
Proof.
  cbv zeta.
  assert (E : alertEvent distanceTo cfg steveWorld atHome steve (inject_Z 50))
    by (repeat split; vm_compute; reflexivity).
  assert (W : withinCooldown cfg 400000 afterAlert)
    by (repeat constructor; vm_compute; discriminate).
  destruct (alert_cooldown distanceTo cfg 400000 steveWorld atHome [self] steve []
              (inject_Z 50) issued_atHome ltac:(vm_compute; discriminate)
              ltac:(repeat split; reflexivity) eq_refl eq_refl
              ltac:(repeat constructor; discriminate) E
              ltac:(vm_compute; reflexivity))
    as ((H1 & h & Hn & Hh & Hu) & H2 & H3 & H4).
  assert (Eh : h = 4%nat).
  { symmetry. apply Hu. split.
    - exists (burstTimer "Steve" (inject_Z 50)). split; vm_compute; reflexivity.
    - intros (t & Ht & _). vm_compute in Ht. discriminate Ht. }
  subst h.
  split; [exact E |]. split; [exact H1 |]. split; [exact Hh |].
  split; [exact Hu |].
  split; [exact (proj2 (H2 401000 steveWorld _ H1 ltac:(vm_compute; discriminate))) |].
  split; [exact (proj2 (H3 afterAlert W)) |].
  destruct (H4 4%nat (inject_Z 50) 0 _ (fiveSeconds 400000)
              ltac:(lia) ltac:(vm_compute; discriminate) Hh) as [T _].
  exact T.
Defined.

(** C7 as the specification words it promises a fixed count of
    notifications, and fails there. Protection is enabled. Steve is seen
    at 50 blocks, twice within the cooldown: the first scan starts the
    one burst (and the protection sequence, which waits for the pickaxe),
    the second starts nothing. The burst has fired once when the sequence
    finds no spawner to break and stops the slot; its four other firings
    find the client handle gone. The burst of five has made one
    notification. With no pickaxe to wait for, the sequence stops the
    slot inside the first scan, before the burst is started: the burst
    makes no notification at all. *)
Lemma alert_burst_cut_short :
  let s1 := fst (proximityTick distanceTo cfg 400000 clearedWorld atHome) in
  let s2 := run distanceTo cfg secondSighting s1 in
  let s3 := run distanceTo cfg retreat s2 in
  let q1 := fst (proximityTick distanceTo cfg 400000 emptyHandedWorld atHome) in
  let q2 := run distanceTo cfg (firings 4%nat (fiveSeconds 400000)) q1 in
  (scanning atHome /\ protectionEnabled atHome = true
   /\ onProximityAlert atHome = true
   /\ alertEvent distanceTo cfg clearedWorld atHome steve (inject_Z 50)
   /\ cooldown cfg < 400000 - orZ (alertCooldowns atHome !! "Steve") 0
   /\ alertEvent distanceTo cfg clearedWorld s1 steve (inject_Z 50)
   /\ 401000 - 400000 <= cooldown cfg)
  /\ (alertCooldowns s1 !! "Steve" = Some 400000
      /\ timers s1 !! 4%nat = Some (burstTimer "Steve" (inject_Z 50))
      /\ nextTimer s1 = 5%nat)
  /\ (nextTimer s2 = 5%nat
      /\ trace s2 = trace s1 ++ [proximityAlert "Steve" (inject_Z 50)])
  /\ (trace s3 = trace s2 ++ [sneakOn; sneakOff; quit]
      /\ bot s3 = false /\ timers s3 !! 4%nat = None)
  /\ (alertEvent distanceTo cfg emptyHandedWorld atHome steve (inject_Z 50)
      /\ timers q1 !! 4%nat = Some (burstTimer "Steve" (inject_Z 50))
      /\ trace q1 = trace atHome ++ [sneakOn; sneakOff; quit]
      /\ bot q1 = false
      /\ trace q2 = trace q1 /\ timers q2 !! 4%nat = None).
Proof.
  cbv zeta. split; [| split; [| split; [| split]]].
  - split; [repeat split; reflexivity |]. split; [reflexivity |].
    split; [reflexivity |].
    split; [repeat split; vm_compute; reflexivity |].
    split; [vm_compute; reflexivity |].
    split; [repeat split; vm_compute; reflexivity | vm_compute; discriminate].
  - repeat split; vm_compute; reflexivity.
  - split; vm_compute; reflexivity.
  - repeat split; vm_compute; reflexivity.
  - split; [repeat split; vm_compute; reflexivity |].
    repeat split; vm_compute; reflexivity.
Qed.

Lemma no_reconnect_after_stop_witness :
  let s0 := fst (stop dropped) in
  let s' := run distanceTo cfg afterStop s0 in
  (reconnectTimeout dropped = Some 4%nat
   /\ noOperatorStart distanceTo cfg afterStop s0)
  /\ timers s0 !! 4%nat = None
  /\ isManuallyStopped s' = true /\ reconnectTimeout s' = None
  /\ starts s' = starts s0.
Proof.
  cbv zeta.
  assert (N : noOperatorStart distanceTo cfg afterStop (fst (stop dropped)))
    by (vm_compute; repeat split).
  destruct (no_reconnect_after_stop distanceTo cfg dropped afterStop N)
    as ((_ & _ & Hc) & Hm & Hr & Hs & _).
  split; [split; [reflexivity | exact N] |].
  split; [exact (Hc 4%nat eq_refl) |].
  exact (conj Hm (conj Hr Hs)).
Defined.

(** C2 fails on the code. The operator restarts the slot and stops it
    half a second later. After the [stop()] the manual-stop flag is set
    and no reconnection handle is held, but the timeout that [restart()]
    has set is still pending: [restart()] keeps no handle for it, and
    [stop()] clears [reconnectTimeout] only. No start or restart command
    follows. When the timeout fires, [start()] runs without a test of the
    flag: it opens a connection and clears the flag. The [end] event of
    that connection schedules a reconnection, which opens the next
    connection when it fires. *)
Lemma restart_outlives_stop :
  let s1 := run distanceTo cfg [(at_ 4000, evTimer 4%nat)] restartStopped in
  let s2 := run distanceTo cfg [(at_ 4500, evLogin); (at_ 9000, evEnd)] s1 in
  let s3 := run distanceTo cfg afterRestartStop restartStopped in
  (isManuallyStopped restartStopped = true /\ bot restartStopped = false
   /\ reconnectTimeout restartStopped = None
   /\ timers restartStopped !! 4%nat = Some (mkTimer cbRestart 2000 false)
   /\ forallb (fun p => negb (isStartCommand (snd p))) afterRestartStop = true)
  /\ (starts s1 = S (starts restartStopped) /\ bot s1 = true
      /\ isManuallyStopped s1 = false)
  /\ (reconnectTimeout s2 = Some 9%nat
      /\ timers s2 !! 9%nat = Some (mkTimer cbReconnect 5000 false))
  /\ (starts s3 = S (S (starts restartStopped)) /\ bot s3 = true
      /\ isManuallyStopped s3 = false).
Proof. cbv zeta. repeat split; vm_compute; reflexivity. Qed.

(** C6 fails on the code. The connection ends while the first spawner is
    being dug, and the [end] handler schedules a reconnection. When the
    dig promise settles, the sequence finds the client handle gone at the
    head of the next iteration of the block loop and returns: the sneak
    control is not released and [stop()] is not called. The manual-stop
    flag stays clear and the reconnection stays pending; 5 s later it
    fires and the slot logs in again. Had the loss been found at the head
    of the [while] loop instead (after the pause that follows the last
    block of a batch), the code after the loop would have called
    [stop()]: the flag set, the reconnection cancelled, and nothing left
    to fire. *)
Lemma protection_exit_without_stop :
  let r := protectionStep distanceTo cfg (Some (awDig 7 spawner [8] 0))
             (Rejected "socket closed") spawnerWorld lostWhileDigging in
  let back := run distanceTo cfg
                [(at_ 405300, evTimer 5%nat); (at_ 406000, evLogin)] (fst r) in
  let r' := protectionStep distanceTo cfg (Some (awRescan 1))
              Resolved spawnerWorld lostWhileDigging in
  (bot lostWhileDigging = false /\ _protectionRunning lostWhileDigging = true
   /\ isManuallyStopped lostWhileDigging = false
   /\ reconnectTimeout lostWhileDigging = Some 5%nat
   /\ timers lostWhileDigging !! 5%nat = Some (mkTimer cbReconnect 5000 false))
  /\ (snd r = Returned exitBotGone
      /\ trace (fst r) = trace lostWhileDigging
      /\ ~ In sneakOff (trace (fst r))
      /\ isManuallyStopped (fst r) = false
      /\ timers (fst r) !! 5%nat = Some (mkTimer cbReconnect 5000 false))
  /\ (status back = online /\ bot back = true
      /\ starts back = S (starts lostWhileDigging))
  /\ (snd r' = Returned exitLoopDone
      /\ isManuallyStopped (fst r') = true
      /\ timers (fst r') !! 5%nat = None
      /\ run distanceTo cfg [(at_ 405300, evTimer 5%nat)] (fst r') = fst r').
Proof.
  cbv zeta. split; [repeat split; vm_compute; reflexivity |].
  split; [| split].
  - split; [vm_compute; reflexivity |]. split; [vm_compute; reflexivity |].
    split; [vm_compute; intuition discriminate |].
    split; vm_compute; reflexivity.
  - repeat split; vm_compute; reflexivity.
  - split; [vm_compute; reflexivity |]. split; [vm_compute; reflexivity |].
    split; [vm_compute; reflexivity | reflexivity].
Qed.

Lemma protection_exit_witness :
  let r := protectionStep distanceTo cfg (Some awEquip) Resolved
             clearedWorld equipping in
  bot equipping = true
  /\ r = (fst r, Returned exitLoopDone)
  /\ stopped (fst r) /\ _protectionRunning (fst r) = false
  /\ (trace (fst r) = trace equipping ++ [sneakOff; quit]
      \/ trace (fst r) = trace equipping ++ [sneakOn; sneakOff; quit]).
Proof.
  cbv zeta.
  assert (H : protectionStep distanceTo cfg (Some awEquip) Resolved
                clearedWorld equipping
              = (fst (protectionStep distanceTo cfg (Some awEquip) Resolved
                        clearedWorld equipping), Returned exitLoopDone))
    by (vm_compute; reflexivity).
  pose proof (protection_exit distanceTo cfg _ _ _ _ _ _ H) as P.
  cbv beta iota in P.
  replace (bot equipping) with true in P by (vm_compute; reflexivity).
  split; [vm_compute; reflexivity |].
  split; [exact H |]. exact P.
Defined.

(** C5 fails on the code. The connection ends while the pickaxe is being
    equipped; when the equip promise settles, the sequence runs
    [this.bot.setControlState] on a null handle and ends with a
    [TypeError], the guard still set. After the slot has reconnected, a
    scan that sees Steve again (the cooldown long elapsed) raises the
    alert, but [executeProtection] returns at its guard: no pickaxe is
    equipped and no sequence is left running. *)
Lemma protection_guard_stuck :
  let r := protectionStep distanceTo cfg (Some awEquip)
             (Rejected "socket closed") spawnerWorld lostWhileEquipping in
  let s2 := run distanceTo cfg backOnline (fst r) in
  let t := step distanceTo cfg (seeing 800000 spawnerWorld) (evTimer 7%nat) s2 in
  (snd (step distanceTo cfg (seeing 400000 spawnerWorld) (evTimer 1%nat) atHome)
   = [protectionTask awEquip]
   /\ _protectionRunning equipping = true /\ bot lostWhileEquipping = false)
  /\ (snd r = Threw /\ uncaught (fst r) = 1%nat
      /\ _protectionRunning (fst r) = true)
  /\ (status s2 = online /\ bot s2 = true /\ protectionEnabled s2 = true
      /\ _protectionRunning s2 = true
      /\ executeProtection distanceTo cfg spawnerWorld s2 = (s2, Returned exitGuard))
  /\ (snd t = []
      /\ trace (fst t) = trace s2
      /\ timers (fst t) !! 10%nat = Some (burstTimer "Steve" (inject_Z 50))).
Proof.
  cbv zeta. repeat split; vm_compute; reflexivity.
Qed.

(** C1 fails on the code. The slot is online, with protection enabled and
    no pickaxe; the scan visits Steve, 50 blocks away, before Eve, 5
    blocks away. Steve's alert calls [executeProtection], which has no
    [await] to stop at before its own emergency check: it sees Eve and
    calls [stop()]. Back in the scan, the next iteration reads
    [this.bot.entities] on the null handle and throws: Eve is never
    reported. With protection switched off, or with a pickaxe to equip,
    the same scan reports Eve and stops. *)
Lemma emergency_scan_cut_short :
  (bot atHome = true /\ status atHome = online /\ isPaused atHome = false
   /\ isInLobby atHome = false /\ onProximityAlert atHome = true
   /\ protectionEnabled atHome = true /\ protectionEnabled unprotected = false
   /\ isThreat distanceTo cfg bareHandsWorld atHome eve = true)
  /\ (let s' := fst (proximityTick distanceTo cfg 400000 bareHandsWorld atHome) in
      trace s' = trace atHome ++ [sneakOn; quit]
      /\ uncaught s' = 1%nat
      /\ ~ In (proximityAlert "Eve" (inject_Z 5)) (trace s'))
  /\ (let s' := fst (proximityTick distanceTo cfg 400000 bareHandsWorld unprotected) in
      trace s' = trace unprotected ++ [proximityAlert "Eve" (inject_Z 5); quit]
      /\ uncaught s' = 0%nat)
  /\ (let s' := fst (proximityTick distanceTo cfg 400000 eveWorld atHome) in
      trace s' = trace atHome
                 ++ [equip pickaxe; proximityAlert "Eve" (inject_Z 5); quit]
      /\ uncaught s' = 0%nat).
Proof.
  split; [repeat split; vm_compute; reflexivity |].
  split; [| split]; cbv zeta.
  - split; [vm_compute; reflexivity |]. split; [vm_compute; reflexivity |].
    vm_compute. intuition discriminate.
  - split; vm_compute; reflexivity.
  - split; vm_compute; reflexivity.
Qed.

(** * The command layer's view of a slot *)

(** ** formatDuration *)

Lemma rem_nonneg a b : 0 <= a -> 0 < b -> Z.rem a b = a mod b.
Proof. intros. apply Z.rem_mod_nonneg; lia. Qed.

(** X1. For a duration that is not negative (and below 2^53, as a
    difference of two clock readings is) the text shows at most the two
    or three largest units, each below its carry (hours below 24, minutes
    and seconds below 60), and what it shows is the duration cut down to
    the smallest unit shown, never rounded up. *)
Theorem formatDuration_truncates (ms : Z) :
  0 <= ms < 9007199254740992 ->
  (exists d h m,
      formatDuration ms
      = pretty d +:+ "g " +:+ pretty h +:+ "s " +:+ pretty m +:+ "dk"
      /\ 0 < d /\ 0 <= h < 24 /\ 0 <= m < 60
      /\ ((d * 24 + h) * 60 + m) * 60000 <= ms
         < ((d * 24 + h) * 60 + m + 1) * 60000)
  \/ (exists h m,
         formatDuration ms = pretty h +:+ "s " +:+ pretty m +:+ "dk"
         /\ 0 < h < 24 /\ 0 <= m < 60
         /\ (h * 60 + m) * 60000 <= ms < (h * 60 + m + 1) * 60000)
  \/ (exists m sec,
         formatDuration ms = pretty m +:+ "dk " +:+ pretty sec +:+ "sn"
         /\ 0 < m < 60 /\ 0 <= sec < 60
         /\ (m * 60 + sec) * 1000 <= ms < (m * 60 + sec + 1) * 1000)
  \/ (exists sec,
         formatDuration ms = pretty sec +:+ "sn"
         /\ 0 <= sec < 60 /\ sec * 1000 <= ms < (sec + 1) * 1000).
Proof.
  intros [Hms _]. unfold formatDuration. cbv zeta.
  set (seconds := ms / 1000).
  set (minutes := seconds / 60).
  set (hours := minutes / 60).
  set (days := hours / 24).
  assert (Hs : 0 <= seconds) by (apply Z.div_pos; lia).
  assert (Hm : 0 <= minutes) by (apply Z.div_pos; lia).
  assert (Hh : 0 <= hours) by (apply Z.div_pos; lia).
  assert (Es : seconds * 1000 <= ms < (seconds + 1) * 1000)
    by (subst seconds; pose proof (Z.div_mod ms 1000 ltac:(lia));
        pose proof (Z.mod_pos_bound ms 1000 ltac:(lia)); lia).
  assert (Em : minutes * 60 <= seconds < (minutes + 1) * 60)
    by (subst minutes; pose proof (Z.div_mod seconds 60 ltac:(lia));
        pose proof (Z.mod_pos_bound seconds 60 ltac:(lia)); lia).
  assert (Eh : hours * 60 <= minutes < (hours + 1) * 60)
    by (subst hours; pose proof (Z.div_mod minutes 60 ltac:(lia));
        pose proof (Z.mod_pos_bound minutes 60 ltac:(lia)); lia).
  assert (Ed : days * 24 <= hours < (days + 1) * 24)
    by (subst days; pose proof (Z.div_mod hours 24 ltac:(lia));
        pose proof (Z.mod_pos_bound hours 24 ltac:(lia)); lia).
  rewrite !rem_nonneg by lia.
  pose proof (Z.mod_pos_bound hours 24 ltac:(lia)) as Bh.
  pose proof (Z.mod_pos_bound minutes 60 ltac:(lia)) as Bm.
  pose proof (Z.mod_pos_bound seconds 60 ltac:(lia)) as Bs.
  pose proof (Z.div_mod hours 24 ltac:(lia)) as Dh. fold days in Dh.
  pose proof (Z.div_mod minutes 60 ltac:(lia)) as Dm. fold hours in Dm.
  pose proof (Z.div_mod seconds 60 ltac:(lia)) as Ds. fold minutes in Ds.
  destruct (0 <? days) eqn:Cd; [apply Z.ltb_lt in Cd | apply Z.ltb_ge in Cd].
  { left. exists days, (hours mod 24), (minutes mod 60).
    split; [reflexivity |]. repeat split; try lia. }
  destruct (0 <? hours) eqn:Ch; [apply Z.ltb_lt in Ch | apply Z.ltb_ge in Ch].
  { right; left. exists hours, (minutes mod 60).
    split; [reflexivity |]. repeat split; try lia. }
  destruct (0 <? minutes) eqn:Cm; [apply Z.ltb_lt in Cm | apply Z.ltb_ge in Cm].
  { right; right; left. exists minutes, (seconds mod 60).
    split; [reflexivity |]. repeat split; try lia. }
  right; right; right. exists seconds.
  split; [reflexivity |]. repeat split; try lia.
Qed.

Section Coverage.

Context {Vec3 : Type}.
Variable distanceTo : Vec3 -> Vec3 -> Q.
Variable cfg : Config.

Implicit Types (s : @State Vec3) (w : @World Vec3).

(** Reduces what an [if] of the goal inspects and splits on it. *)
Ltac case_if :=
  match goal with
  | |- context [if ?c then _ else _] =>
      let c' := eval cbn in c in
      change c with c'; destruct c' eqn:?
  end.

(** ** Statistics *)

Lemma handleReconnect_stats s : stats (handleReconnect cfg s) = stats s.
Proof. unfold handleReconnect. repeat case_if; reflexivity. Qed.

Lemma onEnd_stats now s :
  stats (onEnd cfg now s)
  = let st := set_lastDisconnect (Some now) (stats s) in
    if truthyZ (connectedAt (stats s))
    then set_connectedAt None
           (set_totalUptime
              (totalUptime (stats s) + (now - default 0 (connectedAt (stats s)))) st)
    else st.
Proof.
  unfold onEnd. cbv zeta.
  match goal with
  | |- stats (if ?c then _ else _) = _ =>
      destruct c; [rewrite handleReconnect_stats |]
  end; cbn; destruct (truthyZ _); reflexivity.
Qed.

(** X2. The uptime reported after a disconnect is frozen: whenever
    [getStats] is called after the [end] handler has run, it reports the
    uptime that a call at the moment of the disconnect would have
    reported, and the disconnect itself is on record. *)
Theorem uptime_frozen_at_disconnect now later s :
  let report := getStats cfg later (onEnd cfg now s) in
  StatsReport.uptime report = StatsReport.uptime (getStats cfg now s)
  /\ StatsReport.lastDisconnect report = Some now.
Proof.
  cbv zeta. unfold getStats. cbn. rewrite onEnd_stats. cbv zeta.
  destruct (truthyZ (connectedAt (stats s))) eqn:E; cbn; rewrite ?E;
    split; reflexivity.
Qed.

Lemma onLogin_stats now s :
  stats (onLogin cfg now s)
  = let st := set_connectedAt (Some now) (stats s) in
    if 0 <? reconnectAttempts s
    then set_reconnects (reconnects (stats s) + 1) st else st.
Proof.
  unfold onLogin. cbv zeta. cbn.
  destruct (0 <? reconnectAttempts s); cbn;
    destruct (bot s); cbn; repeat case_if; reflexivity.
Qed.

(** X3. One session in the statistics: a login at [t1] followed by the
    end of the connection at [t2] adds [t2 - t1] to the total uptime,
    whatever was recorded as the start of a session before, and counts
    one reconnect exactly when the login followed a reconnection
    attempt. *)
Theorem session_accounting t1 t2 later s :
  t1 <> 0 ->
  let report := getStats cfg later (onEnd cfg t2 (onLogin cfg t1 s)) in
  StatsReport.uptime report = totalUptime (stats s) + (t2 - t1)
  /\ StatsReport.reconnects report
     = reconnects (stats s) + (if 0 <? reconnectAttempts s then 1 else 0).
Proof.
  intros Ht. cbv zeta. unfold getStats. cbn.
  rewrite onEnd_stats, onLogin_stats. cbv zeta.
  assert (E : (t1 =? 0) = false) by (apply Z.eqb_neq; exact Ht).
  destruct (0 <? reconnectAttempts s); cbn; rewrite E; cbn;
    split; reflexivity || lia.
Qed.

(** ** Commands on a slot that is not ready *)

Lemma not_ready_refuses s :
  bot s && Status_eqb (status s) online = false -> refusesCommands s.
Proof.
  intros H.
  assert (E : negb (bot s) || negb (Status_eqb (status s) online) = true)
    by (destruct (bot s), (Status_eqb (status s) online); cbn in *; congruence).
  repeat split; intros.
  - unfold sendChat. now rewrite E.
  - unfold move. now rewrite E.
  - unfold getInventory. now rewrite E.
  - unfold dropItem. now rewrite E.
Qed.

(** X4. A slot that was stopped, whose connection has ended, that was
    kicked or that reported an error answers no command: [sendChat],
    [move], [getInventory] and [dropItem] all refuse, without a call to
    the client and without a change of the state. *)
Theorem commands_refused_when_not_online now reason s :
  refusesCommands (fst (stop s))
  /\ refusesCommands (onEnd cfg now s)
  /\ refusesCommands (onKicked reason s)
  /\ refusesCommands (onError s).
Proof.
  split; [| split; [| split]]; apply not_ready_refuses.
  - reflexivity.
  - destruct (onEnd_frame cfg now s) as (_ & _ & -> & _). reflexivity.
  - unfold onKicked. cbv zeta. case_if; cbn; apply andb_false_r.
  - cbn. apply andb_false_r.
Qed.

(** ** pause and resume *)

(** X5. [pause()] blocks chat and movement only: on the paused slot
    [sendChat] and [move] refuse, while [getInventory] and [dropItem]
    answer as they did before the pause. *)
Theorem pause_blocks_chat_and_movement c m direction distance itemName count
    outcome w s :
  let p := fst (pause s) in
  sendChat c m p = (p, false)
  /\ move direction distance w p
     = (p, moveAnswered (mkResult false "Bot not ready"))
  /\ getInventory w p = getInventory w s
  /\ dropItem itemName count outcome w p = dropItem itemName count outcome w s.
Proof.
  cbv zeta. unfold pause.
  destruct (bot s) eqn:Hb; cbn [fst].
  - unfold sendChat, move, getInventory, dropItem. cbn.
    rewrite !orb_true_r. repeat split; reflexivity.
  - unfold sendChat, move. rewrite Hb. cbn. repeat split; reflexivity.
Qed.

(** X6. [resume()] undoes [pause()]: on a slot that was not paused the
    two calls in a row give the state back as it was (with or without a
    client handle), and a second [pause()] changes nothing. *)
Theorem pause_resume_round_trip s :
  isPaused s = false ->
  fst (resume (fst (pause s))) = s
  /\ fst (pause (fst (pause s))) = fst (pause s).
Proof.
  intros Hp. unfold pause, resume.
  destruct (bot s) eqn:Hb; cbn; rewrite ?Hb; cbn; split; try reflexivity.
  transitivity (set_isPaused (isPaused s) s); [now rewrite Hp | reflexivity].
Qed.

(** X7. While the slot is paused its loops idle: the idle-prevention
    tick presses nothing, the proximity scan looks at no entity (it
    raises no alert and applies no emergency rule), the inventory monitor
    reports nothing, and the food check only schedules its next run. *)
Theorem paused_loops_idle now w s :
  isPaused s = true ->
  antiAfkTick s = s
  /\ proximityTick distanceTo cfg now w s = (s, [])
  /\ inventoryFullness w s = (s, None)
  /\ checkFood w s = (scheduleCheckFood checkInterval s, []).
Proof.
  intros Hp. unfold antiAfkTick, proximityTick, inventoryFullness, checkFood.
  rewrite Hp. cbn. rewrite !andb_false_r, !orb_true_r. cbn.
  repeat split; reflexivity.
Qed.

(** X8. A paused slot that loses its connection is not reconnected: the
    [end] handler schedules nothing and leaves it offline and paused;
    [resume()] then refuses for want of a client, and the pause is
    still in force after the operator has started the slot again and it
    has logged in. *)
Theorem paused_slot_not_reconnected now later c s :
  isPaused s = true ->
  let s' := onEnd cfg now s in
  nothingScheduled s s' /\ status s' = offline
  /\ resume s' = (s', false)
  /\ isPaused (onLogin cfg later (fst (start c s'))) = true.
Proof.
  intros Hp. cbv zeta. rewrite onEnd_ended, Hp, andb_false_r.
  destruct (ended_frame now s)
    as (Hp' & _ & _ & _ & _ & _ & _ & _ & Hb & Hst & Hc & Hsub).
  cbv zeta in *. rewrite Hp in Hp'.
  generalize dependent (ended now s). intros e Hp' Hb Hst Hc Hsub.
  split; [now apply nothingScheduled_sub |].
  split; [exact Hst |].
  split; [unfold resume; now rewrite Hb |].
  unfold start. rewrite Hc, Hb.
  destruct c; cbn [fst]; unfold onLogin; cbv zeta; cbn;
    repeat case_if; cbn; exact Hp'.
Qed.
(** ** move *)

Lemma moveStep_resolved ev (m : @Move Vec3) :
  isResolved m = true ->
  snd (moveStep distanceTo ev m) = None
  /\ isResolved (fst (moveStep distanceTo ev m)) = true.
Proof.
  intros Hr. destruct ev as [w s | w s]; cbn.
  - unfold moveCheck. rewrite Hr.
    destruct (checkIntervalLive m); cbn; [| now split].
    destruct (bot s); cbn; [| now split].
    destruct (entity w); cbn; [| now split].
    destruct (Qle_bool _ _); cbn; now split.
  - unfold moveTimeout. destruct (timeoutPending m); cbn; rewrite ?Hr; now split.
Qed.

Lemma moveStep_answer ev (m : @Move Vec3) a :
  snd (moveStep distanceTo ev m) = Some a ->
  isResolved m = false /\ isResolved (fst (moveStep distanceTo ev m)) = true.
Proof.
  destruct (isResolved m) eqn:Hr.
  - intros H. destruct (moveStep_resolved ev m Hr) as [H' _]. congruence.
  - intros H. split; [reflexivity |]. revert H.
    destruct ev as [w s | w s]; cbn.
    + unfold moveCheck. rewrite Hr.
      destruct (checkIntervalLive m); cbn; [| discriminate].
      destruct (bot s); cbn; [| reflexivity].
      destruct (entity w); cbn; [| discriminate].
      destruct (Qle_bool _ _); cbn; [reflexivity | discriminate].
    + unfold moveTimeout. destruct (timeoutPending m); cbn; [| discriminate].
      rewrite Hr. destruct (bot s); cbn; [| reflexivity].
      destruct (entity w); cbn; [reflexivity | discriminate].
Qed.

Lemma answers_resolved evs : forall (m : @Move Vec3),
  isResolved m = true -> answers distanceTo evs m = [].
Proof.
  induction evs as [| ev evs IH]; intros m Hr; [reflexivity |].
  cbn. destruct (moveStep_resolved ev m Hr) as [Hn Hr'].
  destruct (moveStep distanceTo ev m) as [m' r]. cbn in *. subst r.
  now apply IH.
Qed.

(** X9. The promise of a [move] call is resolved at most once, whatever
    the order and the number of firings of its two timers and whatever
    the slot goes through in between. *)
Theorem move_answered_at_most_once evs (m : @Move Vec3) :
  (List.length (answers distanceTo evs m) <= 1)%nat.
Proof.
  revert m. induction evs as [| ev evs IH]; intros m; [cbn; lia |].
  cbn. destruct (moveStep distanceTo ev m) as [m' r] eqn:E.
  destruct r as [a |]; [| apply IH].
  destruct (moveStep_answer ev m a) as [_ Hr']; [now rewrite E |].
  rewrite E in Hr'. cbn in Hr'. rewrite (answers_resolved evs m' Hr'). cbn. lia.
Qed.

Lemma answers_app evs1 evs2 : forall (m : @Move Vec3),
  answers distanceTo (evs1 ++ evs2) m
  = answers distanceTo evs1 m
    ++ answers distanceTo evs2 (moveRun distanceTo evs1 m).
Proof.
  induction evs1 as [| ev evs1 IH]; intros m; [reflexivity |].
  cbn. destruct (moveStep distanceTo ev m) as [m' [a |]]; cbn;
    rewrite IH; reflexivity.
Qed.

Lemma moveRun_resolved evs : forall (m : @Move Vec3),
  isResolved m = true -> isResolved (moveRun distanceTo evs m) = true.
Proof.
  induction evs as [| ev evs IH]; intros m Hr; [exact Hr |].
  cbn. apply IH. now apply moveStep_resolved.
Qed.

Lemma check_step w s (m : @Move Vec3) :
  let '(m', r) := moveStep distanceTo (mvCheck w s) m in
  timeoutPending m' = timeoutPending m
  /\ (isResolved m = false -> r = None -> isResolved m' = false).
Proof.
  cbn. unfold moveCheck.
  destruct (checkIntervalLive m); cbn; [| now split].
  destruct (bot s); cbn.
  - destruct (entity w); cbn; [| now split].
    destruct (Qle_bool _ _); cbn; [| now split].
    split; [reflexivity |]. intros ->. discriminate.
  - split; [reflexivity |]. intros ->. discriminate.
Qed.

Lemma checks_keep_timeout evs : forall (m : @Move Vec3),
  forallb isCheck evs = true -> isResolved m = false ->
  timeoutPending (moveRun distanceTo evs m) = timeoutPending m
  /\ List.length (answers distanceTo evs m)
     = (if isResolved (moveRun distanceTo evs m) then 1 else 0)%nat.
Proof.
  induction evs as [| ev evs IH]; intros m Hc Hr.
  - cbn. rewrite Hr. now split.
  - cbn in Hc. apply andb_true_iff in Hc as [Hev Hc].
    destruct ev as [w s | w s]; [| discriminate].
    pose proof (check_step w s m) as Hs.
    pose proof (moveStep_answer (mvCheck w s) m) as Ha.
    cbn [answers moveRun].
    destruct (moveStep distanceTo (mvCheck w s) m) as [m' r]. cbn [fst snd] in *.
    destruct Hs as [Hp Hn]. rewrite <- Hp.
    destruct r as [a |].
    + destruct (Ha a eq_refl) as [_ Hr'].
      rewrite (answers_resolved evs m' Hr'), (moveRun_resolved evs m' Hr').
      split; [| reflexivity].
      clear -Hc. revert m'. induction evs as [| ev evs IH]; intros m'; [reflexivity |].
      cbn in Hc. apply andb_true_iff in Hc as [Hev Hc].
      destruct ev as [w s | w s]; [| discriminate].
      pose proof (check_step w s m') as Hs. cbn [moveRun].
      destruct (moveStep distanceTo (mvCheck w s) m') as [m'' r]. cbn [fst].
      destruct Hs as [<- _]. now apply IH.
    + now apply IH; [| apply Hn].
Qed.

(** [move] presses a control only when it accepts the call, and
    then the control is one of the four directions and the distance is a
    positive number; in every other case it calls nothing on the
    client. *)
Lemma move_presses_only_valid direction distance w s :
  let '(s', r) := move direction distance w s in
  match r with
  | movePending m =>
      In direction validDirections
      /\ distance = Some (move_distance m) /\ 0 < move_distance m
      /\ timeoutMs m = move_distance m * 1000 + 2000
      /\ trace s' = trace s ++ [setControlState direction true]
  | _ => trace s' = trace s
  end.
Proof.
  unfold move.
  destruct (negb (bot s) || negb (Status_eqb (status s) online) || isPaused s);
    [reflexivity |].
  destruct (list_includes validDirections direction) eqn:Hd; cbn [negb];
    [| reflexivity].
  destruct distance as [d |]; [| reflexivity].
  destruct (d <=? 0) eqn:Hpos; [reflexivity |].
  destruct (entity w); [| reflexivity].
  cbn. repeat split; try reflexivity.
  - unfold list_includes, validDirections in Hd. cbn in Hd.
    repeat (apply orb_true_iff in Hd as [Hd | Hd];
            [apply String.eqb_eq in Hd; subst; cbn; tauto |]).
    discriminate.
  - apply Z.leb_gt in Hpos. exact Hpos.
Qed.

(** X10. A [move] that was accepted is answered exactly once by the time
    its timeout has fired, provided that at that moment the slot either
    has no client or has one whose entity is known: the firings of the
    50 ms check before it and any firing after it add no second answer. *)
Theorem move_answered_by_timeout direction distance w s s0 (m : @Move Vec3)
    evs1 w' s' evs2 :
  move direction distance w s = (s0, movePending m) ->
  forallb isCheck evs1 = true ->
  bot s' = false \/ entity w' <> None ->
  exists a,
    answers distanceTo (evs1 ++ mvTimeout w' s' :: evs2) m = [a].
Proof.
  intros Hmove Hc Henv.
  assert (Hm : isResolved m = false /\ timeoutPending m = true).
  { unfold move in Hmove.
    destruct (negb (bot s) || negb (Status_eqb (status s) online) || isPaused s);
      [discriminate |].
    destruct (negb (list_includes validDirections direction)); [discriminate |].
    destruct distance as [d |]; [| discriminate].
    destruct (d <=? 0); [discriminate |].
    destruct (entity w); [| discriminate].
    injection Hmove as _ <-. now split. }
  destruct Hm as [Hr Hp].
  destruct (checks_keep_timeout evs1 m Hc Hr) as [Hp1 Hn].
  rewrite Hp in Hp1. rewrite answers_app.
  set (m1 := moveRun distanceTo evs1 m) in *.
  cbn [answers moveStep]. unfold moveTimeout. rewrite Hp1. cbn [negb].
  change (isResolved (fired m1)) with (isResolved m1).
  destruct (isResolved m1) eqn:Hr1.
  - cbn [fst snd]. rewrite (answers_resolved evs2 (fired m1)) by exact Hr1.
    destruct (answers distanceTo evs1 m) as [| a [| ? ?]]; try discriminate.
    exists a. reflexivity.
  - destruct (answers distanceTo evs1 m) as [| ? ?]; [| discriminate].
    destruct (bot s') eqn:Hb; cbn [fst snd app].
    + destruct (entity w') as [pos |] eqn:He.
      * cbn [fst snd].
        rewrite (answers_resolved evs2 (resolved (fired m1))) by reflexivity.
        eexists. reflexivity.
      * destruct Henv as [Hb' | Hne]; congruence.
    + rewrite (answers_resolved evs2 (resolved (fired m1))) by reflexivity.
      eexists. reflexivity.
Qed.

(** X11. The timer that answers a [move] releases the control it pressed
    whenever the slot holds a client at that moment, and a [move] that
    ends by its timeout is reported as a success. *)
Theorem move_releases_control w (m : @Move Vec3) s :
  (forall s' m' a,
      moveCheck distanceTo w m s = (s', m', Some a) -> bot s = true ->
      trace s' = trace s ++ [setControlState (move_direction m) false])
  /\ (forall s' m' a,
      moveTimeout distanceTo w m s = (s', m', Some a) ->
      success a = true
      /\ (bot s = true ->
          trace s' = trace s ++ [setControlState (move_direction m) false])).
Proof.
  split; intros s' m' a H.
  - intros Hb. unfold moveCheck in H. rewrite Hb in H. cbn in H.
    destruct (checkIntervalLive m); cbn in H; [| discriminate].
    destruct (entity w); [| discriminate].
    destruct (Qle_bool _ _); [| discriminate].
    injection H as <- _ _. reflexivity.
  - unfold moveTimeout in H.
    destruct (timeoutPending m); cbn in H; [| discriminate].
    destruct (isResolved m); cbn in H; [discriminate |].
    destruct (bot s) eqn:Hb; cbn in H.
    + destruct (entity w); [| discriminate].
      injection H as <- _ <-. split; [reflexivity | reflexivity].
    + injection H as <- _ <-. split; [reflexivity | discriminate].
Qed.
(** ** dropItem *)

(** The toss [dropItem] makes for a stack. *)
Local Abbreviation tossOf count := (fun item => mkToss item (dropCount count item)).

Lemma tossLoop_prefix count outcome items : forall k held droppedItems,
  let '(calls, r) := tossLoop count outcome k held items droppedItems in
  calls `prefix_of` map (tossOf count) items
  /\ (success r = true -> calls = map (tossOf count) items).
Proof.
  induction items as [| item rest IH]; intros k held droppedItems; cbn.
  - split; [reflexivity | reflexivity].
  - destruct held; cbn.
    + destruct (outcome k) as [[| m] held'].
      * specialize (IH (S k) held' (droppedItems ++ [droppedLine count item])).
        destruct (tossLoop _ _ _ _ _ _) as [calls r].
        destruct IH as [Hp Hs]. split.
        -- now apply prefix_cons.
        -- intros H. now rewrite (Hs H).
      * split; [| discriminate].
        apply prefix_cons. apply prefix_nil.
    + split; [apply prefix_nil | discriminate].
Qed.

(** X12. [dropItem] tosses stacks in inventory order and stops at the
    first toss that fails: the tosses it has made are always a first part
    of the list of selected stacks (all stacks for [all], else those
    whose name contains the given text), each with the given count or,
    without one, the whole stack; and it reports success only when it has
    tossed every selected stack and there was at least one. *)
Theorem dropItem_tosses itemName count outcome w s :
  let wanted := map (tossOf count) (List.filter (selected itemName) (items w)) in
  let '(calls, r) := dropItem itemName count outcome w s in
  calls `prefix_of` wanted
  /\ (success r = true -> calls = wanted /\ wanted <> []).
Proof.
  cbv zeta. unfold dropItem.
  destruct (negb (bot s) || negb (Status_eqb (status s) online)).
  { split; [apply prefix_nil | discriminate]. }
  destruct (List.filter (selected itemName) (items w)) as [| item rest] eqn:E.
  { split; [apply prefix_nil | discriminate]. }
  pose proof (tossLoop_prefix count outcome (item :: rest) 0 true []) as H.
  destruct (tossLoop _ _ _ _ _ _) as [calls r]. destruct H as [Hp Hs].
  split; [exact Hp |]. intros H. split; [now apply Hs | discriminate].
Qed.

Lemma tossLoop_resolves count outcome items : forall k droppedItems,
  (forall j, outcome j = (Resolved, true)) ->
  tossLoop count outcome k true items droppedItems
  = (map (tossOf count) items,
     mkResult true
       ("Dropped: "
          +:+ String.concat ", " (droppedItems ++ map (droppedLine count) items))).
Proof.
  induction items as [| item rest IH]; intros k droppedItems H; cbn.
  - now rewrite app_nil_r.
  - rewrite H, IH, <- app_assoc by exact H. reflexivity.
Qed.

(** X13. When every toss resolves and the client stays, [dropItem] on a
    slot that is online tosses every selected stack, in inventory order,
    and its answer lists them as [<count>x <name>], separated by commas;
    without a count, or with the count 0, each stack is tossed whole. *)
Theorem dropItem_complete itemName count outcome w s :
  bot s = true -> status s = online ->
  (forall j, outcome j = (Resolved, true)) ->
  let stacks := List.filter (selected itemName) (items w) in
  stacks <> [] ->
  dropItem itemName count outcome w s
  = (map (tossOf count) stacks,
     mkResult true
       ("Dropped: " +:+ String.concat ", " (map (droppedLine count) stacks)))
  /\ (count = None \/ count = Some 0 ->
      map toss_count (fst (dropItem itemName count outcome w s))
      = map item_count stacks).
Proof.
  intros Hb Hst Hout. cbv zeta. intros Hne.
  assert (E : dropItem itemName count outcome w s
              = (map (tossOf count) (List.filter (selected itemName) (items w)),
                 mkResult true
                   ("Dropped: "
                      +:+ String.concat ", "
                            (map (droppedLine count)
                                 (List.filter (selected itemName) (items w)))))).
  { unfold dropItem. rewrite Hb, Hst. cbn [negb orb Status_eqb].
    destruct (List.filter (selected itemName) (items w)) as [| item rest] eqn:E;
      [contradiction |].
    now rewrite tossLoop_resolves. }
  split; [exact E |].
  intros Hc. rewrite E. cbn [fst]. rewrite map_map.
  apply map_ext. intros item. unfold dropCount. cbn.
  destruct Hc as [-> | ->]; reflexivity.
Qed.

(** ** The inventory monitor *)

(** X14. The fullness alert is sent once per episode: after the monitor
    has raised it, the ticks that follow one another raise it no more as
    long as each of them finds at most five empty slots, however often
    the inventory is found full. (Only the monitor writes the flag;
    a login starts the monitor afresh and clears it.) *)
Theorem fullness_alert_once ws : forall s,
  inventoryAlertSent s = true ->
  Forall (fun w => emptySlotCount w <= 5) ws ->
  fullnessAlerts ws s = [].
Proof.
  induction ws as [| w ws IH]; intros s Hs Hws; [reflexivity |].
  inversion Hws as [| ? ? Hw Hrest]; subst. cbn.
  unfold inventoryFullness.
  destruct (negb (bot s) || negb (Status_eqb (status s) online) || isPaused s
            || isInLobby s); [now apply IH |].
  cbv zeta. rewrite Hs, andb_false_r.
  assert (E : (5 <? emptySlotCount w) = false) by (apply Z.ltb_ge; exact Hw).
  rewrite E. now apply IH.
Qed.

(** The first tick of the monitor that finds three empty slots or
    fewer, on a slot that is online, not paused, not in lobby mode and
    has not alerted, hands one message to the registered observer: that
    the inventory is full when no slot is empty, else how many are
    left. A tick that finds more than five empty slots arms the alert
    again. *)
Lemma fullness_alert_raised w s :
  bot s = true -> status s = online -> isPaused s = false ->
  isInLobby s = false ->
  (inventoryAlertSent s = false -> onInventoryAlert s = true ->
   emptySlotCount w <= 3 ->
   inventoryFullness w s
   = (set_inventoryAlertSent true s,
      Some (if emptySlotCount w =? 0
            then inventoryFull (36 - emptySlotCount w) 36
            else inventoryAlmostFull (36 - emptySlotCount w) 36
                                     (emptySlotCount w))))
  /\ (5 < emptySlotCount w ->
      inventoryFullness w s = (set_inventoryAlertSent false s, None)).
Proof.
  intros Hb Hst Hp Hl. unfold inventoryFullness.
  rewrite Hb, Hst, Hp, Hl. cbn. split.
  - intros Ha Ho Hw. rewrite Ha, Ho.
    assert (E : (emptySlotCount w <=? 3) = true) by (apply Z.leb_le; exact Hw).
    rewrite E. reflexivity.
  - intros Hw.
    assert (E : (emptySlotCount w <=? 3) = false) by (apply Z.leb_gt; lia).
    assert (E' : (5 <? emptySlotCount w) = true) by (apply Z.ltb_lt; exact Hw).
    rewrite E, E'. reflexivity.
Qed.
(** ** The proximity scan *)

(** X15. [isEnemyNearby()] is true exactly when the slot holds a client
    and some entity is a threat: a player other than the slot itself,
    not on the whitelist, whose position is known and within the
    emergency distance of the slot's own known position. *)
Theorem isEnemyNearby_spec w s :
  isEnemyNearby distanceTo cfg w s
  = bot s && existsb (isThreat distanceTo cfg w s) (entities w).
Proof.
  unfold isEnemyNearby. destruct (bot s); cbn [negb andb]; [| reflexivity].
  destruct (entity w) as [me |] eqn:He.
  - induction (entities w) as [| e rest IH]; [reflexivity |].
    cbn [enemyAmong existsb]. unfold isThreat at 1. rewrite He.
    destruct (String.eqb (type e) "player"); cbn [negb orb andb]; [| exact IH].
    destruct (isSelf cfg e); cbn [negb orb andb]; [exact IH |].
    destruct (whitelisted s e); cbn [negb andb]; [exact IH |].
    destruct (position e) as [p |]; cbn [orb]; [| exact IH].
    destruct (Qle_bool _ _); cbn [orb]; [reflexivity | exact IH].
  - symmetry. induction (entities w) as [| e rest IH]; [reflexivity |].
    cbn [existsb]. rewrite IH, orb_false_r. unfold isThreat. rewrite He.
    destruct (position e); apply andb_false_r.
Qed.

Lemma scan_skips now w es : forall s,
  bot s = true ->
  existsb (inAlertRange distanceTo cfg w s) es = false ->
  scanEntities distanceTo cfg now w es s = (s, []).
Proof.
  induction es as [| e rest IH]; intros s Hb Hex; [reflexivity |].
  cbn [existsb] in Hex. apply orb_false_iff in Hex as [He Hrest].
  cbn [scanEntities]. rewrite Hb. cbn [negb].
  unfold inAlertRange in He.
  destruct (String.eqb (type e) "player"); cbn [negb orb andb] in *; [| now apply IH].
  destruct (isSelf cfg e); cbn [negb orb andb] in *; [now apply IH |].
  destruct (whitelisted s e); cbn [negb andb] in *; [now apply IH |].
  destruct (position e) as [p |]; [| now apply IH].
  destruct (entity w) as [me |]; [| now apply IH].
  apply orb_false_iff in He as [He1 He2]. cbv zeta.
  rewrite He1, He2. cbn [andb]. now apply IH.
Qed.

(** X16. A scan changes nothing and starts nothing unless some entity is
    in range: as long as no player other than the slot and off the
    whitelist has a known position within the alert distance or the
    emergency distance, the tick of the proximity check leaves the
    state as it was. *)
Theorem scan_idle now w s :
  existsb (inAlertRange distanceTo cfg w s) (entities w) = false ->
  proximityTick distanceTo cfg now w s = (s, []).
Proof.
  intros H. unfold proximityTick.
  destruct (bot s) eqn:Hb; cbn [negb orb]; [| reflexivity].
  destruct (negb (Status_eqb (status s) online) || isPaused s || isInLobby s);
    [reflexivity |].
  now apply scan_skips.
Qed.

(** X17. A slot reads the whitelist it cached when it was constructed:
    a later change of [config.settings.alertWhitelist] changes neither
    its threat test nor its scan, while a slot constructed afterwards
    caches the new list in lower case. *)
Theorem whitelist_snapshot l now w s :
  isEnemyNearby distanceTo (BotManager.withWhitelist cfg l) w s
  = isEnemyNearby distanceTo cfg w s
  /\ proximityTick distanceTo (BotManager.withWhitelist cfg l) now w s
     = proximityTick distanceTo cfg now w s
  /\ _cachedWhitelist (@constructor Vec3 (BotManager.withWhitelist cfg l) now)
     = map toLowerCase (default [] l).
Proof.
  destruct cfg as [[] ?]. split; [reflexivity | split; reflexivity].
Qed.
(** ** Starting, stopping and restarting *)

(** X18. [start()] does not open a second connection: once it has
    succeeded, every further call is refused and changes nothing until
    the connection has ended; a call that failed because the client
    could not be created leaves the slot in the [error] state, from
    which the next call tries again. *)
Theorem start_not_repeated c s :
  (snd (start false s) = true ->
   start c (fst (start false s)) = (fst (start false s), false))
  /\ (isConnecting s = false -> bot s = false ->
      let s' := fst (start true s) in
      status s' = error /\ snd (start true s) = false
      /\ snd (start false s') = true).
Proof.
  split.
  - unfold start. destruct (isConnecting s) eqn:Hc; [discriminate |].
    destruct (bot s) eqn:Hb; [discriminate |]. intros _. cbn. reflexivity.
  - intros Hc Hb. cbv zeta. unfold start. rewrite Hc, Hb. cbn.
    rewrite Hb. repeat split; reflexivity.
Qed.

Lemma stop_isConnecting s : isConnecting (fst (stop s)) = isConnecting s.
Proof. unfold stop. cbn. destruct (bot s); reflexivity. Qed.

(** X19. [stop()] does not clear the connecting flag. A slot that is
    stopped while its connection is being opened refuses [start()],
    whoever calls it, after whatever events follow the stop, as long as
    the client has emitted none of [login], [end], [kicked] and [error];
    the handler of each of these four clears the flag, and after it
    [start()] is accepted. *)
Theorem stop_while_connecting now reason c evs s :
  isConnecting s = true ->
  forallb (fun p => negb (clearsConnecting (snd p))) evs = true ->
  let x := run distanceTo cfg evs (fst (stop s)) in
  start c x = (x, false)
  /\ snd (start false (onLogin cfg now x)) = true
  /\ snd (start false (onEnd cfg now x)) = true
  /\ snd (start false (onKicked reason x)) = true
  /\ snd (start false (onError x)) = true.
Proof.
  intros Hc Hevs. cbv zeta.
  destruct (stop_stopped s) as (_ & _ & Hb & _).
  destruct (run_connecting distanceTo cfg evs (fst (stop s))) as [Hcx Hbx];
    [rewrite stop_isConnecting; exact Hc | exact Hb | exact Hevs |].
  cbv zeta in *. set (x := run distanceTo cfg evs (fst (stop s))) in *.
  split; [apply start_refused, Hcx |].
  assert (Hs : forall y : @State Vec3,
             isConnecting y = false -> bot y = false -> snd (start false y) = true).
  { intros y Hy1 Hy2. unfold start. rewrite Hy1, Hy2. reflexivity. }
  split; [| split; [| split]]; apply Hs.
  - apply onLogin_clears.
  - rewrite (proj2 (onLogin_clears cfg now x)). exact Hbx.
  - destruct (onEnd_frame cfg now x) as (_ & _ & Hb' & Hc'). exact Hc'.
  - destruct (onEnd_frame cfg now x) as (_ & _ & Hb' & Hc'). exact Hb'.
  - unfold onKicked. repeat case_if; reflexivity.
  - unfold onKicked. repeat case_if; exact Hbx.
  - reflexivity.
  - exact Hbx.
Qed.

(** X20. [stop()] does not cancel a pending [restart()]: the delayed
    [start()] that [restart()] has scheduled is still pending after a
    [stop()], and when it fires it opens a connection and clears the
    manual-stop flag. *)
Theorem restart_survives_stop (env : @Env Vec3) s :
  isConnecting s = false -> createThrows env = false ->
  let h := nextTimer s in
  let s1 := fst (stop (fst (restart s))) in
  let s2 := fst (fire distanceTo cfg env h s1) in
  timers s1 !! h = Some (mkTimer cbRestart 2000 false)
  /\ isManuallyStopped s1 = true
  /\ bot s2 = true /\ isManuallyStopped s2 = false
  /\ starts s2 = S (starts s1).
Proof.
  intros Hc Ht. cbv zeta.
  assert (Hn : nextTimer (fst (stop s)) = nextTimer s)
    by (unfold stop; cbn; destruct (bot s); reflexivity).
  pose proof (stop_stopped s) as Hs0.
  pose proof (stop_isConnecting s) as Hc0. rewrite Hc in Hc0.
  unfold restart. cbn [fst]. rewrite <- Hn.
  generalize dependent (fst (stop s)). intros s0 _ Hs0 Hc0.
  assert (Hs1 : stopped (setTimeout cbRestart 2000 s0)) by exact Hs0.
  rewrite (stop_fixpoint _ Hs1). cbn [fst].
  assert (E : timers (setTimeout cbRestart 2000 s0) !! nextTimer s0
              = Some (mkTimer cbRestart 2000 false))
    by apply lookup_insert_eq.
  split; [exact E |]. split; [apply Hs0 |].
  unfold fire. rewrite E. cbn [repeats callback].
  unfold restartFire, start. cbn. rewrite Hc0.
  destruct Hs0 as (_ & _ & Hb & _). rewrite Hb, Ht. cbn.
  repeat split; try reflexivity.
  unfold starts. cbn. rewrite !List.filter_app, !length_app. cbn. lia.
Qed.
(** ** Kicks, logins and the timers they arm *)

(** X21. A kick whose reason says the account is already online (or
    already connected) makes the next reconnection wait 6 s whatever the
    configured delay is, once: the kick itself schedules nothing and only
    marks the slot as kicked; the [end] event that follows schedules the
    attempt after 6000 ms and consumes the override. *)
Theorem kicked_already_online now reason s :
  includes reason "already online" || includes reason "already connected" = true ->
  settings.autoReconnect (config_settings cfg) = true ->
  isPaused s = false -> isManuallyStopped s = false ->
  attemptsExhausted cfg s = false ->
  let k := onKicked reason s in
  let s' := onEnd cfg now k in
  status k = kicked /\ timers k = timers s
  /\ status s' = offline
  /\ timers s' !! nextTimer s = Some (mkTimer cbReconnect 6000 false)
  /\ tempReconnectDelay s' = None.
Proof.
  intros Hr Ha Hp Hm Hx. cbv zeta.
  assert (Ek : onKicked reason s
               = set_tempReconnectDelay (Some 6000)
                   (set_status kicked (set_isConnecting false s)))
    by (unfold onKicked; cbv zeta; now rewrite Hr).
  rewrite Ek. split; [reflexivity |]. split; [reflexivity |].
  set (k := set_tempReconnectDelay _ _).
  destruct (handled_disconnect cfg now k Ha Hp Hm) as [_ H].
  destruct (H Hx) as (Hst & _ & Ht & _ & Hl).
  split; [exact Hst |]. split; [exact Hl | exact Ht].
Qed.

Lemma cleanup_lookup s h t :
  timers (cleanup s) !! h = Some t ->
  timers s !! h = Some t /\ ~ tracked s h.
Proof.
  intros H. unfold cleanup, stopLobbyRetry, clearHandle in H. cbn in H.
  unfold tracked.
  destruct (antiAfkInterval s), (proximityInterval s), (autoEatTimeout s),
    (inventoryMonitorInterval s), (lobbyRetryInterval s);
    repeat (apply lookup_delete_Some in H as [? H]);
    (split; [exact H | intros [? | [? | [? | [? | ?]]]]; congruence]).
Qed.

(** Takes apart a lookup in a table built by insertions and deletions. *)
Ltac lookup_cases H :=
  repeat match type of H with
         | <[_:=_]> _ !! _ = Some _ =>
             apply lookup_insert_Some in H as [[<- _] | [_ H]]; [tauto |]
         | delete _ _ !! _ = Some _ =>
             apply lookup_delete_Some in H as [_ H]
         | match ?o with Some _ => _ | None => _ end !! _ = Some _ =>
             destruct o
         end.

Lemma onLogin_lookup now s h t :
  timers (onLogin cfg now s) !! h = Some t ->
  timers s !! h = Some t \/ tracked (onLogin cfg now s) h.
Proof.
  unfold onLogin. cbv zeta. unfold tracked.
  repeat case_if.
  all: unfold startInventoryMonitor, startAutoEat, startProximityCheck, startAntiAfk; cbn.
  all: try tauto.
  all: intros H; lookup_cases H; tauto.
Qed.

Lemma exitLobbyMode_lookup s h t :
  timers (exitLobbyMode cfg s) !! h = Some t ->
  timers s !! h = Some t \/ tracked (exitLobbyMode cfg s) h.
Proof.
  unfold exitLobbyMode. cbv zeta. unfold tracked.
  repeat case_if.
  all: unfold stopLobbyRetry, startProximityCheck, startAntiAfk; cbn.
  all: intros H; lookup_cases H; tauto.
Qed.

Lemma stop_lookup s h t :
  timers (fst (stop s)) !! h = Some t ->
  timers s !! h = Some t /\ ~ tracked s h.
Proof.
  intros H. unfold stop in H. cbn [fst] in H.
  apply cleanup_lookup in H as [H Hn].
  destruct (bot s) eqn:Hb.
  - assert (E : bot (set_reconnectTimeout None
             (clearHandle (reconnectTimeout (set_isManuallyStopped true s))
                (set_isManuallyStopped true s))) = true) by exact Hb.
    rewrite E in H, Hn. split; [| exact Hn].
    cbn in H. destruct (reconnectTimeout s); lookup_cases H; exact H.
  - assert (E : bot (set_reconnectTimeout None
             (clearHandle (reconnectTimeout (set_isManuallyStopped true s))
                (set_isManuallyStopped true s))) = false) by exact Hb.
    rewrite E in H, Hn. split; [| exact Hn].
    cbn in H. destruct (reconnectTimeout s); lookup_cases H; exact H.
Qed.

(** X22. Whatever a login arms, [cleanup()] cancels: after a login
    followed by [cleanup()], and after a return from lobby mode followed
    by [cleanup()], no timer is pending that was not pending before. *)
Theorem armed_timers_cancelled now s :
  timers (cleanup (onLogin cfg now s)) ⊆ timers s
  /\ timers (cleanup (exitLobbyMode cfg s)) ⊆ timers s
  /\ timers (fst (stop (onLogin cfg now s))) ⊆ timers s.
Proof.
  split; [| split]; apply map_subseteq_spec; intros h t H.
  - apply cleanup_lookup in H as [H Hn].
    apply onLogin_lookup in H as [H | H]; [exact H | contradiction].
  - apply cleanup_lookup in H as [H Hn].
    apply exitLobbyMode_lookup in H as [H | H]; [exact H | contradiction].
  - apply stop_lookup in H as [H Hn].
    apply onLogin_lookup in H as [H | H]; [exact H | contradiction].
Qed.
(** ** The lobby retry loop and the food loop *)

(** X23. Entering lobby mode is counted once and arms the way home: a
    second [enterLobbyMode()] changes nothing; the first one adds one
    lobby event, schedules a first [/home sp1] after 10 s and a retry
    every 30 s, and both send the command while the slot holds a client
    and is in lobby mode. Once the slot has left lobby mode the retry
    interval is cancelled, and the first attempt, if it is still
    pending, sends nothing. *)
Theorem lobby_retry_loop (env : @Env Vec3) s :
  isInLobby s = false -> bot s = true ->
  let e := enterLobbyMode s in
  let first := nextTimer s in
  let again := S (nextTimer s) in
  enterLobbyMode e = e
  /\ lobbyEvents (stats e) = lobbyEvents (stats s) + 1
  /\ timers e !! first = Some (mkTimer cbLobbyFirstTry 10000 false)
  /\ timers e !! again = Some (mkTimer cbLobbyRetry 30000 true)
  /\ trace (fst (fire distanceTo cfg env first e)) = trace e ++ [chat "/home sp1"]
  /\ trace (fst (fire distanceTo cfg env again e)) = trace e ++ [chat "/home sp1"]
  /\ (let x := exitLobbyMode cfg e in
      timers x !! again = None
      /\ trace (fst (fire distanceTo cfg env first x)) = trace x).
Proof.
  intros Hl Hb. cbv zeta.
  set (e := enterLobbyMode s).
  assert (F : isInLobby e = true /\ bot e = true
              /\ nextTimer e = S (S (nextTimer s))
              /\ lobbyRetryInterval e = Some (S (nextTimer s))
              /\ lobbyEvents (stats e) = lobbyEvents (stats s) + 1
              /\ timers e !! nextTimer s = Some (mkTimer cbLobbyFirstTry 10000 false)
              /\ timers e !! S (nextTimer s) = Some (mkTimer cbLobbyRetry 30000 true)).
  { subst e. unfold enterLobbyMode. rewrite Hl.
    unfold startLobbyRetry, stopLobbyRetry. cbv zeta.
    destruct (onLobbyDetected _) eqn:E; cbn; rewrite Hb;
      (do 5 (split; [reflexivity |])); split;
      rewrite ?lookup_insert_eq; try reflexivity;
      (rewrite lookup_insert_ne by lia); apply lookup_insert_eq. }
  destruct F as (Fl & Fb & Fn & Fr & Fe & F1 & F2).
  generalize dependent e. intros e Fl Fb Fn Fr Fe F1 F2.
  split; [unfold enterLobbyMode; now rewrite Fl |].
  split; [exact Fe |]. split; [exact F1 |]. split; [exact F2 |].
  split; [| split].
  - unfold fire. rewrite F1. cbn [repeats callback fst].
    unfold lobbyFirstTry. cbn. now rewrite Fb, Fl.
  - unfold fire. rewrite F2. cbn [repeats callback fst].
    unfold lobbyRetry. now rewrite Fb, Fl.
  - cbv zeta.
    assert (X : isInLobby (exitLobbyMode cfg e) = false
                /\ timers (exitLobbyMode cfg e) !! S (nextTimer s) = None
                /\ timers (exitLobbyMode cfg e) !! nextTimer s
                   = Some (mkTimer cbLobbyFirstTry 10000 false)).
    { unfold exitLobbyMode, stopLobbyRetry. cbv zeta.
      repeat case_if; unfold startProximityCheck, startAntiAfk; cbn;
        rewrite Fr, ?Fn; cbn; (split; [reflexivity |]); split;
        rewrite ?lookup_insert_ne by lia;
        rewrite ?lookup_delete_eq, ?lookup_delete_ne by lia; try reflexivity;
        exact F1. }
    destruct X as (Xl & X2 & X1). split; [exact X2 |].
    unfold fire. rewrite X1. cbn [repeats callback fst].
    unfold lobbyFirstTry. cbn. now rewrite Xl, andb_false_r.
Qed.
(** X24. The food loop never dies and never forks by itself: a run of
    [checkFood] either schedules its next run after the base interval,
    or starts one eat operation (for the first stack of the inventory
    whose name is a food, when the food level is below 14); and however
    that operation settles, in whatever state the slot is by then, its
    end schedules the next run (after 5, 10, 30 or 60 s) and clears
    the eating flag. *)
Theorem food_loop_rearms w r s :
  (let '(s', tasks) := checkFood w s in
   (tasks = [] /\ nextCheck s' = Some checkInterval /\ trace s' = trace s)
   \/ (exists foodItem,
         tasks = [eatTask foodItem (food w)]
         /\ find (fun i => list_includes FOOD_ITEMS (item_name i)) (items w)
            = Some foodItem
         /\ food w < 14 /\ isEating s' = true
         /\ trace s' = trace s ++ [equip foodItem] /\ timers s' = timers s))
  /\ (exists d, nextCheck (checkFoodSettled r s) = Some d
                /\ In d [5000; 10000; 30000; 60000])
  /\ isEating (checkFoodSettled r s) = false.
Proof.
  split; [| split].
  - unfold checkFood.
    destruct (negb (bot s) || negb (Status_eqb (status s) online) || isPaused s).
    { left. rewrite scheduleCheckFood_next. now repeat split. }
    destruct (food w <? 14) eqn:Hf.
    2:{ left. rewrite scheduleCheckFood_next. now repeat split. }
    destruct (find _ _) as [foodItem |] eqn:Hfind.
    2:{ left. rewrite scheduleCheckFood_next. now repeat split. }
    right. exists foodItem. apply Z.ltb_lt in Hf. now repeat split.
  - unfold checkFoodSettled. destruct r as [| m]; cbv zeta.
    + case_if; rewrite scheduleCheckFood_next; eexists; (split; [reflexivity |]);
        cbn; tauto.
    + destruct (isTimeoutMessage m).
      * case_if; rewrite scheduleCheckFood_next; eexists; (split; [reflexivity |]);
          cbn; tauto.
      * rewrite scheduleCheckFood_next; eexists; (split; [reflexivity |]);
          cbn; tauto.
  - unfold checkFoodSettled, scheduleCheckFood. destruct r as [| m]; cbv zeta.
    + case_if; reflexivity.
    + destruct (isTimeoutMessage m); [case_if |]; reflexivity.
Qed.
(** ** The counters of the statistics *)

Lemma countersGrow_refl s : countersGrow s s.
Proof. unfold countersGrow. repeat split; reflexivity || lia. Qed.

Lemma countersGrow_trans s1 s2 s3 :
  countersGrow s1 s2 -> countersGrow s2 s3 -> countersGrow s1 s3.
Proof.
  unfold countersGrow. intros (A1 & B1 & C1 & D1 & E1) (A2 & B2 & C2 & D2 & E2).
  repeat split; congruence || lia.
Qed.

(** A state change that leaves the statistics alone, or adds to one of
    the three counters. *)
Ltac grow_frame := unfold countersGrow; cbn; repeat split; reflexivity || lia.

Ltac break_match :=
  match goal with
  | |- context [match ?c with _ => _ end] => destruct c eqn:?
  end.

Ltac grow_auto := repeat break_match; try apply countersGrow_refl; try grow_frame.

Lemma cleanup_grow s : countersGrow s (cleanup s).
Proof. unfold cleanup, stopLobbyRetry. grow_frame. Qed.

Lemma stop_grow s : countersGrow s (fst (stop s)).
Proof. unfold stop. cbn [fst]. case_if; grow_frame. Qed.

Lemma enterLobbyMode_grow s : countersGrow s (enterLobbyMode s).
Proof. unfold enterLobbyMode, startLobbyRetry, stopLobbyRetry. grow_auto. Qed.

Lemma exitLobbyMode_grow s : countersGrow s (exitLobbyMode cfg s).
Proof.
  unfold exitLobbyMode, stopLobbyRetry, startAntiAfk, startProximityCheck.
  grow_auto.
Qed.

Lemma afterLoop_grow s : countersGrow s (fst (afterLoop s)).
Proof.
  unfold afterLoop. cbn [fst].
  eapply countersGrow_trans; [| apply stop_grow]. grow_auto.
Qed.

Lemma forBlocks_grow w blocks total s :
  countersGrow s (fst (forBlocks distanceTo cfg w blocks total s)).
Proof.
  induction blocks as [| pos rest IH]; cbn [forBlocks].
  - apply countersGrow_refl.
  - destruct (negb (bot s)); [grow_frame |].
    destruct (isEnemyNearby _ _ _ _).
    { cbn [fst]. eapply countersGrow_trans; [| apply stop_grow]. grow_frame. }
    destruct (emptySlotCount w <=? 2); [apply countersGrow_refl |].
    destruct (blockAt w pos) as [b |]; [| exact IH].
    destruct (String.eqb _ _); [grow_frame | exact IH].
Qed.

Lemma whileLoop_grow w total s :
  countersGrow s (fst (whileLoop distanceTo cfg w total s)).
Proof.
  unfold whileLoop.
  destruct (_ && _); [| apply afterLoop_grow].
  destruct (emptySlotCount w <=? 2); [apply afterLoop_grow |].
  destruct (findBlocks w _ _); [apply afterLoop_grow |].
  apply forBlocks_grow.
Qed.

Lemma executeProtection_grow w s :
  countersGrow s (fst (executeProtection distanceTo cfg w s)).
Proof.
  unfold executeProtection.
  destruct (_ || _); [apply countersGrow_refl |].
  destruct (_protectionRunning s); [apply countersGrow_refl |].
  destruct (settings.protection _); [| grow_frame].
  destruct (find _ _); [grow_frame |].
  eapply countersGrow_trans; [| apply whileLoop_grow]. grow_frame.
Qed.

Lemma resumeProtection_grow k r w s :
  countersGrow s (fst (resumeProtection distanceTo cfg k r w s)).
Proof.
  destruct k; cbn [resumeProtection].
  - destruct (bot s); [| grow_frame].
    eapply countersGrow_trans; [| apply whileLoop_grow]. grow_frame.
  - destruct r; [| apply forBlocks_grow].
    destruct (negb (bot s)); grow_frame.
  - destruct r; [| apply forBlocks_grow].
    destruct (0 <? breakDelay cfg); [apply countersGrow_refl | apply forBlocks_grow].
  - apply forBlocks_grow.
  - apply whileLoop_grow.
Qed.

Lemma raiseAlert_grow now w e d s :
  countersGrow s (fst (raiseAlert distanceTo cfg now w e d s)).
Proof.
  unfold raiseAlert.
  set (s1 := set_alertCooldowns _ s).
  assert (H1 : countersGrow s s1) by (subst s1; grow_frame).
  destruct (_ && _).
  - pose proof (executeProtection_grow w s1) as Hp.
    destruct (executeProtection distanceTo cfg w s1) as [sp c]. cbn [fst] in Hp.
    destruct c as [x | k |]; cbn [fst];
      (eapply countersGrow_trans; [exact H1 |]);
      (eapply countersGrow_trans; [exact Hp |]); grow_frame.
  - cbn [fst]. eapply countersGrow_trans; [exact H1 |]. grow_frame.
Qed.

Lemma scanEntities_grow now w es : forall s,
  countersGrow s (fst (scanEntities distanceTo cfg now w es s)).
Proof.
  induction es as [| e rest IH]; intros s; cbn [scanEntities].
  { apply countersGrow_refl. }
  destruct (negb (bot s)); [grow_frame |].
  destruct (_ || _); [apply IH |].
  destruct (whitelisted s e); [apply IH |].
  destruct (position e) as [p |]; [| apply IH].
  destruct (entity w) as [me |]; [| apply IH].
  cbv zeta. destruct (_ && _).
  { cbn [fst]. eapply countersGrow_trans; [| apply stop_grow]. grow_auto. }
  destruct (Qle_bool _ (alertDistance cfg)); [| apply IH].
  destruct (cooldown cfg <? _); [| apply IH].
  pose proof (raiseAlert_grow now w e (distanceTo me p) s) as Hr.
  destruct (raiseAlert distanceTo cfg now w e (distanceTo me p) s) as [s3 spawned].
  cbn [fst] in Hr. specialize (IH s3).
  destruct (scanEntities distanceTo cfg now w rest s3) as [s' more].
  cbn [fst] in *. eapply countersGrow_trans; eassumption.
Qed.

Lemma onSpawn_grow w s : countersGrow s (onSpawn distanceTo cfg w s).
Proof.
  unfold onSpawn.
  destruct (negb (bot s)); [grow_frame |].
  set (s0 := emit _ s). assert (H0 : countersGrow s s0) by (subst s0; grow_frame).
  eapply countersGrow_trans; [exact H0 |].
  destruct (match lastPosition s0 with Some _ => _ | None => _ end).
  { apply enterLobbyMode_grow. }
  set (s1 := match lastPosition s0 with Some _ => _ | None => _ end).
  assert (H1 : countersGrow s0 s1).
  { subst s1. destruct (lastPosition s0); [| apply countersGrow_refl].
    destruct (entity w); [| apply countersGrow_refl].
    destruct (_ && _); [apply exitLobbyMode_grow | apply countersGrow_refl]. }
  eapply countersGrow_trans; [exact H1 |].
  destruct (entity w); [| apply countersGrow_refl].
  destruct (negb _); [grow_frame | apply countersGrow_refl].
Qed.

Lemma onLogin_grow now s : countersGrow s (onLogin cfg now s).
Proof.
  unfold onLogin, startAntiAfk, startProximityCheck, startAutoEat,
    startInventoryMonitor.
  grow_auto.
Qed.

Lemma onEnd_grow now s : countersGrow s (onEnd cfg now s).
Proof.
  unfold countersGrow. rewrite onEnd_stats. cbv zeta.
  destruct (truthyZ _); cbn; repeat split; reflexivity || lia.
Qed.

Lemma fire_grow env h s : countersGrow s (fst (fire distanceTo cfg env h s)).
Proof.
  unfold fire.
  destruct (timers s !! h) as [t |]; [| apply countersGrow_refl].
  set (s0 := if repeats t then s else clearTimer h s).
  assert (H0 : countersGrow s s0)
    by (subst s0; destruct (repeats t); [apply countersGrow_refl | grow_frame]).
  eapply countersGrow_trans; [exact H0 |].
  destruct (callback t); cbn [fst]; try apply countersGrow_refl.
  - unfold antiAfkTick. grow_auto.
  - unfold jumpRelease. grow_auto.
  - unfold checkFood, scheduleCheckFood. grow_auto.
  - unfold proximityTick. destruct (_ || _); [apply countersGrow_refl |].
    apply scanEntities_grow.
  - unfold alertLoop. grow_auto.
  - unfold lobbyFirstTry. grow_auto.
  - unfold lobbyRetry, stopLobbyRetry. grow_auto.
  - unfold reconnectFire, start. grow_auto.
  - unfold restartFire, start. grow_auto.
  - unfold teleportAway. destruct (entity _); [| apply countersGrow_refl].
    destruct (lastPosition s0); [| apply countersGrow_refl].
    destruct (_ && _); [apply enterLobbyMode_grow | apply countersGrow_refl].
  - unfold teleportBack. destruct (entity _); [| apply countersGrow_refl].
    destruct (lastPosition s0); [| apply countersGrow_refl].
    destruct (_ && _); [apply exitLobbyMode_grow | apply countersGrow_refl].
Qed.

Lemma step_grow env ev s : countersGrow s (fst (step distanceTo cfg env ev s)).
Proof.
  destruct ev; cbn [step fst].
  - apply onLogin_grow.
  - apply onSpawn_grow.
  - apply onEnd_grow.
  - unfold onKicked. grow_auto.
  - unfold onError. grow_frame.
  - unfold onMessagestr. grow_auto.
  - unfold start. grow_auto.
  - apply stop_grow.
  - unfold pause. grow_auto.
  - unfold resume. grow_auto.
  - unfold restart. cbn [fst].
    eapply countersGrow_trans; [apply stop_grow | grow_frame].
  - unfold toggleProtection. grow_auto.
  - apply fire_grow.
  - destruct t; cbn [settle].
    + pose proof (resumeProtection_grow k r (world env) s) as H.
      destruct (resumeProtection distanceTo cfg k r (world env) s) as [s' c].
      destruct c; exact H.
    + unfold checkFoodSettled, scheduleCheckFood. cbn [fst]. grow_auto.
Qed.

Lemma run_grow evs : forall s, countersGrow s (run distanceTo cfg evs s).
Proof.
  induction evs as [| [env ev] rest IH]; intros s; cbn [run].
  - apply countersGrow_refl.
  - eapply countersGrow_trans; [apply step_grow | apply IH].
Qed.

(** X25. The counters of the statistics over a run: the counter of
    broken spawners never counts (in every run of a session from its
    construction, the protection sequence included, it is 0, and so is
    what [getStats()] reports, while the session time is the time since
    construction); the counters of alerts, of lobby events and of
    reconnects never go down, over every run from any state. *)
Theorem statistics_counters evs t0 later s :
  (let s0 := run distanceTo cfg evs (constructor cfg t0) in
   spawnersBroken (stats s0) = 0
   /\ StatsReport.spawnersBroken (getStats cfg later s0) = 0
   /\ StatsReport.sessionTime (getStats cfg later s0) = later - t0)
  /\ (let s' := run distanceTo cfg evs s in
      alertsTriggered (stats s) <= alertsTriggered (stats s')
      /\ lobbyEvents (stats s) <= lobbyEvents (stats s')
      /\ reconnects (stats s) <= reconnects (stats s')).
Proof.
  cbv zeta. split.
  - destruct (run_grow evs (constructor cfg t0)) as (H1 & H2 & _).
    unfold getStats. cbn. rewrite H1, H2. repeat split; reflexivity.
  - destruct (run_grow evs s) as (_ & _ & H). exact H.
Qed.
End Coverage.

(** * The command parser and the manager *)

Import CommandParser.

Lemma classic_In (x : Z) l : In x l \/ ~ In x l.
Proof. destruct (in_dec Z.eq_dec x l); [now left | now right]. Qed.

Lemma includesZ_In l x : includesZ l x = true <-> In x l.
Proof.
  unfold includesZ. rewrite existsb_exists. split.
  - intros (y & Hy & E). apply Z.eqb_eq in E. now subst.
  - intros H. exists x. split; [exact H | apply Z.eqb_refl].
Qed.

(** *** parseSlots *)

Lemma partSlots_denotes part x : In x (partSlots part) <-> partDenotes part x.
Proof.
  unfold partSlots, partDenotes. cbv zeta.
  destruct (existsb _ _).
  - destruct (map _ _) as [| [start |] [| [end_ |] more]]; cbn [In];
      try (split; [tauto | intros (? & ? & ? & [=] & _)]).
    rewrite <- list_elem_of_In, elem_of_seqZ. split.
    + intros H. exists start, end_, more. split; [reflexivity | lia].
    + intros (? & ? & ? & [= <- <- <-] & H). lia.
  - destruct (parseInt _) as [slot |]; cbn [In].
    + split; [intros [-> | []]; reflexivity | intros [= ->]; now left].
    + split; [tauto | discriminate].
Qed.

Lemma addAll_spec xs : forall slots,
  (forall x, In x (addAll slots xs) <-> In x slots \/ In x xs)
  /\ (NoDup slots -> NoDup (addAll slots xs)).
Proof.
  induction xs as [| i xs IH]; intros slots; cbn [addAll fold_left].
  { split; [intros x; cbn; tauto | auto]. }
  fold (addAll (if includesZ slots i then slots else slots ++ [i]) xs).
  destruct (IH (if includesZ slots i then slots else slots ++ [i])) as [Hin Hnd].
  destruct (includesZ slots i) eqn:E.
  - apply includesZ_In in E. split; [| exact Hnd].
    intros x. rewrite Hin. cbn. intuition (subst; auto).
  - split.
    + intros x. rewrite Hin, in_app_iff. cbn. tauto.
    + intros H. apply Hnd. apply NoDup_app. split; [exact H |].
      split; [| apply NoDup_singleton].
      intros x Hx Hx'. apply list_elem_of_singleton in Hx'. subst x.
      apply list_elem_of_In, includesZ_In in Hx. congruence.
Qed.

Lemma collect_spec parts : forall slots,
  let all := fold_left (fun slots part => addAll slots (partSlots part))
                       parts slots in
  (forall x, In x all
             <-> In x slots \/ exists part, In part parts /\ In x (partSlots part))
  /\ (NoDup slots -> NoDup all).
Proof.
  induction parts as [| part parts IH]; intros slots; cbn [fold_left].
  { split; [| auto]. intros x. split; [tauto | intros [H | (? & [] & _)]; exact H]. }
  destruct (IH (addAll slots (partSlots part))) as [Hin Hnd].
  destruct (addAll_spec (partSlots part) slots) as [Hin' Hnd'].
  cbv zeta in *. split; [| auto].
  intros x. rewrite Hin, Hin'. split.
  - intros [[H | H] | (p & Hp & H)]; [now left | right | right].
    + exists part. split; [now left | exact H].
    + exists p. split; [now right | exact H].
  - intros [H | (p & [<- | Hp] & H)]; [tauto | tauto |].
    right. exists p. tauto.
Qed.

Lemma insertSorted_In x l y : In y (insertSorted x l) <-> y = x \/ In y l.
Proof.
  induction l as [| z l IH]; cbn; [intuition |].
  destruct (x <=? z); cbn; rewrite ?IH; intuition.
Qed.

Lemma insertSorted_sorted x l :
  ~ In x l -> StronglySorted Z.lt l -> StronglySorted Z.lt (insertSorted x l).
Proof.
  induction l as [| z l IH]; intros Hx Hs; cbn.
  { constructor; constructor. }
  apply StronglySorted_inv in Hs as [Hs Hz].
  destruct (x <=? z) eqn:E.
  - apply Z.leb_le in E.
    assert (x < z) by (assert (x <> z) by (intros ->; apply Hx; now left); lia).
    constructor; [constructor; assumption |].
    constructor; [assumption |].
    eapply List.Forall_impl; [| exact Hz]. cbn. intros; lia.
  - apply Z.leb_gt in E. constructor.
    + apply IH; [intros H; apply Hx; now right | exact Hs].
    + apply List.Forall_forall. intros y Hy. apply insertSorted_In in Hy as [-> | Hy];
        [exact E |].
      rewrite List.Forall_forall in Hz. now apply Hz.
Qed.

Lemma sortAscending_spec l :
  (forall x, In x (sortAscending l) <-> In x l)
  /\ (NoDup l -> StronglySorted Z.lt (sortAscending l)).
Proof.
  induction l as [| a l [IHin IHs]]; cbn.
  { split; [tauto | constructor]. }
  split.
  - intros x. rewrite insertSorted_In, IHin. intuition.
  - intros H. apply NoDup_cons in H as [Ha Hl].
    apply insertSorted_sorted; [| now apply IHs].
    rewrite IHin. intros Hin. apply Ha. now apply list_elem_of_In.
Qed.

(** X26. [parseSlots] answers [all] for the text [all] alone; for any
    other plain text it answers the slot numbers in strictly ascending
    order, each once, and a number is among them exactly when one of
    the comma-separated parts stands for it: as the number the part
    writes, or as a number between the two ends of a range [a-b]
    (brackets and surrounding blanks ignored; a range whose ends are
    not both numbers, or whose first end is the larger, stands for
    nothing). *)
Theorem parseSlots_sorted_cover slotString :
  plainText slotString ->
  match parseSlots slotString with
  | allSlots => slotString = "all"
  | listed l =>
      slotString <> "all"
      /\ StronglySorted Z.lt l
      /\ forall x,
           In x l
           <-> exists part,
                 In part (splitOn "," (list_ascii_of_string slotString))
                 /\ partDenotes part x
  end.
Proof.
  intros _. unfold parseSlots.
  destruct (String.eqb slotString "all") eqn:E.
  { now apply String.eqb_eq. }
  apply String.eqb_neq in E. split; [exact E |]. cbv zeta.
  destruct (collect_spec (splitOn "," (list_ascii_of_string slotString)) [])
    as [Hin Hnd]. cbv zeta in *.
  destruct (sortAscending_spec
              (fold_left (fun slots part => addAll slots (partSlots part))
                         (splitOn "," (list_ascii_of_string slotString)) []))
    as [Hin' Hs].
  split; [apply Hs, Hnd; constructor |].
  intros x. rewrite Hin', Hin. split.
  - intros [[] | (part & Hp & H)]. exists part. split; [exact Hp |].
    now apply partSlots_denotes.
  - intros (part & Hp & H). right. exists part. split; [exact Hp |].
    now apply partSlots_denotes.
Qed.

Lemma filter_split_length (p : Z -> bool) l :
  (List.length (List.filter (fun s => negb (p s)) l)
   + List.length (List.filter p l) = List.length l)%nat.
Proof.
  induction l as [| x l IH]; [reflexivity |].
  cbn [List.filter]. destruct (p x); simpl; lia.
Qed.

Lemma filter_sublist (p : Z -> bool) l : List.filter p l `sublist_of` l.
Proof.
  induction l as [| x l IH]; cbn [List.filter]; [constructor |].
  destruct (p x); constructor; exact IH.
Qed.

(** X27. [validateSlots] lets no unknown slot through: when it answers
    [valid], every slot of its answer is an available one (and the
    answer is the request itself, or all available slots for [all]);
    when it answers [invalid], at least one requested slot is not
    available, the error names exactly the requested slots that are not,
    and [validSlots] holds exactly those that are; both lists keep the
    order of the request, and between them they take up every entry of
    the request once. *)
Theorem validateSlots_sound slots availableSlots :
  match validateSlots slots availableSlots with
  | valid l =>
      Forall (fun x => In x availableSlots) l
      /\ l = match slots with
             | allSlots => availableSlots
             | listed requested => requested
             end
  | invalid message validSlots =>
      exists requested bad,
        slots = listed requested /\ bad <> []
        /\ message = "Invalid slots: " +:+ String.concat ", " (map pretty bad)
        /\ (forall x, In x bad <-> In x requested /\ ~ In x availableSlots)
        /\ (forall x, In x validSlots <-> In x requested /\ In x availableSlots)
        /\ bad `sublist_of` requested
        /\ validSlots `sublist_of` requested
        /\ (List.length bad + List.length validSlots
            = List.length requested)%nat
  end.
Proof.
  destruct slots as [| requested]; cbn [validateSlots].
  { split; [| reflexivity]. apply List.Forall_forall. auto. }
  cbv zeta.
  pose proof (filter_split_length (includesZ availableSlots) requested) as Hlen.
  set (bad := List.filter _ requested) in *.
  assert (Hbad : forall x, In x bad <-> In x requested /\ ~ In x availableSlots).
  { intros x. subst bad. rewrite List.filter_In, negb_true_iff.
    rewrite <- not_true_iff_false, includesZ_In. reflexivity. }
  destruct bad as [| b rest] eqn:Eb; cbn [List.length Nat.ltb Nat.leb].
  - split; [| reflexivity]. apply List.Forall_forall. intros x Hx.
    destruct (classic_In x availableSlots) as [H | H]; [exact H |].
    destruct (proj2 (Hbad x) (conj Hx H)).
  - exists requested, (b :: rest). split; [reflexivity |].
    split; [discriminate |]. split; [reflexivity |]. split; [exact Hbad |].
    split; [| split; [| split]].
    + intros x. rewrite List.filter_In, includesZ_In. reflexivity.
    + rewrite <- Eb. apply filter_sublist.
    + apply filter_sublist.
    + exact Hlen.
Qed.

Import BotManager.

Lemma list_includes_In l x : list_includes l x = true <-> In x l.
Proof.
  unfold list_includes. rewrite existsb_exists. split.
  - intros (y & Hy & E). apply String.eqb_eq in E. now subst.
  - intros H. exists x. split; [exact H | apply String.eqb_refl].
Qed.

Lemma filter_other_id username l :
  list_includes (map toLowerCase l) (toLowerCase username) = false ->
  List.filter (fun u => negb (String.eqb (toLowerCase u) (toLowerCase username))) l
  = l.
Proof.
  induction l as [| u rest IH]; [reflexivity |].
  unfold list_includes in *. cbn [map existsb List.filter].
  intros H. apply orb_false_iff in H as [Hu Hrest].
  rewrite String.eqb_sym, Hu. cbn [negb]. now rewrite IH.
Qed.

Lemma filter_other_excludes username l :
  list_includes
    (map toLowerCase
       (List.filter
          (fun u => negb (String.eqb (toLowerCase u) (toLowerCase username))) l))
    (toLowerCase username) = false.
Proof.
  induction l as [| u rest IH]; [reflexivity |]. cbn [List.filter].
  destruct (String.eqb (toLowerCase u) (toLowerCase username)) eqn:E;
    cbn [negb]; [exact IH |].
  unfold list_includes in *. cbn [map existsb].
  now rewrite String.eqb_sym, E, IH.
Qed.

Lemma NoDup_map_filter {A B} (f : A -> B) (p : A -> bool) l :
  NoDup (map f l) -> NoDup (map f (List.filter p l)).
Proof.
  induction l as [| a rest IH]; [intros; constructor |]. cbn.
  intros H. apply NoDup_cons in H as [Ha Hrest].
  destruct (p a); [| now apply IH]. cbn. apply NoDup_cons.
  split; [| now apply IH].
  intros Hin. apply Ha.
  apply list_elem_of_In in Hin. apply list_elem_of_In.
  apply in_map_iff in Hin as (b & Hb & Hin). apply in_map_iff.
  exists b. split; [exact Hb |]. now apply List.filter_In in Hin as [Hin _].
Qed.

Local Abbreviation other username :=
  (fun u => negb (String.eqb (toLowerCase u) (toLowerCase username))).

Lemma addToWhitelist_list username cfg :
  getWhitelist (fst (addToWhitelist username cfg))
  = if list_includes (map toLowerCase (getWhitelist cfg)) (toLowerCase username)
    then getWhitelist cfg else getWhitelist cfg ++ [username].
Proof.
  unfold addToWhitelist, getWhitelist. cbv zeta.
  destruct (list_includes _ _); reflexivity.
Qed.

Lemma addToWhitelist_success username cfg :
  success (snd (addToWhitelist username cfg))
  = negb (list_includes (map toLowerCase (getWhitelist cfg)) (toLowerCase username)).
Proof.
  unfold addToWhitelist, getWhitelist. cbv zeta.
  destruct (list_includes _ _); reflexivity.
Qed.

Lemma removeFromWhitelist_list username cfg :
  getWhitelist (fst (removeFromWhitelist username cfg))
  = List.filter (other username) (getWhitelist cfg).
Proof.
  unfold removeFromWhitelist, getWhitelist.
  destruct (settings.alertWhitelist (config_settings cfg)) as [l |] eqn:E;
    [| cbn [fst]; now rewrite E].
  cbv zeta. destruct (_ =? _)%nat; reflexivity.
Qed.

Lemma removeFromWhitelist_success username cfg l :
  settings.alertWhitelist (config_settings cfg) = Some l ->
  success (snd (removeFromWhitelist username cfg))
  = negb (List.length (List.filter (other username) l) =? List.length l)%nat.
Proof.
  intros H. unfold removeFromWhitelist. rewrite H. cbv zeta.
  destruct (_ =? _)%nat; reflexivity.
Qed.

(** X28. The whitelist holds a name once, whatever its case:
    [addToWhitelist] refuses a name that is already there in another
    case, so a list without such duplicates stays without them under
    both operations; [removeFromWhitelist] removes the name in every
    case; and removing a name that was just added gives the list back
    as it was. *)
Theorem whitelist_add_remove username cfg :
  (NoDup (map toLowerCase (getWhitelist cfg)) ->
   NoDup (map toLowerCase (getWhitelist (fst (addToWhitelist username cfg))))
   /\ NoDup (map toLowerCase
               (getWhitelist (fst (removeFromWhitelist username cfg)))))
  /\ list_includes
       (map toLowerCase (getWhitelist (fst (removeFromWhitelist username cfg))))
       (toLowerCase username) = false
  /\ (success (snd (addToWhitelist username cfg)) = true ->
      let cfg1 := fst (addToWhitelist username cfg) in
      success (snd (removeFromWhitelist username cfg1)) = true
      /\ getWhitelist (fst (removeFromWhitelist username cfg1))
         = getWhitelist cfg).
Proof.
  split; [| split].
  - intros Hnd. rewrite addToWhitelist_list, removeFromWhitelist_list. split.
    + destruct (list_includes _ _) eqn:E; [exact Hnd |].
      rewrite map_app. apply NoDup_app. split; [exact Hnd |].
      split; [| apply NoDup_singleton].
      intros x Hx Hx'. apply list_elem_of_singleton in Hx'. subst x.
      apply list_elem_of_In, list_includes_In in Hx. congruence.
    + now apply NoDup_map_filter.
  - rewrite removeFromWhitelist_list. apply filter_other_excludes.
  - rewrite addToWhitelist_success, negb_true_iff. intros E. cbv zeta.
    pose proof (addToWhitelist_list username cfg) as El. rewrite E in El.
    rewrite removeFromWhitelist_list, El.
    assert (Ef : List.filter (other username) (getWhitelist cfg ++ [username])
                 = getWhitelist cfg).
    { rewrite List.filter_app, (filter_other_id _ _ E). cbn.
      rewrite String.eqb_refl. cbn. apply app_nil_r. }
    split; [| exact Ef].
    assert (Hs : settings.alertWhitelist
                   (config_settings (fst (addToWhitelist username cfg)))
                 = Some (getWhitelist cfg ++ [username])).
    { unfold addToWhitelist, getWhitelist in *. cbv zeta. rewrite E. reflexivity. }
    rewrite (removeFromWhitelist_success _ _ _ Hs), Ef, negb_true_iff.
    apply Nat.eqb_neq. rewrite length_app. cbn. lia.
Qed.

(** X29. An edit of the whitelist takes effect for the slots
    constructed after it: a slot constructed from the configuration that
    [addToWhitelist] leaves treats the player as whitelisted in every
    case of the name, and one constructed after [removeFromWhitelist]
    does not. *)
Theorem whitelist_edit_effective {Vec3 : Type} (name : string) cfg now
    (e : @Entity Vec3) :
  toLowerCase (username e) = toLowerCase name ->
  whitelisted (@constructor Vec3 (fst (addToWhitelist name cfg)) now) e = true
  /\ whitelisted (@constructor Vec3 (fst (removeFromWhitelist name cfg)) now) e
     = false.
Proof.
  intros He. unfold whitelisted. rewrite He.
  assert (Hc : forall c, _cachedWhitelist (@constructor Vec3 c now)
                         = map toLowerCase (getWhitelist c)) by reflexivity.
  rewrite !Hc, addToWhitelist_list, removeFromWhitelist_list. split.
  - destruct (list_includes (map toLowerCase (getWhitelist cfg))
                            (toLowerCase name)) eqn:E; [exact E |].
    rewrite map_app. apply list_includes_In, in_or_app. right. now left.
  - apply filter_other_excludes.
Qed.

Lemma setProtection_find slot b accounts acc :
  find (fun a => accountConfig.slot a =? slot) accounts = Some acc ->
  find (fun a => accountConfig.slot a =? slot) (setProtection slot b accounts)
  = Some (accountConfig.mk (accountConfig.slot acc) (accountConfig.username acc)
                           (Some b)).
Proof.
  induction accounts as [| a rest IH]; [discriminate |]. cbn [find setProtection].
  destruct (accountConfig.slot a =? slot) eqn:E.
  - intros [= <-]. cbn [find accountConfig.slot]. now rewrite E.
  - intros H. cbn [find]. rewrite E. now apply IH.
Qed.

Lemma toggle_once {Vec3 : Type} st accounts slot acc (bot : option (@State Vec3)) :
  find (fun a => accountConfig.slot a =? slot) accounts = Some acc ->
  let after := negb (initialProtection (mkConfig st acc)) in
  BotManager.toggleProtection st accounts slot bot
  = (setProtection slot after accounts, forceProtection after <$> bot,
     mkToggled true
       ("Protection for Slot " +:+ pretty slot +:+ " is now "
          +:+ (if after then "VP AÇIK" else "VP KAPALI") +:+ " (kaydedildi).")
       (Some after)).
Proof.
  intros H. unfold BotManager.toggleProtection. rewrite H.
  unfold initialProtection. cbn.
  destruct (accountConfig.protectionEnabled acc); reflexivity.
Qed.

(** X30. The manager's [toggleProtection(slot)] keeps the persisted
    switch and the running session in step: it negates the state the
    slot was constructed with (the account's own switch if it has one,
    else the global setting), writes the new state to the account, and
    forces it on the session if there is one; a session constructed from
    the changed account starts in that state, and a second call brings
    the first state back. *)
Theorem manager_toggle_persists {Vec3 : Type} st accounts slot acc
    (bot : option (@State Vec3)) now :
  find (fun a => accountConfig.slot a =? slot) accounts = Some acc ->
  let before := initialProtection (mkConfig st acc) in
  let '(accounts', bot', answer) :=
    BotManager.toggleProtection st accounts slot bot in
  exists acc',
    find (fun a => accountConfig.slot a =? slot) accounts' = Some acc'
    /\ accountConfig.username acc' = accountConfig.username acc
    /\ initialProtection (mkConfig st acc') = negb before
    /\ toggled_enabled answer = Some (negb before)
    /\ protectionEnabled (@constructor Vec3 (mkConfig st acc') now) = negb before
    /\ (forall s, bot = Some s ->
        exists s', bot' = Some s' /\ protectionEnabled s' = negb before)
    /\ (let '(accounts'', bot'', _) :=
          BotManager.toggleProtection st accounts' slot bot' in
        exists acc'',
          find (fun a => accountConfig.slot a =? slot) accounts'' = Some acc''
          /\ initialProtection (mkConfig st acc'') = before
          /\ (forall s, bot = Some s ->
              exists s'', bot'' = Some s'' /\ protectionEnabled s'' = before)).
Proof.
  intros H. cbv zeta. rewrite (toggle_once st accounts slot acc bot H).
  pose proof (setProtection_find slot
                (negb (initialProtection (mkConfig st acc))) accounts acc H) as H1.
  eexists. split; [exact H1 |]. split; [reflexivity |].
  split; [reflexivity |]. split; [reflexivity |]. split; [reflexivity |].
  split.
  { intros s ->. eexists. split; reflexivity. }
  rewrite (toggle_once st _ slot _ _ H1).
  pose proof (setProtection_find slot
                (negb (initialProtection (mkConfig st
                   (accountConfig.mk (accountConfig.slot acc)
                      (accountConfig.username acc)
                      (Some (negb (initialProtection (mkConfig st acc))))))))
                _ _ H1) as H2.
  eexists. split; [exact H2 |].
  split; [unfold initialProtection; cbn; apply negb_involutive |].
  intros s ->. eexists. split; [reflexivity |].
  unfold initialProtection. cbn. apply negb_involutive.
Qed.

(** * The further properties on the concrete slot *)

Import Cases.

Lemma formatDuration_truncates_witness :
  0 <= 93784000 < 9007199254740992
  /\ ((exists d h m,
          formatDuration 93784000
          = pretty d +:+ "g " +:+ pretty h +:+ "s " +:+ pretty m +:+ "dk"
          /\ 0 < d /\ 0 <= h < 24 /\ 0 <= m < 60
          /\ ((d * 24 + h) * 60 + m) * 60000 <= 93784000
             < ((d * 24 + h) * 60 + m + 1) * 60000)
      \/ (exists h m,
             formatDuration 93784000 = pretty h +:+ "s " +:+ pretty m +:+ "dk"
             /\ 0 < h < 24 /\ 0 <= m < 60
             /\ (h * 60 + m) * 60000 <= 93784000 < (h * 60 + m + 1) * 60000)
      \/ (exists m sec,
             formatDuration 93784000
             = pretty m +:+ "dk " +:+ pretty sec +:+ "sn"
             /\ 0 < m < 60 /\ 0 <= sec < 60
             /\ (m * 60 + sec) * 1000 <= 93784000 < (m * 60 + sec + 1) * 1000)
      \/ (exists sec,
             formatDuration 93784000 = pretty sec +:+ "sn"
             /\ 0 <= sec < 60 /\ sec * 1000 <= 93784000 < (sec + 1) * 1000)).
Proof. split; [lia | apply formatDuration_truncates; lia]. Defined.

Lemma session_accounting_witness :
  1000 <> 0
  /\ StatsReport.uptime
       (getStats cfg 9000 (onEnd cfg 2000 (onLogin cfg 1000 connectingSlot)))
     = totalUptime (stats connectingSlot) + (2000 - 1000)
  /\ StatsReport.reconnects
       (getStats cfg 9000 (onEnd cfg 2000 (onLogin cfg 1000 connectingSlot)))
     = reconnects (stats connectingSlot)
       + (if 0 <? reconnectAttempts connectingSlot then 1 else 0).
Proof. split; [lia | apply session_accounting; lia]. Defined.

Lemma pause_resume_round_trip_witness :
  isPaused atHome = false
  /\ fst (resume (fst (pause atHome))) = atHome
  /\ fst (pause (fst (pause atHome))) = fst (pause atHome).
Proof. split; [reflexivity | apply pause_resume_round_trip; reflexivity]. Defined.

Lemma paused_loops_idle_witness :
  isPaused pausedHome = true
  /\ antiAfkTick pausedHome = pausedHome
  /\ proximityTick distanceTo cfg 400000 eveWorld pausedHome = (pausedHome, [])
  /\ inventoryFullness eveWorld pausedHome = (pausedHome, None)
  /\ checkFood eveWorld pausedHome
     = (scheduleCheckFood checkInterval pausedHome, []).
Proof. split; [reflexivity | apply paused_loops_idle; reflexivity]. Defined.

Lemma paused_slot_not_reconnected_witness :
  isPaused pausedHome = true
  /\ nothingScheduled pausedHome (onEnd cfg 5000 pausedHome)
  /\ status (onEnd cfg 5000 pausedHome) = offline
  /\ resume (onEnd cfg 5000 pausedHome) = (onEnd cfg 5000 pausedHome, false)
  /\ isPaused (onLogin cfg 9000 (fst (start false (onEnd cfg 5000 pausedHome))))
     = true.
Proof.
  split; [reflexivity |].
  apply (paused_slot_not_reconnected cfg 5000 9000 false pausedHome). reflexivity.
Defined.

Lemma move_answered_by_timeout_witness :
  move "forward" (Some 5) emptyWorld atHome = (pressed, movePending moving)
  /\ forallb isCheck [mvCheck emptyWorld pressed; mvCheck nearWorld pressed] = true
  /\ (bot dropped = false \/ entity emptyWorld <> None)
  /\ exists a,
       answers distanceTo
               ([mvCheck emptyWorld pressed; mvCheck nearWorld pressed]
                  ++ mvTimeout emptyWorld dropped :: [mvCheck nearWorld pressed])
               moving
       = [a].
Proof.
  split; [reflexivity |]. split; [reflexivity |]. split; [left; reflexivity |].
  apply (move_answered_by_timeout distanceTo "forward" (Some 5) emptyWorld atHome
                                  pressed moving);
    [reflexivity | reflexivity | left; reflexivity].
Defined.

Lemma move_releases_control_witness :
  moveCheck distanceTo nearWorld moving atHome
  = (released, resolved moving, Some (mkResult true "Moved forward 10 blocks"))
  /\ bot atHome = true
  /\ trace released = trace atHome ++ [setControlState (move_direction moving) false].
Proof.
  split; [reflexivity |]. split; [reflexivity |].
  apply (proj1 (move_releases_control distanceTo nearWorld moving atHome)
               released (resolved moving)
               (mkResult true "Moved forward 10 blocks"));
    reflexivity.
Defined.

Lemma dropItem_tosses_witness :
  let d := dropItem "stone" None allResolve stockedWorld atHome in
  success (snd d) = true
  /\ fst d = [mkToss cobblestone 64; mkToss stonePickaxe 1].
Proof.
  cbv zeta.
  assert (E : success (snd (dropItem "stone" None allResolve stockedWorld atHome))
              = true) by reflexivity.
  split; [exact E |].
  pose proof (dropItem_tosses "stone" None allResolve stockedWorld atHome) as H.
  cbv zeta in H.
  destruct (dropItem "stone" None allResolve stockedWorld atHome) as [calls r].
  destruct H as [_ H]. destruct (H E) as [Hc _]. cbn [fst]. rewrite Hc.
  reflexivity.
Defined.

Lemma dropItem_complete_witness :
  bot atHome = true /\ status atHome = online
  /\ (forall j, allResolve j = (Resolved, true))
  /\ List.filter (selected "all") (items stockedWorld) <> []
  /\ dropItem "all" (Some 0) allResolve stockedWorld atHome
     = (map (fun item => mkToss item (dropCount (Some 0) item))
            (List.filter (selected "all") (items stockedWorld)),
        mkResult true
          ("Dropped: "
             +:+ String.concat ", "
                   (map (droppedLine (Some 0))
                        (List.filter (selected "all") (items stockedWorld)))))
  /\ (Some 0 = None \/ Some 0 = Some 0 ->
      map toss_count (fst (dropItem "all" (Some 0) allResolve stockedWorld atHome))
      = map item_count (List.filter (selected "all") (items stockedWorld))).
Proof.
  split; [reflexivity |]. split; [reflexivity |].
  split; [intros j; reflexivity |]. split; [discriminate |].
  apply (dropItem_complete "all" (Some 0) allResolve stockedWorld atHome);
    [reflexivity | reflexivity | intros j; reflexivity | discriminate].
Defined.

Lemma fullness_alert_once_witness :
  inventoryAlertSent alerted = true
  /\ Forall (fun w => emptySlotCount w <= 5) [fullWorld; fourLeftWorld; fullWorld]
  /\ fullnessAlerts [fullWorld; fourLeftWorld; fullWorld] alerted = [].
Proof.
  assert (H : Forall (fun w : @World Z => emptySlotCount w <= 5)
                     [fullWorld; fourLeftWorld; fullWorld])
    by (repeat constructor; cbn; lia).
  split; [reflexivity |]. split; [exact H |].
  apply fullness_alert_once; [reflexivity | exact H].
Defined.

Lemma scan_idle_witness :
  existsb (inAlertRange distanceTo cfg friendlyWorld atHome)
          (entities friendlyWorld) = false
  /\ proximityTick distanceTo cfg 400000 friendlyWorld atHome = (atHome, []).
Proof. split; [reflexivity | apply scan_idle; reflexivity]. Defined.

Lemma start_not_repeated_witness :
  snd (start false registered) = true
  /\ start true (fst (start false registered))
     = (fst (start false registered), false)
  /\ isConnecting registered = false /\ bot registered = false
  /\ status (fst (start true registered)) = error
  /\ snd (start true registered) = false
  /\ snd (start false (fst (start true registered))) = true.
Proof.
  destruct (start_not_repeated true registered) as [H1 H2].
  split; [reflexivity |]. split; [exact (H1 eq_refl) |].
  split; [reflexivity |]. split; [reflexivity |].
  exact (H2 eq_refl eq_refl).
Defined.

Lemma stop_while_connecting_witness :
  let x := run distanceTo cfg whileConnecting (fst (stop connectingSlot)) in
  isConnecting connectingSlot = true
  /\ forallb (fun p => negb (clearsConnecting (snd p))) whileConnecting = true
  /\ start false x = (x, false)
  /\ snd (start false (onLogin cfg 500 x)) = true
  /\ snd (start false (onEnd cfg 500 x)) = true
  /\ snd (start false (onKicked "Connection throttled" x)) = true
  /\ snd (start false (onError x)) = true.
Proof.
  cbv zeta. split; [reflexivity |]. split; [reflexivity |].
  apply (stop_while_connecting distanceTo cfg 500 "Connection throttled" false
           whileConnecting connectingSlot); reflexivity.
Defined.

Lemma restart_survives_stop_witness :
  isConnecting atHome = false /\ createThrows (at_ 5000) = false
  /\ timers (fst (stop (fst (restart atHome)))) !! nextTimer atHome
     = Some (mkTimer cbRestart 2000 false)
  /\ isManuallyStopped (fst (stop (fst (restart atHome)))) = true
  /\ bot (fst (fire distanceTo cfg (at_ 5000) (nextTimer atHome)
                    (fst (stop (fst (restart atHome)))))) = true
  /\ isManuallyStopped
       (fst (fire distanceTo cfg (at_ 5000) (nextTimer atHome)
                  (fst (stop (fst (restart atHome)))))) = false
  /\ starts (fst (fire distanceTo cfg (at_ 5000) (nextTimer atHome)
                       (fst (stop (fst (restart atHome))))))
     = S (starts (fst (stop (fst (restart atHome))))).
Proof.
  split; [reflexivity |]. split; [reflexivity |].
  apply (restart_survives_stop distanceTo cfg (at_ 5000) atHome); reflexivity.
Defined.

Lemma kicked_already_online_witness :
  includes "You are already online" "already online"
  || includes "You are already online" "already connected" = true
  /\ settings.autoReconnect (config_settings cfg) = true
  /\ isPaused loggedIn = false /\ isManuallyStopped loggedIn = false
  /\ attemptsExhausted cfg loggedIn = false
  /\ status (onKicked "You are already online" loggedIn) = kicked
  /\ timers (onKicked "You are already online" loggedIn) = timers loggedIn
  /\ status (onEnd cfg 2000 (onKicked "You are already online" loggedIn)) = offline
  /\ timers (onEnd cfg 2000 (onKicked "You are already online" loggedIn))
     !! nextTimer loggedIn
     = Some (mkTimer cbReconnect 6000 false)
  /\ tempReconnectDelay
       (onEnd cfg 2000 (onKicked "You are already online" loggedIn)) = None.
Proof.
  do 5 (split; [reflexivity |]).
  apply (kicked_already_online cfg 2000 "You are already online" loggedIn);
    reflexivity.
Defined.

Lemma lobby_retry_loop_witness :
  isInLobby atHome = false /\ bot atHome = true
  /\ enterLobbyMode (enterLobbyMode atHome) = enterLobbyMode atHome
  /\ lobbyEvents (stats (enterLobbyMode atHome)) = lobbyEvents (stats atHome) + 1
  /\ timers (enterLobbyMode atHome) !! nextTimer atHome
     = Some (mkTimer cbLobbyFirstTry 10000 false)
  /\ timers (enterLobbyMode atHome) !! S (nextTimer atHome)
     = Some (mkTimer cbLobbyRetry 30000 true)
  /\ trace (fst (fire distanceTo cfg (at_ 12000) (nextTimer atHome)
                      (enterLobbyMode atHome)))
     = trace (enterLobbyMode atHome) ++ [chat "/home sp1"]
  /\ trace (fst (fire distanceTo cfg (at_ 12000) (S (nextTimer atHome))
                      (enterLobbyMode atHome)))
     = trace (enterLobbyMode atHome) ++ [chat "/home sp1"]
  /\ timers (exitLobbyMode cfg (enterLobbyMode atHome)) !! S (nextTimer atHome)
     = None
  /\ trace (fst (fire distanceTo cfg (at_ 12000) (nextTimer atHome)
                      (exitLobbyMode cfg (enterLobbyMode atHome))))
     = trace (exitLobbyMode cfg (enterLobbyMode atHome)).
Proof.
  split; [reflexivity |]. split; [reflexivity |].
  apply (lobby_retry_loop distanceTo cfg (at_ 12000) atHome); reflexivity.
Defined.

Lemma whitelist_add_remove_witness :
  NoDup (map toLowerCase (BotManager.getWhitelist cfg))
  /\ success (snd (BotManager.addToWhitelist "Steve" cfg)) = true
  /\ NoDup (map toLowerCase
              (BotManager.getWhitelist (fst (BotManager.addToWhitelist "Steve" cfg))))
  /\ success (snd (BotManager.removeFromWhitelist "STEVE"
                     (fst (BotManager.addToWhitelist "STEVE" cfg)))) = true
  /\ BotManager.getWhitelist
       (fst (BotManager.removeFromWhitelist "STEVE"
               (fst (BotManager.addToWhitelist "STEVE" cfg))))
     = BotManager.getWhitelist cfg.
Proof.
  assert (Hn : NoDup (map toLowerCase (BotManager.getWhitelist cfg)))
    by apply NoDup_singleton.
  split; [exact Hn |]. split; [reflexivity |].
  split; [exact (proj1 (proj1 (whitelist_add_remove "Steve" cfg) Hn)) |].
  exact (proj2 (proj2 (whitelist_add_remove "STEVE" cfg)) eq_refl).
Defined.

Lemma whitelist_edit_effective_witness :
  toLowerCase (username steve) = toLowerCase "STEVE"
  /\ whitelisted
       (@constructor Z (fst (BotManager.addToWhitelist "STEVE" cfg)) 0) steve
     = true
  /\ whitelisted
       (@constructor Z (fst (BotManager.removeFromWhitelist "STEVE" cfg)) 0) steve
     = false.
Proof.
  split; [reflexivity | apply whitelist_edit_effective; reflexivity].
Defined.

Lemma manager_toggle_persists_witness :
  find (fun a => accountConfig.slot a =? 2) accounts = Some (config_account cfg)
  /\ let '(accounts', bot', answer) :=
       BotManager.toggleProtection (config_settings cfg) accounts 2 (Some atHome) in
     exists acc',
       find (fun a => accountConfig.slot a =? 2) accounts' = Some acc'
       /\ accountConfig.username acc' = accountConfig.username (config_account cfg)
       /\ initialProtection (mkConfig (config_settings cfg) acc')
          = negb (initialProtection
                    (mkConfig (config_settings cfg) (config_account cfg)))
       /\ BotManager.toggled_enabled answer
          = Some (negb (initialProtection
                          (mkConfig (config_settings cfg) (config_account cfg))))
       /\ protectionEnabled
            (@constructor Z (mkConfig (config_settings cfg) acc') 0)
          = negb (initialProtection
                    (mkConfig (config_settings cfg) (config_account cfg)))
       /\ (forall s, Some atHome = Some s ->
           exists s', bot' = Some s'
                      /\ protectionEnabled s'
                         = negb (initialProtection
                                   (mkConfig (config_settings cfg)
                                             (config_account cfg))))
       /\ (let '(accounts'', bot'', _) :=
             BotManager.toggleProtection (config_settings cfg) accounts' 2 bot' in
           exists acc'',
             find (fun a => accountConfig.slot a =? 2) accounts'' = Some acc''
             /\ initialProtection (mkConfig (config_settings cfg) acc'')
                = initialProtection
                    (mkConfig (config_settings cfg) (config_account cfg))
             /\ (forall s, Some atHome = Some s ->
                 exists s'', bot'' = Some s''
                             /\ protectionEnabled s''
                                = initialProtection
                                    (mkConfig (config_settings cfg)
                                              (config_account cfg)))).
Proof.
  split; [reflexivity |].
  apply (manager_toggle_persists (config_settings cfg) accounts 2
                                 (config_account cfg) (Some atHome) 0).
  reflexivity.
Defined.

Lemma parseSlots_sorted_cover_witness :
  plainText "3,[1-2],2"
  /\ match parseSlots "3,[1-2],2" with
     | allSlots => "3,[1-2],2" = "all"
     | listed l =>
         "3,[1-2],2" <> "all"
         /\ StronglySorted Z.lt l
         /\ forall x,
              In x l
              <-> exists part,
                    In part (splitOn "," (list_ascii_of_string "3,[1-2],2"))
                    /\ partDenotes part x
     end.
Proof.
  assert (H : plainText "3,[1-2],2")
    by (split; [repeat constructor | cbn; lia]).
  split; [exact H | exact (parseSlots_sorted_cover "3,[1-2],2" H)].
Defined.
